(** * AI_Powered_Banking: the risk-decision core, embedded and verified

    A shallow embedding of the decision logic of the banking demo:

    - [ProactiveDefense]: [ProactiveDefenseSystem.detect_threat],
      [_update_response_plan] and [block_access]
      (app/security/proactive_defense_system.py);
    - [Authentication]: [AuthenticationSystem.evaluate_risk] and
      [authenticate] (app/security/authentication_system.py) and the
      final branch of [simulate_login] (main.py);
    - [AIEngine]: [AIEngine.predict_risk_level] (app/ai/ai_engine.py);
    - [Transaction]: the four status transitions of
      app/models/transaction.py;
    - [UserDatabase]: [add_user], [update_user], [add_login_record],
      [add_trusted_device] and [compare_with_current]
      (app/models/user_database.py).

    Conventions.  Python objects that are mutated in place become
    explicit state: every method takes the object and returns the
    result together with the new object.  Python [float]s are read as
    exact rationals ([Q]); the decimal constants of the source are the
    same decimal constants here, and equality of risks is [Qeq].  Where
    the inputs of a computation are finitely many, the same computation
    is also run on binary64 floats and compared with the rational one.
    [datetime.now()] and [random.random()] are inputs of the call. *)

From stdpp Require Import base option list gmap strings pretty.
From Stdlib Require Import ZArith QArith Qminmax Lia Lqa Ascii.
From Corelib Require Import PrimFloat.

#[local] Set Warnings "-inexact-float".

Close Scope Q_scope.

(** ** Shared helpers *)

(** Python's [x < y] on numbers, as a boolean. *)
Definition Qlt_bool (x y : Q) : bool := negb (Qle_bool y x).

(** ** Threat detection and response
    (app/security/proactive_defense_system.py) *)

Module ProactiveDefense.

(** Threat level constants of the class. *)
Definition THREAT_LEVEL_LOW : Z := 1.
Definition THREAT_LEVEL_MEDIUM : Z := 2.
Definition THREAT_LEVEL_HIGH : Z := 3.
Definition THREAT_LEVEL_CRITICAL : Z := 4.

(** The dict under the ['transaction'] key; [detect_threat] reads only
    its ['amount'] entry, through [transaction.get('amount', 0)]. *)
Record transaction_data := { amount : option Q }.

(** [activity_data]: the three keys [detect_threat] looks at, each of
    them optional (['key' in activity_data]).  Other keys of the dict
    are never read. *)
Record activity_data := {
  login_attempts : option Z;
  transaction : option transaction_data;
  ip_address : option string
}.

(** The arguments of the f-string stored under ['evidence']. *)
Inductive evidence :=
| LoginAttemptsInQuickSuccession (n : Z)
| UnusuallyLargeTransaction (amt : option Q)
| AccessAttemptFromBlockedIP (ip : string).

(** [threat_details] once a rule has fired: the three keys are always
    written together, a later rule overwrites all three. *)
Record threat_details := {
  td_type : string;
  td_severity : string;
  td_evidence : evidence
}.

(** The [threat_details] dict itself: [None] is the empty dict. *)
Record threat_record := {
  tr_timestamp : string;
  tr_details : option threat_details;
  tr_activity_data : activity_data
}.

(** The dict given to [block_access]. *)
Record access_data := {
  ad_ip_address : option string;
  ad_reason : option string
}.

(** Entries of [security_alerts]: the one appended by [detect_threat]
    (status ['new']) and the one appended by [block_access]
    (action ['block_access'], status ['resolved']). *)
Inductive security_alert :=
| NewThreatAlert (timestamp : string) (level : Z) (details : option threat_details)
| BlockAccessAlert (timestamp : string) (details : access_data).

Record defense_system := {
  threat_level : Z;
  response_plan : string;
  active_threats : list threat_record;
  blocked_ips : list string;
  security_alerts : list security_alert;
  last_scan_time : string
}.

(** [__init__], at the time [now]. *)
Definition init (now : string) : defense_system :=
  {| threat_level := THREAT_LEVEL_LOW;
     response_plan := "Standard monitoring";
     active_threats := [];
     blocked_ips := [];
     security_alerts := [];
     last_scan_time := now |}.

Definition set_threat_level (self : defense_system) (l : Z) : defense_system :=
  {| threat_level := l;
     response_plan := response_plan self;
     active_threats := active_threats self;
     blocked_ips := blocked_ips self;
     security_alerts := security_alerts self;
     last_scan_time := last_scan_time self |}.

Definition set_response_plan (self : defense_system) (p : string) : defense_system :=
  {| threat_level := threat_level self;
     response_plan := p;
     active_threats := active_threats self;
     blocked_ips := blocked_ips self;
     security_alerts := security_alerts self;
     last_scan_time := last_scan_time self |}.

Definition append_active_threat (self : defense_system) (t : threat_record) : defense_system :=
  {| threat_level := threat_level self;
     response_plan := response_plan self;
     active_threats := active_threats self ++ [t];
     blocked_ips := blocked_ips self;
     security_alerts := security_alerts self;
     last_scan_time := last_scan_time self |}.

Definition append_security_alert (self : defense_system) (a : security_alert) : defense_system :=
  {| threat_level := threat_level self;
     response_plan := response_plan self;
     active_threats := active_threats self;
     blocked_ips := blocked_ips self;
     security_alerts := security_alerts self ++ [a];
     last_scan_time := last_scan_time self |}.

Definition append_blocked_ip (self : defense_system) (ip : string) : defense_system :=
  {| threat_level := threat_level self;
     response_plan := response_plan self;
     active_threats := active_threats self;
     blocked_ips := blocked_ips self ++ [ip];
     security_alerts := security_alerts self;
     last_scan_time := last_scan_time self |}.

(** [_update_response_plan]: an if/elif chain on the level, with no
    final else. *)
Definition _update_response_plan (self : defense_system) : defense_system :=
  if (threat_level self =? THREAT_LEVEL_LOW)%Z then
    set_response_plan self "Standard monitoring"
  else if (threat_level self =? THREAT_LEVEL_MEDIUM)%Z then
    set_response_plan self "Enhanced monitoring, notify security team"
  else if (threat_level self =? THREAT_LEVEL_HIGH)%Z then
    set_response_plan self
      "Block suspicious activity, require additional authentication, alert security team"
  else if (threat_level self =? THREAT_LEVEL_CRITICAL)%Z then
    set_response_plan self
      "Lockdown affected systems, block all suspicious IPs, immediate security team response"
  else self.

(** What one call of [detect_threat] draws from its environment:
    the value of [random.random()] (consulted only for a transaction
    above 10000) and the two [datetime.now().isoformat()] stamps. *)
Record call_env := {
  rnd : Q;
  now_threat : string;
  now_alert : string
}.

(** The locals [threat_detected] and [threat_details] while the rules
    run, next to the object being mutated. *)
Record scan := {
  sc_self : defense_system;
  threat_detected : bool;
  sc_details : option threat_details
}.

Definition fire (sc : scan) (d : threat_details) (l : Z) : scan :=
  {| sc_self := set_threat_level (sc_self sc) l;
     threat_detected := true;
     sc_details := Some d |}.

(** [transaction.get('amount', 0)] *)
Definition get_amount (t : transaction_data) : Q := default 0%Q (amount t).

(** Rule 1: rapid login attempts. *)
Definition check_login_attempts (a : activity_data) (sc : scan) : scan :=
  match login_attempts a with
  | Some n =>
      if (5 <? n)%Z then
        fire sc {| td_type := "brute_force_attempt";
                   td_severity := "high";
                   td_evidence := LoginAttemptsInQuickSuccession n |}
             THREAT_LEVEL_HIGH
      else sc
  | None => sc
  end.

(** Rule 2: unusual transaction, flagged when the random draw is
    below 0.3. *)
Definition check_transaction (a : activity_data) (e : call_env) (sc : scan) : scan :=
  match transaction a with
  | Some t =>
      if Qlt_bool 10000 (get_amount t) then
        if Qlt_bool (rnd e) 0.3 then
          fire sc {| td_type := "unusual_transaction";
                     td_severity := "medium";
                     td_evidence := UnusuallyLargeTransaction (amount t) |}
               THREAT_LEVEL_MEDIUM
        else sc
      else sc
  | None => sc
  end.

(** Rule 3: access from a blocked IP address. *)
Definition check_ip_address (a : activity_data) (sc : scan) : scan :=
  match ip_address a with
  | Some ip =>
      if decide (ip ∈ blocked_ips (sc_self sc)) then
        fire sc {| td_type := "blocked_ip_access";
                   td_severity := "critical";
                   td_evidence := AccessAttemptFromBlockedIP ip |}
             THREAT_LEVEL_CRITICAL
      else sc
  | None => sc
  end.

(** The dict returned next to the boolean. *)
Record threat_info := {
  ti_threat_detected : bool;
  ti_threat_level : Z;
  ti_threat_details : option threat_details;
  ti_response_plan : string
}.

(** The tail of [detect_threat]: record the threat, update the plan,
    raise the alert. *)
Definition record_threat (a : activity_data) (e : call_env) (sc : scan) : defense_system :=
  if threat_detected sc then
    let s1 := append_active_threat (sc_self sc)
                {| tr_timestamp := now_threat e;
                   tr_details := sc_details sc;
                   tr_activity_data := a |} in
    let s2 := _update_response_plan s1 in
    append_security_alert s2
      (NewThreatAlert (now_alert e) (threat_level s2) (sc_details sc))
  else sc_self sc.

Definition detect_threat (self : defense_system) (a : activity_data) (e : call_env)
  : (bool * threat_info) * defense_system :=
  let sc0 := {| sc_self := self; threat_detected := false; sc_details := None |} in
  let sc1 := check_login_attempts a sc0 in
  let sc2 := check_transaction a e sc1 in
  let sc3 := check_ip_address a sc2 in
  let self' := record_threat a e sc3 in
  ((threat_detected sc3,
    {| ti_threat_detected := threat_detected sc3;
       ti_threat_level := threat_level self';
       ti_threat_details := if threat_detected sc3 then sc_details sc3 else None;
       ti_response_plan := response_plan self' |}),
   self').

(** [block_access], at the time [now]; it always returns [True]. *)
Definition block_access (self : defense_system) (ad : access_data) (now : string)
  : bool * defense_system :=
  let s1 :=
    match ad_ip_address ad with
    | Some ip =>
        if decide (ip ∈ blocked_ips self) then self
        else append_blocked_ip self ip
    | None => self
    end in
  (true, append_security_alert s1 (BlockAccessAlert now ad)).

(** A sequence of activity events, each processed by one call. *)
Fixpoint detect_threats (self : defense_system)
    (evs : list (activity_data * call_env)) : defense_system :=
  match evs with
  | [] => self
  | (a, e) :: rest => detect_threats (snd (detect_threat self a e)) rest
  end.

(** Which rules fire on an event, as the conditions of the source. *)
Definition login_rule_fires (a : activity_data) : bool :=
  match login_attempts a with Some n => (5 <? n)%Z | None => false end.

Definition transaction_rule_fires (a : activity_data) (e : call_env) : bool :=
  match transaction a with
  | Some t => Qlt_bool 10000 (get_amount t) && Qlt_bool (rnd e) 0.3
  | None => false
  end.

Definition ip_rule_fires (self : defense_system) (a : activity_data) : bool :=
  match ip_address a with
  | Some ip => bool_decide (ip ∈ blocked_ips self)
  | None => false
  end.

(** *** Notions used to state the properties *)

(** Conditions under which a rule stays silent, as properties of the
    event. *)
Definition login_attempts_quiet (a : activity_data) : Prop :=
  match login_attempts a with
  | Some n => (n <= 5)%Z
  | None => True
  end.

Definition transaction_quiet (a : activity_data) : Prop :=
  match transaction a with
  | Some t => (get_amount t <= 10000)%Q
  | None => True
  end.

Definition ip_address_quiet (self : defense_system) (a : activity_data) : Prop :=
  match ip_address a with
  | Some ip => ip ∉ blocked_ips self
  | None => True
  end.

(** The level an event leaves behind: the floor of the last rule that
    fired, in the order of the source. *)
Definition level_after (self : defense_system) (a : activity_data) (e : call_env) : Z :=
  if ip_rule_fires self a then THREAT_LEVEL_CRITICAL
  else if transaction_rule_fires a e then THREAT_LEVEL_MEDIUM
  else if login_rule_fires a then THREAT_LEVEL_HIGH
  else threat_level self.

(** *** The other operations of the class *)

Definition set_last_scan_time (self : defense_system) (t : string) : defense_system :=
  {| threat_level := threat_level self;
     response_plan := response_plan self;
     active_threats := active_threats self;
     blocked_ips := blocked_ips self;
     security_alerts := security_alerts self;
     last_scan_time := t |}.

(** The dict returned by [run_security_scan]. *)
Record scan_results := {
  sr_scan_time : string;
  sr_vulnerabilities_found : Z;
  sr_suspicious_patterns : Z;
  sr_threat_level : Z;
  sr_response_plan : string
}.

(** [run_security_scan], at the time [now]; the two counts are the
    values drawn by [random.randint(0, 3)] and [random.randint(0, 2)]. *)
Definition run_security_scan (self : defense_system) (now : string)
    (vulnerabilities_found suspicious_patterns : Z) : scan_results * defense_system :=
  let s1 := set_last_scan_time self now in
  let s2 := if (2 <? vulnerabilities_found)%Z || (1 <? suspicious_patterns)%Z
            then _update_response_plan (set_threat_level s1 THREAT_LEVEL_HIGH)
            else s1 in
  ({| sr_scan_time := last_scan_time s2;
      sr_vulnerabilities_found := vulnerabilities_found;
      sr_suspicious_patterns := suspicious_patterns;
      sr_threat_level := threat_level s2;
      sr_response_plan := response_plan s2 |},
   s2).

(** The dict returned by [get_security_status]. *)
Record security_status := {
  ss_threat_level : Z;
  ss_response_plan : string;
  ss_active_threats : nat;
  ss_blocked_ips : nat;
  ss_security_alerts : nat;
  ss_last_scan_time : string
}.

Definition get_security_status (self : defense_system) : security_status :=
  {| ss_threat_level := threat_level self;
     ss_response_plan := response_plan self;
     ss_active_threats := length (active_threats self);
     ss_blocked_ips := length (blocked_ips self);
     ss_security_alerts := length (security_alerts self);
     ss_last_scan_time := last_scan_time self |}.

(** The calls that change a defense system. *)
Inductive operation :=
| DetectThreat (a : activity_data) (e : call_env)
| BlockAccess (ad : access_data) (now : string)
| RunSecurityScan (now : string) (vulnerabilities_found suspicious_patterns : Z).

Definition apply_operation (self : defense_system) (op : operation) : defense_system :=
  match op with
  | DetectThreat a e => (detect_threat self a e).2
  | BlockAccess ad now => (block_access self ad now).2
  | RunSecurityScan now v p => (run_security_scan self now v p).2
  end.

(** The systems the program builds: a fresh one, changed by any
    sequence of calls. *)
Definition run (now : string) (ops : list operation) : defense_system :=
  fold_left apply_operation ops (init now).

(** The response plan that goes with a level, as
    [_update_response_plan] writes it. *)
Definition plan_of (level : Z) : option string :=
  if (level =? THREAT_LEVEL_LOW)%Z then Some "Standard monitoring"
  else if (level =? THREAT_LEVEL_MEDIUM)%Z then
    Some "Enhanced monitoring, notify security team"
  else if (level =? THREAT_LEVEL_HIGH)%Z then
    Some "Block suspicious activity, require additional authentication, alert security team"
  else if (level =? THREAT_LEVEL_CRITICAL)%Z then
    Some "Lockdown affected systems, block all suspicious IPs, immediate security team response"
  else None.

(** The level a severity word names. *)
Definition severity_level (severity : string) : option Z :=
  if decide (severity = "medium") then Some THREAT_LEVEL_MEDIUM
  else if decide (severity = "high") then Some THREAT_LEVEL_HIGH
  else if decide (severity = "critical") then Some THREAT_LEVEL_CRITICAL
  else None.

(** The entries one call of [detect_threat] appends to the two logs. *)
Definition logged_threat (a : activity_data) (e : call_env)
    (d : option threat_details) : threat_record :=
  {| tr_timestamp := now_threat e; tr_details := d; tr_activity_data := a |}.

(** Some rule fires on the event. *)
Definition any_rule_fires (self : defense_system) (a : activity_data) (e : call_env) : bool :=
  login_rule_fires a || transaction_rule_fires a e || ip_rule_fires self a.

(** The details left by the last rule that fires. *)
Definition details_after (self : defense_system) (a : activity_data) (e : call_env)
  : option threat_details :=
  match ip_address a with
  | Some ip =>
      if ip_rule_fires self a then
        Some {| td_type := "blocked_ip_access"; td_severity := "critical";
                td_evidence := AccessAttemptFromBlockedIP ip |}
      else None
  | None => None
  end
  ∪ (match transaction a with
     | Some t =>
         if transaction_rule_fires a e then
           Some {| td_type := "unusual_transaction"; td_severity := "medium";
                   td_evidence := UnusuallyLargeTransaction (amount t) |}
         else None
     | None => None
     end
     ∪ match login_attempts a with
       | Some n =>
           if login_rule_fires a then
             Some {| td_type := "brute_force_attempt"; td_severity := "high";
                     td_evidence := LoginAttemptsInQuickSuccession n |}
           else None
       | None => None
       end).

(** The state is consistent when the plan is the one of the level. *)
Definition plan_matches_level (self : defense_system) : Prop :=
  plan_of (threat_level self) = Some (response_plan self).

End ProactiveDefense.

(** ** Authentication risk evaluation
    (app/security/authentication_system.py, and the decision at the
    end of [simulate_login] in main.py) *)

Module Authentication.

(** [datetime]: the hour of day and the ISO rendering are all the
    source uses. *)
Record datetime := {
  hour : Z;
  isoformat : string
}.

(** The [user_data] dict of a login attempt: the keys read by
    [authenticate] and [evaluate_risk], each optional. *)
Record user_data := {
  device_info : option string;
  location : option string;
  face_data : option string;
  typing_pattern : option string
}.

Record history_entry := {
  he_timestamp : datetime;
  he_device : string;
  he_location : string;
  he_risk_level : Q;
  he_success : bool
}.

Record auth_system := {
  login_time : datetime;
  login_device : string;
  login_location : string;
  risk_factors : list string;
  authentication_history : list history_entry
}.

(** [__init__], at the time [now]. *)
Definition init (now : datetime) : auth_system :=
  {| login_time := now;
     login_device := "";
     login_location := "";
     risk_factors := [];
     authentication_history := [] |}.

(** ["k" not in user_data or not user_data["k"]]: the key is absent
    or its (string) value is empty. *)
Definition missing (v : option string) : bool :=
  match v with
  | None => true
  | Some s => bool_decide (s = "")
  end.

(** Python's [min(x, y)]: [y] when [y < x], else [x]. *)
Definition py_min (x y : Q) : Q := if Qlt_bool y x then y else x.

(** The locals of [evaluate_risk] while the checks run:
    [self.risk_factors] and [risk_level]. *)
Definition add_factor (st : list string * Q) (name : string) (penalty : Q)
  : list string * Q :=
  (st.1 ++ [name], (st.2 + penalty)%Q).

Definition evaluate_risk (self : auth_system) (ud : user_data) : Q * auth_system :=
  let st0 : list string * Q := ([], 0.0%Q) in
  let st1 := if missing (face_data ud)
             then add_factor st0 "Missing facial biometric data" 0.3%Q else st0 in
  let st2 := if missing (typing_pattern ud)
             then add_factor st1 "Missing typing pattern data" 0.2%Q else st1 in
  let h := hour (login_time self) in
  let st3 := if ((2 <=? h) && (h <=? 5))%Z
             then add_factor st2 "Unusual login time" 0.2%Q else st2 in
  (py_min st3.2 1.0%Q,
   {| login_time := login_time self;
      login_device := login_device self;
      login_location := login_location self;
      risk_factors := st3.1;
      authentication_history := authentication_history self |}).

(** The same accumulation on binary64 floats, as the interpreter runs
    it, for the three conditions of [evaluate_risk]. *)
Definition evaluate_risk_binary64 (face_missing typing_missing unusual_hours : bool)
  : PrimFloat.float :=
  let r0 := 0.0%float in
  let r1 := if face_missing then PrimFloat.add r0 0.3 else r0 in
  let r2 := if typing_missing then PrimFloat.add r1 0.2 else r1 in
  let r3 := if unusual_hours then PrimFloat.add r2 0.2 else r2 in
  if PrimFloat.ltb 1.0 r3 then 1.0%float else r3.

(** The dict returned by [authenticate] next to the boolean. *)
Record auth_info := {
  ai_risk_level : Q;
  ai_risk_factors : list string;
  ai_timestamp : string;
  additional_verification_required : bool
}.

Definition authenticate (self : auth_system) (ud : user_data)
  : (bool * auth_info) * auth_system :=
  let s1 := {| login_time := login_time self;
               login_device := default "Unknown device" (device_info ud);
               login_location := default "Unknown location" (location ud);
               risk_factors := risk_factors self;
               authentication_history := authentication_history self |} in
  let '(risk_level, s2) := evaluate_risk s1 ud in
  let s3 := {| login_time := login_time s2;
               login_device := login_device s2;
               login_location := login_location s2;
               risk_factors := risk_factors s2;
               authentication_history :=
                 authentication_history s2 ++
                 [{| he_timestamp := login_time s2;
                     he_device := login_device s2;
                     he_location := login_location s2;
                     he_risk_level := risk_level;
                     he_success := Qlt_bool risk_level 0.7 |}] |} in
  let authentication_successful := Qlt_bool risk_level 0.7 in
  ((authentication_successful,
    {| ai_risk_level := risk_level;
       ai_risk_factors := risk_factors s3;
       ai_timestamp := isoformat (login_time s3);
       additional_verification_required :=
         Qle_bool 0.3 risk_level && Qlt_bool risk_level 0.7 |}),
   s3).

(** The three branches that end [simulate_login] in main.py, on the
    boolean returned by [authenticate] and the risk returned by
    [AIEngine.predict_risk_level]. *)
Inductive login_outcome :=
| LoginSuccessful
| AdditionalVerificationRequested
| LoginDenied.

Definition simulate_login_outcome (auth_result : bool) (risk_level : Q) : login_outcome :=
  if auth_result && Qlt_bool risk_level 0.5 then LoginSuccessful
  else if auth_result && (Qle_bool 0.5 risk_level && Qlt_bool risk_level 0.7)
  then AdditionalVerificationRequested
  else LoginDenied.

(** The decision of the specification, read off the two results of
    [authenticate]: failure is Deny, success with additional
    verification required is Challenge, plain success is Allow. *)
Inductive decision := Allow | Challenge | Deny.

Definition decision_of (r : bool * auth_info) : decision :=
  if negb r.1 then Deny
  else if additional_verification_required r.2 then Challenge
  else Allow.

(** *** Notions used to state the properties *)

(** The hard-coded unusual-hours window: 2 AM to 5 AM, both included. *)
Definition unusual_hour (h : Z) : bool := ((2 <=? h) && (h <=? 5))%Z.

(** A penalty that applies or not. *)
Definition penalty (applies : bool) (p : Q) : Q := if applies then p else 0%Q.

(** The sum of the three independent penalties of a context. *)
Definition penalties (self : auth_system) (ud : user_data) : Q :=
  (penalty (missing (face_data ud)) 0.3
   + penalty (missing (typing_pattern ud)) 0.2
   + penalty (unusual_hour (hour (login_time self))) 0.2)%Q.

(** The risk factors a context calls for, in the order of the checks. *)
Definition expected_factors (self : auth_system) (ud : user_data) : list string :=
  (if missing (face_data ud) then ["Missing facial biometric data"] else [])
  ++ (if missing (typing_pattern ud) then ["Missing typing pattern data"] else [])
  ++ (if unusual_hour (hour (login_time self)) then ["Unusual login time"] else []).

(** A sequence of login attempts on one object. *)
Definition authenticate_all (self : auth_system) (uds : list user_data) : auth_system :=
  fold_left (fun s ud => (authenticate s ud).2) uds self.

(** The history entry of an attempt made at [now]. *)
Definition entry_of (now : datetime) (ud : user_data) : history_entry :=
  let risk := (evaluate_risk (init now) ud).1 in
  {| he_timestamp := now;
     he_device := default "Unknown device" (device_info ud);
     he_location := default "Unknown location" (location ud);
     he_risk_level := risk;
     he_success := Qlt_bool risk 0.7 |}.

End Authentication.

(** ** Risk aggregation (app/ai/ai_engine.py) *)

Module AIEngine.

(** [verification_results.items()]: the entries of the dict in
    iteration order; a dict has each key once. *)
Definition verification_results := list (string * (bool * Q)).

(** The [weights] dict of [predict_risk_level]. *)
Definition weights : gmap string Q :=
  <["face" := 0.35%Q]> (<["typing" := 0.25%Q]>
    (<["location" := 0.2%Q]> (<["device" := 0.2%Q]> ∅))).

(** One iteration of the loop on [(total_risk, total_weight)]. *)
Definition accumulate (acc : Q * Q) (item : string * (bool * Q)) : Q * Q :=
  let '(factor, (_, score)) := item in
  match weights !! factor with
  | Some w =>
      let risk := if decide (factor ∈ ["face"; "typing"])
                  then (1.0 - score)%Q else score in
      ((acc.1 + risk * w)%Q, (acc.2 + w)%Q)
  | None => acc
  end.

Definition predict_risk_level (vr : verification_results) : Q :=
  let '(total_risk, total_weight) := fold_left accumulate vr (0.0%Q, 0.0%Q) in
  if Qeq_bool total_weight 0 then 0.9%Q
  else (total_risk / total_weight)%Q.

(** The same loop on binary64 floats, as the interpreter runs it. *)
Definition weights_binary64 (factor : string) : option float :=
  if decide (factor = "face") then Some 0.35%float
  else if decide (factor = "typing") then Some 0.25%float
  else if decide (factor = "location") then Some 0.2%float
  else if decide (factor = "device") then Some 0.2%float
  else None.

Definition accumulate_binary64 (acc : float * float) (item : string * (bool * float))
  : float * float :=
  let '(factor, (_, score)) := item in
  match weights_binary64 factor with
  | Some w =>
      let risk := if decide (factor ∈ ["face"; "typing"])
                  then PrimFloat.sub 1.0 score else score in
      (PrimFloat.add acc.1 (PrimFloat.mul risk w), PrimFloat.add acc.2 w)
  | None => acc
  end.

Definition predict_risk_level_binary64 (vr : list (string * (bool * float))) : float :=
  let '(total_risk, total_weight) :=
    fold_left accumulate_binary64 vr (0.0%float, 0.0%float) in
  if PrimFloat.eqb total_weight 0 then 0.9%float
  else PrimFloat.div total_risk total_weight.

(** *** The reference definition of the specification *)

Inductive factor := Face | Typing | Location | Device.

Definition factor_key (f : factor) : string :=
  match f with
  | Face => "face" | Typing => "typing"
  | Location => "location" | Device => "device"
  end.

Definition factor_weight (f : factor) : Q :=
  match f with
  | Face => 0.35%Q | Typing => 0.25%Q
  | Location => 0.2%Q | Device => 0.2%Q
  end.

(** The mapping read at a key: the score stored under it, if any. *)
Fixpoint score_of (vr : verification_results) (key : string) : option Q :=
  match vr with
  | [] => None
  | (k, (_, s)) :: rest => if decide (k = key) then Some s else score_of rest key
  end.

(** Contribution of a factor: [(1 - confidence) * weight] for face
    and typing, [risk * weight] for location and device, nothing
    when the factor is absent. *)
Definition contribution (vr : verification_results) (f : factor) : Q :=
  match score_of vr (factor_key f) with
  | Some s =>
      match f with
      | Face | Typing => ((1 - s) * factor_weight f)%Q
      | Location | Device => (s * factor_weight f)%Q
      end
  | None => 0%Q
  end.

Definition present_weight (vr : verification_results) (f : factor) : Q :=
  match score_of vr (factor_key f) with
  | Some _ => factor_weight f
  | None => 0%Q
  end.

Definition all_factors : list factor := [Face; Typing; Location; Device].

Definition Qsum (l : list Q) : Q := fold_right Qplus 0%Q l.

Definition is_present (vr : verification_results) (f : factor) : bool :=
  match score_of vr (factor_key f) with Some _ => true | None => false end.

(** Weighted average over the factors present; 0.9 when none is. *)
Definition aggregate_spec (vr : verification_results) : Q :=
  if existsb (is_present vr) all_factors then
    (Qsum (map (contribution vr) all_factors)
     / Qsum (map (present_weight vr) all_factors))%Q
  else 0.9%Q.

(** The keys of the mapping. *)
Definition keys (vr : verification_results) : list string := map fst vr.

Definition recognized (key : string) : Prop :=
  key ∈ ["face"; "typing"; "location"; "device"].

(** Every score of the mapping lies in [[0,1]]. *)
Definition scores_in_unit (vr : verification_results) : Prop :=
  Forall (fun item => (0 <= item.2.2 /\ item.2.2 <= 1)%Q) vr.

(** *** Notions used to state the properties *)

#[export] Instance factor_eq_dec : EqDecision factor.
Proof. solve_decision. Defined.

(** The factor a dict key names, if any. *)
Definition key_factor (k : string) : option factor :=
  if decide (k = "face") then Some Face
  else if decide (k = "typing") then Some Typing
  else if decide (k = "location") then Some Location
  else if decide (k = "device") then Some Device
  else None.

(** The risk a score stands for: a confidence is inverted. *)
Definition factor_risk (f : factor) (s : Q) : Q :=
  match f with
  | Face | Typing => (1 - s)%Q
  | Location | Device => s
  end.

(** What one entry adds to [total_risk] and to [total_weight]. *)
Definition item_risk (item : string * (bool * Q)) : Q :=
  match key_factor item.1 with
  | Some f => (factor_risk f item.2.2 * factor_weight f)%Q
  | None => 0%Q
  end.

Definition item_weight (item : string * (bool * Q)) : Q :=
  match key_factor item.1 with
  | Some f => factor_weight f
  | None => 0%Q
  end.

Definition total_risk_of (vr : verification_results) : Q :=
  Qsum (map item_risk vr).

Definition total_weight_of (vr : verification_results) : Q :=
  Qsum (map item_weight vr).

(** A quantity read per entry of the dict, and the same quantity read
    per factor of the reference definition. *)
Definition item_value (h : factor -> Q -> Q) (item : string * (bool * Q)) : Q :=
  match key_factor item.1 with
  | Some f => h f item.2.2
  | None => 0%Q
  end.

Definition factor_value (h : factor -> Q -> Q) (vr : verification_results)
    (f : factor) : Q :=
  match score_of vr (factor_key f) with
  | Some s => h f s
  | None => 0%Q
  end.

Definition weighted_risk (f : factor) (s : Q) : Q :=
  (factor_risk f s * factor_weight f)%Q.

Definition plain_weight (f : factor) (_ : Q) : Q := factor_weight f.

(** The mapping holds, under [key], a score equal to [q]. *)
Definition has_score (vr : verification_results) (key : string) (q : Q) : Prop :=
  exists s, score_of vr key = Some s /\ (s == q)%Q.

End AIEngine.

(** ** The transaction state machine (app/models/transaction.py) *)

Module Transaction.

(** Transaction status constants of the class. *)
Definition STATUS_PENDING : string := "pending".
Definition STATUS_COMPLETED : string := "completed".
Definition STATUS_FAILED : string := "failed".
Definition STATUS_BLOCKED : string := "blocked".
Definition STATUS_UNDER_REVIEW : string := "under_review".

(** Values stored in [metadata]: ISO timestamps and reasons are
    strings, the risk score is a number. *)
Inductive meta_value :=
| MStr (s : string)
| MNum (q : Q).

(** [status] is a plain string in the source ([from_dict] stores
    whatever the dict holds), so it is one here. *)
Record transaction := {
  transaction_id : string;
  sender_id : Z;
  receiver_id : Z;
  amount : Q;
  timestamp : string;
  status : string;
  description : string;
  risk_score : Q;
  metadata : gmap string meta_value
}.

(** [__init__] with the generated id and the creation time given. *)
Definition new (id : string) (sender receiver : Z) (amt : Q)
    (descr : string) (now : string) : transaction :=
  {| transaction_id := id;
     sender_id := sender;
     receiver_id := receiver;
     amount := amt;
     timestamp := now;
     status := STATUS_PENDING;
     description := descr;
     risk_score := 0.0%Q;
     metadata := ∅ |}.

Definition set_status (self : transaction) (s : string) : transaction :=
  {| transaction_id := transaction_id self;
     sender_id := sender_id self;
     receiver_id := receiver_id self;
     amount := amount self;
     timestamp := timestamp self;
     status := s;
     description := description self;
     risk_score := risk_score self;
     metadata := metadata self |}.

Definition set_risk_score (self : transaction) (r : Q) : transaction :=
  {| transaction_id := transaction_id self;
     sender_id := sender_id self;
     receiver_id := receiver_id self;
     amount := amount self;
     timestamp := timestamp self;
     status := status self;
     description := description self;
     risk_score := r;
     metadata := metadata self |}.

(** [self.metadata[k] = v] *)
Definition set_metadata (self : transaction) (k : string) (v : meta_value) : transaction :=
  {| transaction_id := transaction_id self;
     sender_id := sender_id self;
     receiver_id := receiver_id self;
     amount := amount self;
     timestamp := timestamp self;
     status := status self;
     description := description self;
     risk_score := risk_score self;
     metadata := <[k := v]> (metadata self) |}.

(** Each transition takes the value of [datetime.now().isoformat()]
    as [now] and returns the boolean with the transaction after the
    call. *)
Definition complete (self : transaction) (now : string) : bool * transaction :=
  if decide (status self = STATUS_PENDING) then
    let s1 := set_status self STATUS_COMPLETED in
    let s2 := set_metadata s1 "completed_at" (MStr now) in
    (true, s2)
  else (false, self).

Definition fail (self : transaction) (reason : string) (now : string) : bool * transaction :=
  if decide (status self ≠ STATUS_COMPLETED) then
    let s1 := set_status self STATUS_FAILED in
    let s2 := set_metadata s1 "failed_at" (MStr now) in
    let s3 := set_metadata s2 "failure_reason" (MStr reason) in
    (true, s3)
  else (false, self).

Definition block (self : transaction) (reason : string) (now : string) : bool * transaction :=
  if decide (status self = STATUS_PENDING) then
    let s1 := set_status self STATUS_BLOCKED in
    let s2 := set_metadata s1 "blocked_at" (MStr now) in
    let s3 := set_metadata s2 "block_reason" (MStr reason) in
    (true, s3)
  else (false, self).

Definition flag_for_review (self : transaction) (score : Q) (now : string)
  : bool * transaction :=
  if decide (status self = STATUS_PENDING) then
    let s1 := set_status self STATUS_UNDER_REVIEW in
    let s2 := set_risk_score s1 score in
    let s3 := set_metadata s2 "flagged_at" (MStr now) in
    let s4 := set_metadata s3 "risk_score" (MNum score) in
    (true, s4)
  else (false, self).

(** A transition call with its arguments. *)
Inductive call :=
| Complete (now : string)
| Fail (reason : string) (now : string)
| Block (reason : string) (now : string)
| FlagForReview (score : Q) (now : string).

Definition perform (self : transaction) (c : call) : bool * transaction :=
  match c with
  | Complete now => complete self now
  | Fail reason now => fail self reason now
  | Block reason now => block self reason now
  | FlagForReview score now => flag_for_review self score now
  end.

(** A sequence of calls: the booleans returned, in order, and the
    transaction at the end. *)
Fixpoint perform_all (self : transaction) (cs : list call) : list bool * transaction :=
  match cs with
  | [] => ([], self)
  | c :: rest =>
      let '(r, self1) := perform self c in
      let '(rs, self2) := perform_all self1 rest in
      (r :: rs, self2)
  end.

(** *** Notions used to state the properties *)

(** A guarded transition: it succeeds exactly under its guard, then
    the status is the target; otherwise the transaction is untouched. *)
Definition guarded (guard : string -> Prop) (target : string)
    (self : transaction) (r : bool * transaction) : Prop :=
  (r.1 = true <-> guard (status self)) /\
  (r.1 = true -> status r.2 = target) /\
  (r.1 = false -> r.2 = self).

(** *** Dict conversion *)

(** The dict of [to_dict] and [from_dict]: every key optional, as
    [from_dict] reads it. *)
Record transaction_dict := {
  d_transaction_id : option string;
  d_sender_id : option Z;
  d_receiver_id : option Z;
  d_amount : option Q;
  d_timestamp : option string;
  d_status : option string;
  d_description : option string;
  d_risk_score : option Q;
  d_metadata : option (gmap string meta_value)
}.

(** [to_dict]: all nine keys, the timestamp as ISO text. *)
Definition to_dict (self : transaction) : transaction_dict :=
  {| d_transaction_id := Some (transaction_id self);
     d_sender_id := Some (sender_id self);
     d_receiver_id := Some (receiver_id self);
     d_amount := Some (amount self);
     d_timestamp := Some (timestamp self);
     d_status := Some (status self);
     d_description := Some (description self);
     d_risk_score := Some (risk_score self);
     d_metadata := Some (metadata self) |}.

(** [from_dict].  [fresh_id] is the [uuid4] the constructor draws when
    it is given no id, or an empty one; [now] is the creation time;
    [fromisoformat text] is the time [datetime.fromisoformat] reads
    from [text], [None] when it raises.  The result is [None] when a
    required key is missing ([KeyError]). *)
Definition from_dict (data : transaction_dict) (fresh_id now : string)
    (fromisoformat : string -> option string) : option transaction :=
  sender ← d_sender_id data;
  receiver ← d_receiver_id data;
  amt ← d_amount data;
  let id := match d_transaction_id data with
            | Some id => if decide (id = "") then fresh_id else id
            | None => fresh_id
            end in
  let t0 := new id sender receiver amt (default "" (d_description data)) now in
  let time := match d_timestamp data with
              | Some text => default (timestamp t0) (fromisoformat text)
              | None => timestamp t0
              end in
  Some {| transaction_id := transaction_id t0;
          sender_id := sender_id t0;
          receiver_id := receiver_id t0;
          amount := amount t0;
          timestamp := time;
          status := default STATUS_PENDING (d_status data);
          description := description t0;
          risk_score := default 0.0%Q (d_risk_score data);
          metadata := default ∅ (d_metadata data) |}.

(** *** The course of the status *)

Definition is_fail (c : call) : bool :=
  match c with Fail _ _ => true | _ => false end.

Definition is_complete (c : call) : bool :=
  match c with Complete _ => true | _ => false end.

(** The status the first call of a sequence gives a pending
    transaction. *)
Definition first_status (c : call) : string :=
  match c with
  | Complete _ => STATUS_COMPLETED
  | Fail _ _ => STATUS_FAILED
  | Block _ _ => STATUS_BLOCKED
  | FlagForReview _ _ => STATUS_UNDER_REVIEW
  end.

(** The status at the end of a sequence of calls on a transaction
    that is not pending. *)
Definition later_status (s : string) (cs : list call) : string :=
  if decide (s = STATUS_COMPLETED) then s
  else if existsb is_fail cs then STATUS_FAILED else s.

(** The status at the end of a sequence of calls on a pending
    transaction. *)
Definition final_status (cs : list call) : string :=
  match cs with
  | [] => STATUS_PENDING
  | c :: rest => later_status (first_status c) rest
  end.

(** The booleans returned along a sequence of calls on a transaction
    that is not pending: only [fail] succeeds, and not once completed. *)
Definition later_results (s : string) (cs : list call) : list bool :=
  map (fun c => is_fail c && bool_decide (s ≠ STATUS_COMPLETED)) cs.

(** The part of a transaction no transition touches. *)
Definition identity_of (self : transaction) : string * Z * Z * Q * string * string :=
  (transaction_id self, sender_id self, receiver_id self, amount self,
   timestamp self, description self).

(** The calls other than [fail] that returned [True]. *)
Fixpoint guarded_successes (cs : list call) (rs : list bool) : nat :=
  match cs, rs with
  | c :: cs', r :: rs' =>
      (if negb (is_fail c) && r then 1 else 0) + guarded_successes cs' rs'
  | _, _ => 0
  end.

End Transaction.

(** ** The user database and the anomaly detector
    (app/models/user_database.py) *)

Module UserDatabase.

(** The dicts are read in this module by what they hold: every call
    is given a dict of its own, which nothing writes to afterwards.
    [UserStore] below takes the dicts as the shared objects they are
    in the source. *)

(** Values of the loosely typed [user_data] dicts. *)
Inductive value :=
| Str (s : string)
| Num (q : Q)
| Bytes (b : list Z)
| Flag (b : bool).

(** A login record: the keys written by the callers and read by
    [compare_with_current], each optional. *)
Record login_record := {
  lr_timestamp : option string;
  lr_device_info : option string;
  lr_location : option string;
  lr_ip_address : option string;
  lr_success : option bool;
  lr_risk_level : option Q
}.

Record database := {
  users : gmap string (gmap string value);
  stored_face : gmap string value;
  stored_typing_pattern : gmap string value;
  trusted_devices : gmap string (list string);
  historical_logins : gmap string (list login_record)
}.

(** [__init__] when the data file does not exist. *)
Definition empty : database :=
  {| users := ∅; stored_face := ∅; stored_typing_pattern := ∅;
     trusted_devices := ∅; historical_logins := ∅ |}.

(** [str(user_id)] *)
Definition str (user_id : Z) : string := pretty user_id.

Definition add_user (self : database) (user_id : Z) (user_data : gmap string value)
  : bool * database :=
  if decide (is_Some (users self !! str user_id)) then (false, self)
  else
    let users1 := <[str user_id := user_data]> (users self) in
    let face1 := match user_data !! "face_data" with
                 | Some v => <[str user_id := v]> (stored_face self)
                 | None => stored_face self
                 end in
    let typing1 := match user_data !! "typing_pattern" with
                   | Some v => <[str user_id := v]> (stored_typing_pattern self)
                   | None => stored_typing_pattern self
                   end in
    (true,
     {| users := users1;
        stored_face := face1;
        stored_typing_pattern := typing1;
        trusted_devices := <[str user_id := []]> (trusted_devices self);
        historical_logins := <[str user_id := []]> (historical_logins self) |}).

Definition update_user (self : database) (user_id : Z) (user_data : gmap string value)
  : bool * database :=
  let user_id_str := str user_id in
  match users self !! user_id_str with
  | None => (false, self)
  | Some old =>
      (* dict.update: the new entries win *)
      let users1 := <[user_id_str := user_data ∪ old]> (users self) in
      let face1 := match user_data !! "face_data" with
                   | Some v => <[user_id_str := v]> (stored_face self)
                   | None => stored_face self
                   end in
      let typing1 := match user_data !! "typing_pattern" with
                     | Some v => <[user_id_str := v]> (stored_typing_pattern self)
                     | None => stored_typing_pattern self
                     end in
      (true,
       {| users := users1;
          stored_face := face1;
          stored_typing_pattern := typing1;
          trusted_devices := trusted_devices self;
          historical_logins := historical_logins self |})
  end.

(** [add_login_record], at the time [now] (ISO text). *)
Definition add_login_record (self : database) (user_id : Z)
    (login_data : login_record) (now : string) : bool * database :=
  let user_id_str := str user_id in
  if decide (is_Some (users self !! user_id_str)) then
    let login_data1 :=
      match lr_timestamp login_data with
      | Some _ => login_data
      | None =>
          {| lr_timestamp := Some now;
             lr_device_info := lr_device_info login_data;
             lr_location := lr_location login_data;
             lr_ip_address := lr_ip_address login_data;
             lr_success := lr_success login_data;
             lr_risk_level := lr_risk_level login_data |}
      end in
    let logins := default [] (historical_logins self !! user_id_str) in
    (true,
     {| users := users self;
        stored_face := stored_face self;
        stored_typing_pattern := stored_typing_pattern self;
        trusted_devices := trusted_devices self;
        historical_logins :=
          <[user_id_str := logins ++ [login_data1]]> (historical_logins self) |})
  else (false, self).

Definition set_trusted_devices (self : database) (td : gmap string (list string))
  : database :=
  {| users := users self;
     stored_face := stored_face self;
     stored_typing_pattern := stored_typing_pattern self;
     trusted_devices := td;
     historical_logins := historical_logins self |}.

Definition add_trusted_device (self : database) (user_id : Z) (device_info : string)
  : bool * database :=
  let user_id_str := str user_id in
  if decide (is_Some (users self !! user_id_str)) then
    (* initialise the list when the user has none *)
    let s1 := match trusted_devices self !! user_id_str with
              | Some _ => self
              | None => set_trusted_devices self
                          (<[user_id_str := []]> (trusted_devices self))
              end in
    let devices := default [] (trusted_devices s1 !! user_id_str) in
    if decide (device_info ∈ devices) then (true, s1)
    else (true, set_trusted_devices s1
                  (<[user_id_str := devices ++ [device_info]]> (trusted_devices s1)))
  else (false, self).

(** The user's trusted devices, and how often a fingerprint occurs
    among them. *)
Definition devices_of (self : database) (user_id : Z) : list string :=
  default [] (trusted_devices self !! str user_id).

Definition entries_for (self : database) (user_id : Z) (device_info : string) : nat :=
  length (filter (fun d => d = device_info) (devices_of self user_id)).

(** The calls that change a database. *)
Inductive operation :=
| AddUser (user_id : Z) (user_data : gmap string value)
| UpdateUser (user_id : Z) (user_data : gmap string value)
| AddLoginRecord (user_id : Z) (login_data : login_record) (now : string)
| AddTrustedDevice (user_id : Z) (device_info : string).

Definition apply_operation (self : database) (op : operation) : database :=
  match op with
  | AddUser u d => (add_user self u d).2
  | UpdateUser u d => (update_user self u d).2
  | AddLoginRecord u l now => (add_login_record self u l now).2
  | AddTrustedDevice u d => (add_trusted_device self u d).2
  end.

(** The databases the program builds: the empty one, changed by any
    sequence of calls. *)
Definition run (ops : list operation) : database :=
  fold_left apply_operation ops empty.

(** *** compare_with_current *)

(** Python's [needle in hay] on strings. *)
Fixpoint contains (needle hay : string) : bool :=
  String.prefix needle hay ||
  match hay with
  | EmptyString => false
  | String _ rest => contains needle rest
  end.

(** The [current_data] dict: the two keys the comparison reads. *)
Record current_data := {
  cd_device_info : option string;
  cd_location : option string
}.

(** The dict returned: the error form has only ["error"] and
    ["anomalies"]. *)
Record comparison := {
  cmp_error : option string;
  cmp_user_id : option Z;
  anomalies : list string;
  anomaly_count : option nat;
  is_suspicious : option bool
}.

Section Compare.

(** [datetime.fromisoformat(text).hour], [None] when the call
    raises [ValueError] or [TypeError]. *)
Variable fromisoformat_hour : string -> option Z.

(** The loop that fills [hour_counts]. *)
Definition count_hour (hour_counts : gmap Z nat) (login : login_record) : gmap Z nat :=
  match lr_timestamp login with
  | Some text =>
      match fromisoformat_hour text with
      | Some hour => <[hour := (default 0 (hour_counts !! hour) + 1)%nat]> hour_counts
      | None => hour_counts
      end
  | None => hour_counts
  end.

Definition hour_counts_of (logins : list login_record) : gmap Z nat :=
  fold_left count_hour logins ∅.

Definition check_device (self : database) (user_id_str : string)
    (cur : current_data) (anoms : list string) : list string :=
  match cd_device_info cur with
  | Some dev =>
      let device_trusted :=
        match trusted_devices self !! user_id_str with
        | Some devices => existsb (contains dev) devices
        | None => false
        end in
      if negb device_trusted then anoms ++ ["Untrusted device"] else anoms
  | None => anoms
  end.

Definition check_location (self : database) (user_id_str : string)
    (cur : current_data) (anoms : list string) : list string :=
  match cd_location cur, historical_logins self !! user_id_str with
  | Some loc, Some logins =>
      let location_matches :=
        existsb (fun login => bool_decide (lr_location login = Some loc)) logins in
      if negb location_matches && bool_decide (0 < length logins)
      then anoms ++ ["Unusual location"] else anoms
  | _, _ => anoms
  end.

Definition check_login_time (self : database) (user_id_str : string)
    (current_hour : Z) (anoms : list string) : list string :=
  match historical_logins self !! user_id_str with
  | Some logins =>
      if bool_decide (0 < length logins) then
        let hour_counts := hour_counts_of logins in
        if bool_decide (hour_counts ≠ ∅) then
          match hour_counts !! current_hour with
          | Some n =>
              if bool_decide (n < 2)
              then anoms ++ ["Unusual login time"] else anoms
          | None => anoms
          end
        else anoms
      else anoms
  | None => anoms
  end.

(** [compare_with_current], with the hour of [datetime.now()]. *)
Definition compare_with_current (self : database) (user_id : Z)
    (cur : current_data) (current_hour : Z) : comparison :=
  let user_id_str := str user_id in
  match users self !! user_id_str with
  | None =>
      {| cmp_error := Some "User not found"; cmp_user_id := None;
         anomalies := []; anomaly_count := None; is_suspicious := None |}
  | Some _ =>
      let a1 := check_device self user_id_str cur [] in
      let a2 := check_location self user_id_str cur a1 in
      let a3 := check_login_time self user_id_str current_hour a2 in
      {| cmp_error := None; cmp_user_id := Some user_id;
         anomalies := a3;
         anomaly_count := Some (length a3);
         is_suspicious := Some (bool_decide (1 < length a3)) |}
  end.

(** The user's login history, and the number of records in it
    whose timestamp falls in a given hour. *)
Definition history_of (self : database) (user_id : Z) : list login_record :=
  default [] (historical_logins self !! str user_id).

Definition login_hour (login : login_record) : option Z :=
  lr_timestamp login ≫= fromisoformat_hour.

Definition occurrences (logins : list login_record) (h : Z) : nat :=
  length (filter (fun login => login_hour login = Some h) logins).

End Compare.

(** The hour field of a timestamp as [datetime.isoformat()] writes
    it, [YYYY-MM-DDTHH:MM:SS...]: the two digits after the [T]. *)
Definition digit_value (c : ascii) : option Z :=
  let n := Z.of_nat (nat_of_ascii c) in
  if ((48 <=? n) && (n <=? 57))%Z then Some (n - 48)%Z else None.

Definition iso_hour (text : string) : option Z :=
  match String.get 10 text, String.get 11 text, String.get 12 text with
  | Some "T"%char, Some a, Some b =>
      match digit_value a, digit_value b with
      | Some x, Some y =>
          let h := (10 * x + y)%Z in
          if (h <? 24)%Z then Some h else None
      | _, _ => None
      end
  | _, _, _ => None
  end.

(** *** Notions used to state the properties *)

(** No list of trusted devices holds a fingerprint twice. *)
Definition devices_nodup (self : database) : Prop :=
  forall key l, trusted_devices self !! key = Some l -> NoDup l.

(** The list a successful [add_trusted_device] leaves for the user. *)
Definition with_device (l : list string) (d : string) : list string :=
  if decide (d ∈ l) then l else l ++ [d].

(** The condition under which each check appends its tag. *)
Definition device_untrusted (self : database) (key : string) (cur : current_data) : bool :=
  match cd_device_info cur with
  | Some dev =>
      negb (match trusted_devices self !! key with
            | Some devices => existsb (contains dev) devices
            | None => false
            end)
  | None => false
  end.

Definition location_unusual (self : database) (key : string) (cur : current_data) : bool :=
  match cd_location cur, historical_logins self !! key with
  | Some loc, Some logins =>
      negb (existsb (fun login => bool_decide (lr_location login = Some loc)) logins)
      && bool_decide (0 < length logins)
  | _, _ => false
  end.

Definition time_unusual (fromisoformat_hour : string -> option Z)
    (self : database) (key : string) (current_hour : Z) : bool :=
  match historical_logins self !! key with
  | Some logins =>
      bool_decide (0 < length logins)
      && bool_decide (hour_counts_of fromisoformat_hour logins ≠ ∅)
      && match hour_counts_of fromisoformat_hour logins !! current_hour with
         | Some n => bool_decide (n < 2)
         | None => false
         end
  | None => false
  end.

Definition tag_if (b : bool) (tag : string) : list string :=
  if b then [tag] else [].

(** A login record as the callers write it. *)
Definition login_at (timestamp location : string) : login_record :=
  {| lr_timestamp := Some timestamp;
     lr_device_info := Some "Windows 11, Chrome 98.0.4758.102";
     lr_location := Some location;
     lr_ip_address := Some "192.168.1.1";
     lr_success := Some true;
     lr_risk_level := None |}.

(** A user with two logins, from "A" and from "B". *)
Definition two_logins : database :=
  run [AddUser 1001 ∅;
       AddLoginRecord 1001 (login_at "2024-05-01T10:15:00" "A") "2024-05-01T10:15:01";
       AddLoginRecord 1001 (login_at "2024-05-02T10:20:00" "B") "2024-05-02T10:20:01"].

(** *** get_user_detail *)

(** Values of the dict [get_user_detail] returns: those of the user's
    own dict, and the two lists it adds. *)
Inductive detail_value :=
| Plain (v : value)
| TrustedDevices (l : list string)
| HistoricalLogins (l : list login_record).

Definition get_user_detail (self : database) (user_id : Z)
  : option (gmap string detail_value) :=
  let user_id_str := str user_id in
  match users self !! user_id_str with
  | None => None
  | Some user =>
      let d0 : gmap string detail_value := Plain <$> user in
      let d1 := match stored_face self !! user_id_str with
                | Some v => <["stored_face" := Plain v]> d0
                | None => d0
                end in
      let d2 := match stored_typing_pattern self !! user_id_str with
                | Some v => <["stored_typing_pattern" := Plain v]> d1
                | None => d1
                end in
      let d3 := match trusted_devices self !! user_id_str with
                | Some l => <["trusted_devices" := TrustedDevices l]> d2
                | None => d2
                end in
      let d4 := match historical_logins self !! user_id_str with
                | Some l => <["historical_logins" := HistoricalLogins l]> d3
                | None => d3
                end in
      Some d4
  end.

(** The four keys [get_user_detail] adds to the user's own. *)
Definition derived_keys : list string :=
  ["stored_face"; "stored_typing_pattern"; "trusted_devices"; "historical_logins"].

(** The login record as [add_login_record] stores it: stamped with
    [now] when it carries no timestamp. *)
Definition stamped (login_data : login_record) (now : string) : login_record :=
  match lr_timestamp login_data with
  | Some _ => login_data
  | None =>
      {| lr_timestamp := Some now;
         lr_device_info := lr_device_info login_data;
         lr_location := lr_location login_data;
         lr_ip_address := lr_ip_address login_data;
         lr_success := lr_success login_data;
         lr_risk_level := lr_risk_level login_data |}
  end.

(** The user an operation is about. *)
Definition subject (op : operation) : Z :=
  match op with
  | AddUser u _ | UpdateUser u _ | AddLoginRecord u _ _ | AddTrustedDevice u _ => u
  end.

(** The boolean an operation returns. *)
Definition result_of (self : database) (op : operation) : bool :=
  match op with
  | AddUser u d => (add_user self u d).1
  | UpdateUser u d => (update_user self u d).1
  | AddLoginRecord u l now => (add_login_record self u l now).1
  | AddTrustedDevice u d => (add_trusted_device self u d).1
  end.

End UserDatabase.

(** ** The user database on shared dict objects
       (app/models/user_database.py) *)

Module UserStore.

(** The source stores the dicts it is given, not copies of them:
    [add_user] keeps the caller's dict as the user's entry,
    [update_user] changes that dict in place, and [add_login_record]
    stamps the caller's dict and appends that same dict to the
    history.  A dict is therefore known here by its identity, and
    every holder of an identity sees what is written through it. *)
Abbreviation ref := positive.

Abbreviation dict := (gmap string UserDatabase.value).

Record database := {
  dicts : gmap ref dict;
  users : gmap string ref;
  stored_face : gmap string UserDatabase.value;
  stored_typing_pattern : gmap string UserDatabase.value;
  trusted_devices : gmap string (list string);
  historical_logins : gmap string (list ref)
}.

(** [__init__] when the data file does not exist. *)
Definition empty : database :=
  {| dicts := ∅; users := ∅; stored_face := ∅; stored_typing_pattern := ∅;
     trusted_devices := ∅; historical_logins := ∅ |}.

(** What a dict holds; a dict never written to is empty. *)
Definition content (self : database) (d : ref) : dict :=
  default ∅ (dicts self !! d).

Definition set_dict (self : database) (d : ref) (c : dict) : database :=
  {| dicts := <[d := c]> (dicts self);
     users := users self;
     stored_face := stored_face self;
     stored_typing_pattern := stored_typing_pattern self;
     trusted_devices := trusted_devices self;
     historical_logins := historical_logins self |}.

(** The biometric entries [add_user] and [update_user] refresh from
    the dict given. *)
Definition refresh (key : string) (sample : option UserDatabase.value)
    (stored : gmap string UserDatabase.value) : gmap string UserDatabase.value :=
  match sample with
  | Some v => <[key := v]> stored
  | None => stored
  end.

Definition add_user (self : database) (user_id : Z) (user_data : ref)
  : bool * database :=
  let key := UserDatabase.str user_id in
  if decide (is_Some (users self !! key)) then (false, self)
  else
    let data := content self user_data in
    (true,
     {| dicts := dicts self;
        users := <[key := user_data]> (users self);
        stored_face := refresh key (data !! "face_data") (stored_face self);
        stored_typing_pattern :=
          refresh key (data !! "typing_pattern") (stored_typing_pattern self);
        trusted_devices := <[key := []]> (trusted_devices self);
        historical_logins := <[key := []]> (historical_logins self) |}).

Definition update_user (self : database) (user_id : Z) (user_data : ref)
  : bool * database :=
  let key := UserDatabase.str user_id in
  match users self !! key with
  | None => (false, self)
  | Some stored =>
      (* dict.update on the stored dict itself: the new entries win *)
      let s1 := set_dict self stored
                  (content self user_data ∪ content self stored) in
      let data := content s1 user_data in
      (true,
       {| dicts := dicts s1;
          users := users s1;
          stored_face := refresh key (data !! "face_data") (stored_face s1);
          stored_typing_pattern :=
            refresh key (data !! "typing_pattern") (stored_typing_pattern s1);
          trusted_devices := trusted_devices s1;
          historical_logins := historical_logins s1 |})
  end.

(** A dict after the timestamp check of [add_login_record]. *)
Definition stamped (c : dict) (now : string) : dict :=
  match c !! "timestamp" with
  | Some _ => c
  | None => <["timestamp" := UserDatabase.Str now]> c
  end.

Definition add_login_record (self : database) (user_id : Z) (login_data : ref)
    (now : string) : bool * database :=
  let key := UserDatabase.str user_id in
  if decide (is_Some (users self !! key)) then
    (* the caller's dict is stamped in place *)
    let s1 := match content self login_data !! "timestamp" with
              | Some _ => self
              | None => set_dict self login_data
                          (<["timestamp" := UserDatabase.Str now]>
                             (content self login_data))
              end in
    let logins := default [] (historical_logins s1 !! key) in
    (true,
     {| dicts := dicts s1;
        users := users s1;
        stored_face := stored_face s1;
        stored_typing_pattern := stored_typing_pattern s1;
        trusted_devices := trusted_devices s1;
        historical_logins := <[key := logins ++ [login_data]]> (historical_logins s1) |})
  else (false, self).

Definition set_trusted_devices (self : database) (td : gmap string (list string))
  : database :=
  {| dicts := dicts self;
     users := users self;
     stored_face := stored_face self;
     stored_typing_pattern := stored_typing_pattern self;
     trusted_devices := td;
     historical_logins := historical_logins self |}.

Definition add_trusted_device (self : database) (user_id : Z) (device_info : string)
  : bool * database :=
  let key := UserDatabase.str user_id in
  if decide (is_Some (users self !! key)) then
    let s1 := match trusted_devices self !! key with
              | Some _ => self
              | None => set_trusted_devices self (<[key := []]> (trusted_devices self))
              end in
    let devices := default [] (trusted_devices s1 !! key) in
    if decide (device_info ∈ devices) then (true, s1)
    else (true, set_trusted_devices s1
                  (<[key := devices ++ [device_info]]> (trusted_devices s1)))
  else (false, self).

(** The caller's own [d[key] = v] on a dict it holds. *)
Definition assign (self : database) (d : ref) (key : string)
    (v : UserDatabase.value) : database :=
  set_dict self d (<[key := v]> (content self d)).

(** The calls that change a database, and the writes of its
    callers. *)
Inductive operation :=
| AddUser (user_id : Z) (user_data : ref)
| UpdateUser (user_id : Z) (user_data : ref)
| AddLoginRecord (user_id : Z) (login_data : ref) (now : string)
| AddTrustedDevice (user_id : Z) (device_info : string)
| Assign (d : ref) (key : string) (v : UserDatabase.value).

Definition apply_operation (self : database) (op : operation) : database :=
  match op with
  | AddUser u d => (add_user self u d).2
  | UpdateUser u d => (update_user self u d).2
  | AddLoginRecord u d now => (add_login_record self u d now).2
  | AddTrustedDevice u dev => (add_trusted_device self u dev).2
  | Assign d key v => assign self d key v
  end.

Definition run (ops : list operation) : database :=
  fold_left apply_operation ops empty.

(** What [compare_with_current] reads of a login dict, for a context
    whose location is a string: a location that is a string, and a
    timestamp that is one ([fromisoformat] raises [TypeError] on any
    other value, which the loop catches). *)
Definition as_login_record (c : dict) : UserDatabase.login_record :=
  {| UserDatabase.lr_timestamp :=
       match c !! "timestamp" with
       | Some (UserDatabase.Str text) => Some text
       | _ => None
       end;
     UserDatabase.lr_device_info :=
       match c !! "device_info" with
       | Some (UserDatabase.Str text) => Some text
       | _ => None
       end;
     UserDatabase.lr_location :=
       match c !! "location" with
       | Some (UserDatabase.Str text) => Some text
       | _ => None
       end;
     UserDatabase.lr_ip_address :=
       match c !! "ip_address" with
       | Some (UserDatabase.Str text) => Some text
       | _ => None
       end;
     UserDatabase.lr_success :=
       match c !! "success" with
       | Some (UserDatabase.Flag b) => Some b
       | _ => None
       end;
     UserDatabase.lr_risk_level :=
       match c !! "risk_level" with
       | Some (UserDatabase.Num q) => Some q
       | _ => None
       end |}.

(** The database as a reader finds it at one moment: every dict
    replaced by what it holds then. *)
Definition snapshot (self : database) : UserDatabase.database :=
  {| UserDatabase.users := fmap (M := gmap string) (content self) (users self);
     UserDatabase.stored_face := stored_face self;
     UserDatabase.stored_typing_pattern := stored_typing_pattern self;
     UserDatabase.trusted_devices := trusted_devices self;
     UserDatabase.historical_logins :=
       fmap (M := gmap string)
         (map (fun d => as_login_record (content self d)))
         (historical_logins self) |}.

(** [compare_with_current] only reads: it runs on the dicts as they
    are when it is called. *)
Definition compare_with_current (fromisoformat_hour : string -> option Z)
    (self : database) (user_id : Z) (cur : UserDatabase.current_data)
    (current_hour : Z) : UserDatabase.comparison :=
  UserDatabase.compare_with_current fromisoformat_hour (snapshot self)
    user_id cur current_hour.

(** *** Notions used to state the properties *)

Definition devices_of (self : database) (user_id : Z) : list string :=
  default [] (trusted_devices self !! UserDatabase.str user_id).

(** The dicts of the user's login history, oldest first. *)
Definition history_of (self : database) (user_id : Z) : list ref :=
  default [] (historical_logins self !! UserDatabase.str user_id).

(** The user an operation is about; a caller's write is about none. *)
Definition subject (op : operation) : option Z :=
  match op with
  | AddUser u _ | UpdateUser u _ | AddLoginRecord u _ _
  | AddTrustedDevice u _ => Some u
  | Assign _ _ _ => None
  end.

(** The dicts an operation writes to. *)
Definition written (self : database) (op : operation) : list ref :=
  match op with
  | AddUser _ _ | AddTrustedDevice _ _ => []
  | UpdateUser u _ =>
      match users self !! UserDatabase.str u with
      | Some stored => [stored]
      | None => []
      end
  | AddLoginRecord u d _ =>
      if decide (is_Some (users self !! UserDatabase.str u)) then
        match content self d !! "timestamp" with
        | Some _ => []
        | None => [d]
        end
      else []
  | Assign d _ _ => [d]
  end.

(** The dicts a user's entry is made of: the user's own dict and the
    dicts of the user's login history. *)
Definition footprint (self : database) (user_id : Z) : list ref :=
  match users self !! UserDatabase.str user_id with
  | Some stored => [stored]
  | None => []
  end ++ history_of self user_id.

(** The operation neither registers the dict as a user's entry nor is
    a caller's write to it. *)
Definition leaves (d : ref) (op : operation) : Prop :=
  match op with
  | AddUser _ d' => d' <> d
  | Assign d' _ _ => d' <> d
  | _ => True
  end.

(** No user's entry is this dict. *)
Definition no_entry (self : database) (d : ref) : Prop :=
  forall key, users self !! key <> Some d.

End UserStore.

(** ** The four verifications and their statistics
    (app/ai/ai_engine.py; the verification block of [simulate_login]
    in main.py) *)

Module Verification.

Record engine := {
  face_model : string;
  type_model : string;
  location_model : string;
  verification_attempts : Z;
  successful_verifications : Z;
  flagged_attempts : Z
}.

(** [__init__] *)
Definition init : engine :=
  {| face_model := "FaceNet_v2";
     type_model := "KeystrokeDynamics_v1";
     location_model := "GeoVerify_v3";
     verification_attempts := 0;
     successful_verifications := 0;
     flagged_attempts := 0 |}.

(** The counters of one verification: the attempt is counted first,
    then the result on one side or the other. *)
Definition count (self : engine) (result : bool) : engine :=
  {| face_model := face_model self;
     type_model := type_model self;
     location_model := location_model self;
     verification_attempts := verification_attempts self + 1;
     successful_verifications :=
       if result then successful_verifications self + 1
       else successful_verifications self;
     flagged_attempts :=
       if result then flagged_attempts self
       else flagged_attempts self + 1 |}.

(** [verify_face]; [confidence] is the value drawn by
    [random.uniform(0.7, 0.99)]. *)
Definition verify_face (self : engine) (face_data stored_face : string)
    (confidence : Q) : (bool * Q) * engine :=
  let result := Qlt_bool 0.8 confidence in
  ((result, confidence), count self result).

(** [analyze_typing]; [confidence] is the value drawn by
    [random.uniform(0.65, 0.95)]. *)
Definition analyze_typing (self : engine) (typing_pattern stored_pattern : string)
    (confidence : Q) : (bool * Q) * engine :=
  let result := Qlt_bool 0.75 confidence in
  ((result, confidence), count self result).

(** [verify_location]; [risk_score] is the value drawn by
    [random.uniform(0.1, 0.6)]. *)
Definition verify_location (self : engine) (location : string)
    (historical_locations : list string) (risk_score : Q) : (bool * Q) * engine :=
  let result := Qlt_bool risk_score 0.4 in
  ((result, risk_score), count self result).

(** [verify_device]; [drawn] is the value of
    [random.uniform(0.4, 0.8)], used for an untrusted device. *)
Definition verify_device (self : engine) (device_info : string)
    (trusted_devices : list string) (drawn : Q) : (bool * Q) * engine :=
  let is_trusted := existsb (UserDatabase.contains device_info) trusted_devices in
  let risk_score := if is_trusted then 0.2%Q else drawn in
  let result := Qlt_bool risk_score 0.5 in
  ((result, risk_score), count self result).

(** The dict returned by [get_verification_stats]. *)
Record verification_stats := {
  total_attempts : Z;
  vs_successful_verifications : Z;
  vs_flagged_attempts : Z;
  success_rate : Q
}.

Definition get_verification_stats (self : engine) : verification_stats :=
  let success_rate :=
    if (0 <? verification_attempts self)%Z
    then (inject_Z (successful_verifications self)
          / inject_Z (verification_attempts self))%Q
    else 0%Q in
  {| total_attempts := verification_attempts self;
     vs_successful_verifications := successful_verifications self;
     vs_flagged_attempts := flagged_attempts self;
     success_rate := success_rate |}.

(** A verification call with its arguments and its random draw. *)
Inductive call :=
| VerifyFace (face_data stored_face : string) (confidence : Q)
| AnalyzeTyping (typing_pattern stored_pattern : string) (confidence : Q)
| VerifyLocation (location : string) (historical_locations : list string)
    (risk_score : Q)
| VerifyDevice (device_info : string) (trusted_devices : list string) (drawn : Q).

Definition perform (self : engine) (c : call) : (bool * Q) * engine :=
  match c with
  | VerifyFace fd sf x => verify_face self fd sf x
  | AnalyzeTyping tp sp x => analyze_typing self tp sp x
  | VerifyLocation l hl x => verify_location self l hl x
  | VerifyDevice d td x => verify_device self d td x
  end.

Definition run (calls : list call) : engine :=
  fold_left (fun s c => (perform s c).2) calls init.

(** The keys of the [user_data] dict that the verification block of
    [simulate_login] reads, each optional. *)
Record stored_profile := {
  stored_face : option string;
  stored_typing_pattern : option string;
  historical_logins : option (list UserDatabase.login_record);
  trusted_devices : option (list string)
}.

(** The four random draws of the block. *)
Record draws := {
  drawn_face : Q;
  drawn_typing : Q;
  drawn_location : Q;
  drawn_device : Q
}.

(** The block of [simulate_login] that fills [verification_results]
    and computes [risk_level]; the results are listed in the order in
    which the dict receives them. *)
Definition verify_login (self : engine) (login_input : Authentication.user_data)
    (profile : stored_profile) (d : draws)
  : (AIEngine.verification_results * Q) * engine :=
  let '(vr1, s1) :=
    match Authentication.face_data login_input, stored_face profile with
    | Some fd, Some sf =>
        let '(r, s) := verify_face self fd sf (drawn_face d) in
        ([("face", r)], s)
    | _, _ => ([], self)
    end in
  let '(vr2, s2) :=
    match Authentication.typing_pattern login_input, stored_typing_pattern profile with
    | Some tp, Some sp =>
        let '(r, s) := analyze_typing s1 tp sp (drawn_typing d) in
        (vr1 ++ [("typing", r)], s)
    | _, _ => (vr1, s1)
    end in
  let '(vr3, s3) :=
    match Authentication.location login_input, historical_logins profile with
    | Some loc, Some logins =>
        let historical_locations := omap UserDatabase.lr_location logins in
        let '(r, s) := verify_location s2 loc historical_locations (drawn_location d) in
        (vr2 ++ [("location", r)], s)
    | _, _ => (vr2, s2)
    end in
  let '(vr4, s4) :=
    match Authentication.device_info login_input, trusted_devices profile with
    | Some dev, Some devices =>
        let '(r, s) := verify_device s3 dev devices (drawn_device d) in
        (vr3 ++ [("device", r)], s)
    | _, _ => (vr3, s3)
    end in
  ((vr4, AIEngine.predict_risk_level vr4), s4).

(** The draws lie in the ranges given to [random.uniform]. *)
Definition in_ranges (d : draws) : Prop :=
  (0.7 <= drawn_face d <= 0.99)%Q /\
  (0.65 <= drawn_typing d <= 0.95)%Q /\
  (0.1 <= drawn_location d <= 0.6)%Q /\
  (0.4 <= drawn_device d <= 0.8)%Q.

(** The counters add up, and count the calls. *)
Definition counters_add_up (self : engine) (n : nat) : Prop :=
  verification_attempts self = Z.of_nat n /\
  (successful_verifications self + flagged_attempts self
   = verification_attempts self)%Z /\
  (0 <= successful_verifications self)%Z /\
  (0 <= flagged_attempts self)%Z.

(** The result each check of the block contributes, if it runs. *)
Definition face_result (login_input : Authentication.user_data)
    (profile : stored_profile) (d : draws) : option (bool * Q) :=
  match Authentication.face_data login_input, stored_face profile with
  | Some _, Some _ => Some (Qlt_bool 0.8 (drawn_face d), drawn_face d)
  | _, _ => None
  end.

Definition typing_result (login_input : Authentication.user_data)
    (profile : stored_profile) (d : draws) : option (bool * Q) :=
  match Authentication.typing_pattern login_input, stored_typing_pattern profile with
  | Some _, Some _ => Some (Qlt_bool 0.75 (drawn_typing d), drawn_typing d)
  | _, _ => None
  end.

Definition location_result (login_input : Authentication.user_data)
    (profile : stored_profile) (d : draws) : option (bool * Q) :=
  match Authentication.location login_input, historical_logins profile with
  | Some _, Some _ => Some (Qlt_bool (drawn_location d) 0.4, drawn_location d)
  | _, _ => None
  end.

Definition device_result (login_input : Authentication.user_data)
    (profile : stored_profile) (d : draws) : option (bool * Q) :=
  match Authentication.device_info login_input, trusted_devices profile with
  | Some dev, Some devices =>
      let risk := if existsb (UserDatabase.contains dev) devices
                  then 0.2%Q else drawn_device d in
      Some (Qlt_bool risk 0.5, risk)
  | _, _ => None
  end.

Definition entry (key : string) (r : option (bool * Q)) : AIEngine.verification_results :=
  match r with Some x => [(key, x)] | None => [] end.

(** The dict of the block at the draws that give the highest risk,
    on binary64: the lowest confidences and the highest risk scores
    of the ranges, with the location and device entries present or
    not. *)
Definition riskiest_results_binary64 (with_location with_device : bool)
  : list (string * (bool * float)) :=
  [("face", (false, 0.7%float)); ("typing", (false, 0.65%float))]
  ++ (if with_location then [("location", (false, 0.6%float))] else [])
  ++ (if with_device then [("device", (false, 0.8%float))] else []).

End Verification.

(** ** Transfers (cli.py, [transfer]; main.py, [simulate_transaction]) *)

Module Transfers.

(** What the two functions draw from their environment: the id and
    creation time of the transaction, the clock of the fresh defense
    system and of its detection, the random draw, the answer typed at
    the confirmation prompt, and the times of the transitions. *)
Record environment := {
  fresh_id : string;
  created_at : string;
  defense_created_at : string;
  detection : ProactiveDefense.call_env;
  confirmation : string;
  transition_at : string;
  current_hour : Z
}.

(** How a run ends: with an exception, or by returning, with the
    database and the transaction as they are then. *)
Inductive outcome :=
| Raised (exception : string)
| Returned (result : bool) (db : UserDatabase.database)
    (transaction : option Transaction.transaction).

(** Python's [not d] for the result of [get_user_detail]: no dict, or
    an empty one. *)
Definition falsy (d : option (gmap string UserDatabase.detail_value)) : bool :=
  match d with
  | None => true
  | Some m => bool_decide (m = ∅)
  end.

(** A value used as a number: booleans count as 0 and 1, other
    values raise [TypeError]. *)
Definition as_number (v : UserDatabase.detail_value) : option Q :=
  match v with
  | UserDatabase.Plain (UserDatabase.Num q) => Some q
  | UserDatabase.Plain (UserDatabase.Flag b) => Some (if b then 1%Q else 0%Q)
  | _ => None
  end.

(** [data.get("balance", 0)] as a number. *)
Definition balance (data : gmap string UserDatabase.detail_value) : option Q :=
  match data !! "balance" with
  | Some v => as_number v
  | None => Some 0%Q
  end.

(** The event both functions hand to [detect_threat]: the dict of the
    transaction under ['transaction'], no login attempts, no address. *)
Definition transaction_event (t : Transaction.transaction)
  : ProactiveDefense.activity_data :=
  {| ProactiveDefense.login_attempts := None;
     ProactiveDefense.transaction :=
       Some {| ProactiveDefense.amount := Some (Transaction.amount t) |};
     ProactiveDefense.ip_address := None |}.

Section Transfer.

(** [str(value)] inside the f-string of the description. *)
Variable render : UserDatabase.detail_value -> string.

(** [transfer] of cli.py, run on the database that [UserDatabase()]
    loads from the data file; [update_user] writes it back.  The
    amount is a finite number, read as a rational: the argument
    parser accepts [nan] and [inf] as well, which no rational stands
    for. *)
Definition transfer (db : UserDatabase.database) (sender_id receiver_id : Z)
    (amount : Q) (e : environment) : outcome :=
  let sender_data := UserDatabase.get_user_detail db sender_id in
  let receiver_data := UserDatabase.get_user_detail db receiver_id in
  if falsy sender_data || falsy receiver_data then Returned false db None
  else
    match sender_data, receiver_data with
    | Some sender, Some receiver =>
        match sender !! "username", receiver !! "username" with
        | Some sender_name, Some receiver_name =>
            let description :=
              "Transfer from " +:+ render sender_name +:+ " to "
              +:+ render receiver_name in
            let t := Transaction.new (fresh_id e) sender_id receiver_id amount
                       description (created_at e) in
            match balance sender with
            | None => Raised "TypeError"
            | Some sender_balance =>
                if Qlt_bool sender_balance (Transaction.amount t) then
                  let t1 := (Transaction.fail t "Insufficient balance"
                               (transition_at e)).2 in
                  Returned false db (Some t1)
                else
                  let risk_score :=
                    if Qlt_bool 5000 (Transaction.amount t)
                    then (0.0 + 0.3)%Q else 0.0%Q in
                  let defense := ProactiveDefense.init (defense_created_at e) in
                  let threat_detected :=
                    (ProactiveDefense.detect_threat defense (transaction_event t)
                       (detection e)).1.1 in
                  let flagged := Qlt_bool 0.7 risk_score || threat_detected in
                  if flagged && negb (bool_decide (confirmation e = "y")
                                      || bool_decide (confirmation e = "Y")) then
                    let t1 := (Transaction.fail t
                                 "User cancelled high-risk transaction"
                                 (transition_at e)).2 in
                    Returned false db (Some t1)
                  else
                    let t1 := (Transaction.complete t (transition_at e)).2 in
                    let sender_new := (sender_balance - Transaction.amount t1)%Q in
                    match balance receiver with
                    | None => Raised "TypeError"
                    | Some receiver_balance =>
                        let receiver_new :=
                          (receiver_balance + Transaction.amount t1)%Q in
                        let db1 :=
                          (UserDatabase.update_user db sender_id
                             {["balance" := UserDatabase.Num sender_new]}).2 in
                        let db2 :=
                          (UserDatabase.update_user db1 receiver_id
                             {["balance" := UserDatabase.Num receiver_new]}).2 in
                        Returned true db2 (Some t1)
                    end
            end
        | _, _ => Raised "KeyError"
        end
    | _, _ => Returned false db None
    end.

End Transfer.

(** The balance the database holds for a user: the number under
    ['balance'] in the user's own dict, 0 when there is none. *)
Definition balance_of (db : UserDatabase.database) (user_id : Z) : option Q :=
  match UserDatabase.users db !! UserDatabase.str user_id with
  | Some user =>
      match user !! "balance" with
      | Some v => as_number (UserDatabase.Plain v)
      | None => Some 0%Q
      end
  | None => None
  end.

(** [SECURITY_SETTINGS["suspicious_transaction_threshold"]] of
    config/settings.py, which [get_config("security")] returns. *)
Definition suspicious_transaction_threshold : Q := 5000.

(** [transaction.amount = v] *)
Definition set_amount (self : Transaction.transaction) (v : Q)
  : Transaction.transaction :=
  {| Transaction.transaction_id := Transaction.transaction_id self;
     Transaction.sender_id := Transaction.sender_id self;
     Transaction.receiver_id := Transaction.receiver_id self;
     Transaction.amount := v;
     Transaction.timestamp := Transaction.timestamp self;
     Transaction.status := Transaction.status self;
     Transaction.description := Transaction.description self;
     Transaction.risk_score := Transaction.risk_score self;
     Transaction.metadata := Transaction.metadata self |}.

(** The risk score [simulate_transaction] accumulates. *)
Definition transaction_risk (t : Transaction.transaction)
    (is_legitimate : bool) (hour : Z) : Q :=
  let risk_score := 0.0%Q in
  let risk_score :=
    if Qlt_bool suspicious_transaction_threshold (Transaction.amount t)
    then (risk_score + 0.3)%Q else risk_score in
  let risk_score :=
    if negb is_legitimate then (risk_score + 0.2)%Q else risk_score in
  let risk_score :=
    if (1 <=? hour)%Z && (hour <=? 4)%Z
    then (risk_score + 0.2)%Q else risk_score in
  risk_score.

(** The same accumulation on binary64 floats, for the three
    conditions. *)
Definition transaction_risk_binary64 (large new_receiver unusual_hours : bool)
  : PrimFloat.float :=
  let r0 := 0.0%float in
  let r1 := if large then PrimFloat.add r0 0.3 else r0 in
  let r2 := if new_receiver then PrimFloat.add r1 0.2 else r1 in
  let r3 := if unusual_hours then PrimFloat.add r2 0.2 else r2 in
  r3.

(** How [simulate_transaction] ends: with an exception, at the early
    return for a missing user, or with the transaction in its final
    state and whether [alert_security_team] was called. *)
Inductive simulation :=
| SimulationRaised (exception : string)
| NotFound
| Finished (transaction : Transaction.transaction) (alerted : bool).

Section SimulateTransaction.

Variable render : UserDatabase.detail_value -> string.

(** [simulate_transaction] of main.py. *)
Definition simulate_transaction (db : UserDatabase.database)
    (sender_id receiver_id : Z) (amount : Q) (is_legitimate : bool)
    (e : environment) : simulation :=
  let sender_data := UserDatabase.get_user_detail db sender_id in
  let receiver_data := UserDatabase.get_user_detail db receiver_id in
  if falsy sender_data || falsy receiver_data then NotFound
  else
    match sender_data, receiver_data with
    | Some sender, Some receiver =>
        match sender !! "username", receiver !! "username" with
        | Some sender_name, Some receiver_name =>
            let description :=
              "Payment from " +:+ render sender_name +:+ " to "
              +:+ render receiver_name in
            let t0 := Transaction.new (fresh_id e) sender_id receiver_id amount
                        description (created_at e) in
            let t := if negb is_legitimate then set_amount t0 50000.0%Q else t0 in
            match balance sender with
            | None => SimulationRaised "TypeError"
            | Some sender_balance =>
                if Qlt_bool sender_balance (Transaction.amount t) then
                  Finished (Transaction.fail t "Insufficient balance"
                              (transition_at e)).2 false
                else
                  let risk_score :=
                    transaction_risk t is_legitimate (current_hour e) in
                  let defense := ProactiveDefense.init (defense_created_at e) in
                  let threat_detected :=
                    (ProactiveDefense.detect_threat defense (transaction_event t)
                       (detection e)).1.1 in
                  if Qlt_bool 0.7 risk_score || threat_detected then
                    let t1 := (Transaction.flag_for_review t risk_score
                                 (transition_at e)).2 in
                    Finished t1 (Qlt_bool 0.8 risk_score)
                  else if Qlt_bool 0.4 risk_score && Qle_bool risk_score 0.7 then
                    Finished (Transaction.complete t (transition_at e)).2 false
                  else
                    Finished (Transaction.complete t (transition_at e)).2 false
            end
        | _, _ => SimulationRaised "KeyError"
        end
    | _, _ => NotFound
    end.

End SimulateTransaction.

(** The user is stored with a ['username']. *)
Definition named (db : UserDatabase.database) (user_id : Z) : Prop :=
  exists user, UserDatabase.users db !! UserDatabase.str user_id = Some user
               /\ is_Some (user !! "username").

(** The answer at the prompt lowers to ['y']. *)
Definition confirmed (e : environment) : bool :=
  bool_decide (confirmation e = "y") || bool_decide (confirmation e = "Y").

(** The transaction rule of [detect_threat] fires on the amount. *)
Definition flagged (amount : Q) (e : environment) : bool :=
  Qlt_bool 10000 amount && Qlt_bool (ProactiveDefense.rnd (detection e)) 0.3.

End Transfers.

(** ** Placeholder encryption (app/utils/encryption.py) *)

Module Encryption.

(** Texts are strings of bytes, keys lists of bytes. *)

(** One hexadecimal digit, lower case as [bytes.hex] writes it. *)
Definition hex_digit (n : N) : ascii :=
  match String.get (N.to_nat n) "0123456789abcdef" with
  | Some c => c
  | None => "0"%char
  end.

(** [key.hex()] *)
Fixpoint hex (key : list Byte.byte) : string :=
  match key with
  | [] => EmptyString
  | b :: rest =>
      String (hex_digit (Byte.to_N b / 16))
        (String (hex_digit (Byte.to_N b mod 16)) (hex rest))
  end.

(** [s[:n]] *)
Definition first_chars (n : nat) (s : string) : string := String.substring 0 n s.

(** [s.split(sep)[0]] for a non-empty [sep]: the text before the
    first occurrence of [sep], all of [s] when there is none. *)
Fixpoint before (sep s : string) : string :=
  if String.prefix sep s then EmptyString
  else match s with
       | EmptyString => EmptyString
       | String c rest => String c (before sep rest)
       end.

(** [s.replace(old, "")] for a non-empty [old]: the occurrences of
    [old] found from left to right, none overlapping the one before,
    are left out.  [skip] counts the characters of the occurrence
    being left out that are still ahead. *)
Fixpoint remove_from (old : string) (skip : nat) (s : string) : string :=
  match s with
  | EmptyString => EmptyString
  | String c rest =>
      match skip with
      | S k => remove_from old k rest
      | O =>
          if String.prefix old s then remove_from old (String.length old - 1) rest
          else String c (remove_from old 0 rest)
      end
  end.

Definition remove (old s : string) : string := remove_from old 0 s.

(** [encrypt_sensitive_data] *)
Definition encrypt_sensitive_data (data : string) (key : list Byte.byte) : string :=
  "ENCRYPTED_" +:+ data +:+ "_WITH_KEY_" +:+ first_chars 8 (hex key).

(** [decrypt_sensitive_data] *)
Definition decrypt_sensitive_data (encrypted_data : string) (key : list Byte.byte)
  : string :=
  if String.prefix "ENCRYPTED_" encrypted_data
     && UserDatabase.contains "_WITH_KEY_" encrypted_data then
    let parts_0 := before "_WITH_KEY_" encrypted_data in
    let data := remove "ENCRYPTED_" parts_0 in
    data
  else "DECRYPTION_FAILED".

(** No underscore in the text. *)
Fixpoint plain (s : string) : bool :=
  match s with
  | EmptyString => true
  | String c rest => negb (Ascii.eqb c "_") && plain rest
  end.

End Encryption.

(** ** The login command (cli.py, [login]) *)

Module Login.

(** The keys of the dict returned by [LoginInterface.collect_input]
    that [authenticate] and the verification read; overriding
    ['username'] and ['password'] leaves them as they are. *)
Definition collect_input : Authentication.user_data :=
  {| Authentication.device_info := Some "Windows 11, Chrome 98.0.4758.102";
     Authentication.location := Some "48.8566,2.3522";
     Authentication.face_data := Some "base64_encoded_face_image";
     Authentication.typing_pattern := Some "keystroke_timing_data" |}.

(** ['ip_address'] of the same dict. *)
Definition collected_ip_address : string := "192.168.1.1".

(** What a run draws from its environment: the creation time of the
    authentication system, the two random confidences, the time
    written into the login record, the time [add_login_record] reads
    and the code typed at the prompt. *)
Record environment := {
  now : Authentication.datetime;
  face_confidence : Q;
  typing_confidence : Q;
  recorded_at : string;
  saved_at : string;
  entered_code : string
}.

(** How a run ends: with an exception or by returning [True] or
    [False], with the database as it is then. *)
Inductive outcome :=
| Raised (exception : string) (db : UserDatabase.database)
| Returned (result : bool) (db : UserDatabase.database).

(** The test of the lookup loop for one id:
    [user_data and user_data.get("username") == username]. *)
Definition matches (db : UserDatabase.database) (username : string)
    (uid : Z) : bool :=
  match UserDatabase.get_user_detail db uid with
  | Some user_data =>
      negb (Transfers.falsy (Some user_data))
      && match user_data !! "username" with
         | Some (UserDatabase.Plain (UserDatabase.Str name)) =>
             bool_decide (name = username)
         | _ => false
         end
  | None => false
  end.

Section Login.

(** A stored sample as the engine receives it; the engine does not
    read it. *)
Variable text : UserDatabase.detail_value -> string.

(** [login] of cli.py, run on the database that [UserDatabase()]
    loads. *)
Definition login (db : UserDatabase.database) (username password : string)
    (e : environment) : outcome :=
  match List.find (matches db username) [1001; 1002]%Z with
  | None => Returned false db
  | Some user_id =>
      let login_input := collect_input in
      let auth_system := Authentication.init (now e) in
      let ai_engine := Verification.init in
      let auth_result :=
        (Authentication.authenticate auth_system login_input).1.1 in
      match UserDatabase.get_user_detail db user_id with
      | None => Raised "TypeError" db
      | Some user_data =>
          let '(vr1, engine1) :=
            match Authentication.face_data login_input,
                  user_data !! "stored_face" with
            | Some face_data, Some stored_face =>
                let '(r, s) :=
                  Verification.verify_face ai_engine face_data
                    (text stored_face) (face_confidence e) in
                ([("face", r)], s)
            | _, _ => ([], ai_engine)
            end in
          let '(vr2, engine2) :=
            match Authentication.typing_pattern login_input,
                  user_data !! "stored_typing_pattern" with
            | Some typing_pattern, Some stored_pattern =>
                let '(r, s) :=
                  Verification.analyze_typing engine1 typing_pattern
                    (text stored_pattern) (typing_confidence e) in
                (vr1 ++ [("typing", r)], s)
            | _, _ => (vr1, engine1)
            end in
          let risk_level := AIEngine.predict_risk_level vr2 in
          if auth_result && Qlt_bool risk_level 0.5 then
            let db1 :=
              (UserDatabase.add_login_record db user_id
                 {| UserDatabase.lr_timestamp := Some (recorded_at e);
                    UserDatabase.lr_device_info :=
                      Some (default "Unknown"
                              (Authentication.device_info login_input));
                    UserDatabase.lr_location :=
                      Some (default "Unknown"
                              (Authentication.location login_input));
                    UserDatabase.lr_ip_address := Some collected_ip_address;
                    UserDatabase.lr_success := Some true;
                    UserDatabase.lr_risk_level := Some risk_level |}
                 (saved_at e)).2 in
            (* the balance is printed with the format [.2f] *)
            match user_data !! "balance" with
            | None
            | Some (UserDatabase.Plain (UserDatabase.Num _))
            | Some (UserDatabase.Plain (UserDatabase.Flag _)) =>
                Returned true db1
            | Some (UserDatabase.Plain (UserDatabase.Str _)) =>
                Raised "ValueError" db1
            | Some _ => Raised "TypeError" db1
            end
          else if auth_result
                  && (Qle_bool 0.5 risk_level && Qlt_bool risk_level 0.7) then
            Returned (bool_decide (entered_code e = "123456")) db
          else Returned false db
      end
  end.

End Login.

(** The two confidences lie in the ranges given to
    [random.uniform]. *)
Definition in_ranges (e : environment) : Prop :=
  (0.7 <= face_confidence e <= 0.99)%Q /\
  (0.65 <= typing_confidence e <= 0.95)%Q.

(** The user has a stored face sample or typing pattern. *)
Definition enrolled (db : UserDatabase.database) (user_id : Z) : Prop :=
  is_Some (UserDatabase.stored_face db !! UserDatabase.str user_id)
  \/ is_Some (UserDatabase.stored_typing_pattern db !! UserDatabase.str user_id).

End Login.

(** * Properties *)

(** ** Comparisons on rationals *)

Lemma Qlt_bool_iff (x y : Q) : Qlt_bool x y = true <-> (x < y)%Q.
Proof.
  unfold Qlt_bool. rewrite negb_true_iff. split.
  - intros Hb. apply Qnot_le_lt. intros Hle.
    apply Qle_bool_iff in Hle. congruence.
  - intros Hlt. destruct (Qle_bool y x) eqn:E; [|reflexivity].
    apply Qle_bool_iff in E. exfalso. exact (Qlt_not_le _ _ Hlt E).
Qed.

Lemma Qlt_bool_false_iff (x y : Q) : Qlt_bool x y = false <-> (y <= x)%Q.
Proof.
  unfold Qlt_bool. rewrite negb_false_iff. apply Qle_bool_iff.
Qed.

(** ** Threat detection *)

Module ProactiveDefenseFacts.
Import ProactiveDefense.

Lemma update_response_plan_level self :
  threat_level (_update_response_plan self) = threat_level self.
Proof.
  unfold _update_response_plan.
  repeat (match goal with |- context [if ?b then _ else _] => destruct b end);
    reflexivity.
Qed.

Lemma update_response_plan_blocked_ips self :
  blocked_ips (_update_response_plan self) = blocked_ips self.
Proof.
  unfold _update_response_plan.
  repeat (match goal with |- context [if ?b then _ else _] => destruct b end);
    reflexivity.
Qed.

Lemma record_threat_level a e sc :
  threat_level (record_threat a e sc) = threat_level (sc_self sc).
Proof.
  unfold record_threat. destruct (threat_detected sc); [|reflexivity].
  cbn. rewrite update_response_plan_level. reflexivity.
Qed.

Lemma record_threat_blocked_ips a e sc :
  blocked_ips (record_threat a e sc) = blocked_ips (sc_self sc).
Proof.
  unfold record_threat. destruct (threat_detected sc); [|reflexivity].
  cbn. rewrite update_response_plan_blocked_ips. reflexivity.
Qed.

Lemma check_login_attempts_blocked_ips a sc :
  blocked_ips (sc_self (check_login_attempts a sc)) = blocked_ips (sc_self sc).
Proof.
  unfold check_login_attempts.
  destruct (login_attempts a) as [n|]; [|reflexivity].
  destruct (5 <? n)%Z; reflexivity.
Qed.

Lemma check_transaction_blocked_ips a e sc :
  blocked_ips (sc_self (check_transaction a e sc)) = blocked_ips (sc_self sc).
Proof.
  unfold check_transaction.
  destruct (transaction a) as [t|]; [|reflexivity].
  destruct (Qlt_bool 10000 (get_amount t)); [|reflexivity].
  destruct (Qlt_bool (rnd e) 0.3); reflexivity.
Qed.

Lemma detect_threat_blocked_ips self a e :
  blocked_ips (detect_threat self a e).2 = blocked_ips self.
Proof.
  unfold detect_threat. cbn [snd].
  rewrite record_threat_blocked_ips.
  unfold check_ip_address.
  destruct (ip_address a) as [ip|].
  - destruct (decide _); cbn;
      rewrite check_transaction_blocked_ips, check_login_attempts_blocked_ips;
      reflexivity.
  - rewrite check_transaction_blocked_ips, check_login_attempts_blocked_ips.
    reflexivity.
Qed.

Lemma detect_threats_blocked_ips evs : forall self,
  blocked_ips (detect_threats self evs) = blocked_ips self.
Proof.
  induction evs as [|[a e] evs IH]; intros self; [reflexivity|].
  cbn [detect_threats]. rewrite IH. apply detect_threat_blocked_ips.
Qed.

(** One call: the level is assigned by the last rule that fires. *)
Lemma detect_threat_level self a e :
  threat_level (detect_threat self a e).2 = level_after self a e.
Proof.
  unfold detect_threat, level_after. cbn [snd].
  rewrite record_threat_level.
  unfold ip_rule_fires, check_ip_address.
  destruct (ip_address a) as [ip|].
  - rewrite check_transaction_blocked_ips, check_login_attempts_blocked_ips.
    cbn [sc_self]. unfold bool_decide.
    destruct (decide_rel elem_of ip (blocked_ips self)) as [Hin|Hout].
    + destruct (decide (ip ∈ blocked_ips self)) as [_|Hno];
        [reflexivity|contradiction].
    + destruct (decide (ip ∈ blocked_ips self)) as [Hyes|_]; [contradiction|].
      unfold transaction_rule_fires, check_transaction, login_rule_fires,
        check_login_attempts.
      destruct (transaction a) as [t|];
        [destruct (Qlt_bool 10000 (get_amount t)), (Qlt_bool (rnd e) 0.3)|];
        (destruct (login_attempts a) as [k|]; [destruct (5 <? k)%Z|]);
        reflexivity.
  - unfold transaction_rule_fires, check_transaction, login_rule_fires,
      check_login_attempts.
    destruct (transaction a) as [t|];
      [destruct (Qlt_bool 10000 (get_amount t)), (Qlt_bool (rnd e) 0.3)|];
      (destruct (login_attempts a) as [k|]; [destruct (5 <? k)%Z|]);
      reflexivity.
Qed.

Lemma level_after_above_low self a e :
  (THREAT_LEVEL_LOW < threat_level self)%Z ->
  (THREAT_LEVEL_LOW < level_after self a e)%Z.
Proof.
  intros H. unfold level_after.
  repeat (match goal with |- context [if ?b then _ else _] => destruct b end);
    try exact H; reflexivity.
Qed.

Lemma detect_threats_above_low evs : forall self,
  (THREAT_LEVEL_LOW < threat_level self)%Z ->
  (THREAT_LEVEL_LOW < threat_level (detect_threats self evs))%Z.
Proof.
  induction evs as [|[a e] evs IH]; intros self H; [exact H|].
  cbn [detect_threats]. apply IH. rewrite detect_threat_level.
  apply level_after_above_low, H.
Qed.

Lemma ip_rule_fires_blocked self a ip :
  ip_address a = Some ip -> ip ∈ blocked_ips self -> ip_rule_fires self a = true.
Proof.
  intros Ha Hin. unfold ip_rule_fires. rewrite Ha.
  apply bool_decide_eq_true. exact Hin.
Qed.

(** C1, as stated, fails: the level is assigned, not raised to a
    maximum.  From a fresh system, block an address, see an access
    from it (level Critical), then see six login attempts: the level
    drops to High, below both the previous level and the maximum of
    the previous level and the rule's floor. *)
Lemma threat_level_decreases_after_critical :
  let ip := "203.0.113.42" in
  let e := {| rnd := 0.5%Q; now_threat := "2024-05-01T10:00:00";
              now_alert := "2024-05-01T10:00:01" |} in
  let s0 := (block_access (init "2024-05-01T09:00:00")
               {| ad_ip_address := Some ip; ad_reason := None |}
               "2024-05-01T09:30:00").2 in
  let s1 := (detect_threat s0
               {| login_attempts := None; transaction := None;
                  ip_address := Some ip |} e).2 in
  let s2 := (detect_threat s1
               {| login_attempts := Some 6%Z; transaction := None;
                  ip_address := None |} e).2 in
  threat_level s1 = THREAT_LEVEL_CRITICAL /\
  threat_level s2 = THREAT_LEVEL_HIGH /\
  (threat_level s2 < threat_level s1)%Z /\
  threat_level s2 <> Z.max (threat_level s1) THREAT_LEVEL_HIGH.
Proof.
  vm_compute. repeat split; discriminate.
Qed.

(** C1, amended: one call of [detect_threat] assigns the level of the
    last rule that fires, in the order login attempts (High), flagged
    large transaction (Medium), blocked address (Critical), and keeps
    the level when none fires; no sequence of events brings a level
    above Low back to Low; and more than five login attempts followed
    by an access from a blocked address leave the level at High and
    then at Critical. *)
Theorem detect_threat_assigns_last_fired_floor :
  (forall self a e,
     threat_level (detect_threat self a e).2 = level_after self a e) /\
  (forall self evs,
     (THREAT_LEVEL_LOW < threat_level self)%Z ->
     (THREAT_LEVEL_LOW < threat_level (detect_threats self evs))%Z) /\
  (forall self n ip e1 e2,
     (5 < n)%Z -> ip ∈ blocked_ips self ->
     let a1 := {| login_attempts := Some n; transaction := None;
                  ip_address := None |} in
     let a2 := {| login_attempts := None; transaction := None;
                  ip_address := Some ip |} in
     threat_level (detect_threats self [(a1, e1)]) = THREAT_LEVEL_HIGH /\
     threat_level (detect_threats self [(a1, e1); (a2, e2)])
       = THREAT_LEVEL_CRITICAL).
Proof.
  split; [exact detect_threat_level|].
  split; [intros self evs; apply detect_threats_above_low|].
  intros self n ip e1 e2 Hn Hin a1 a2. cbn [detect_threats]. split.
  - rewrite detect_threat_level. unfold level_after, a1. cbn.
    apply Z.ltb_lt in Hn. rewrite Hn. reflexivity.
  - rewrite detect_threat_level. unfold level_after.
    rewrite (ip_rule_fires_blocked _ a2 ip); [reflexivity|reflexivity|].
    rewrite detect_threat_blocked_ips. exact Hin.
Qed.

Lemma detect_threat_assigns_last_fired_floor_witness :
  let ip := "203.0.113.42" in
  let e := {| rnd := 0.1%Q; now_threat := "2024-05-01T10:00:00";
              now_alert := "2024-05-01T10:00:01" |} in
  let s0 := (block_access (init "2024-05-01T09:00:00")
               {| ad_ip_address := Some ip; ad_reason := None |}
               "2024-05-01T09:30:00").2 in
  let s1 := set_threat_level s0 THREAT_LEVEL_MEDIUM in
  let a1 := {| login_attempts := Some 6%Z; transaction := None;
               ip_address := None |} in
  let a2 := {| login_attempts := None; transaction := None;
               ip_address := Some ip |} in
  ((THREAT_LEVEL_LOW < threat_level s1)%Z /\
   (THREAT_LEVEL_LOW < threat_level (detect_threats s1 [(a1, e); (a2, e)]))%Z) /\
  ((5 < 6)%Z /\ ip ∈ blocked_ips s0 /\
   threat_level (detect_threats s0 [(a1, e)]) = THREAT_LEVEL_HIGH /\
   threat_level (detect_threats s0 [(a1, e); (a2, e)]) = THREAT_LEVEL_CRITICAL).
Proof.
  intros ip e s0 s1 a1 a2.
  destruct detect_threat_assigns_last_fired_floor as (_ & Hlow & Hseq).
  assert (Hs1 : (THREAT_LEVEL_LOW < threat_level s1)%Z) by reflexivity.
  assert (Hn : (5 < 6)%Z) by reflexivity.
  assert (Hin : ip ∈ blocked_ips s0)
    by (apply (bool_decide_unpack _); vm_compute; exact I).
  split.
  - split; [exact Hs1|]. exact (Hlow s1 _ Hs1).
  - split; [exact Hn|]. split; [exact Hin|].
    exact (Hseq s0 6%Z ip e e Hn Hin).
Defined.

(** C9: an event on which no rule fires (login attempts absent or at
    most 5, transaction absent or of amount at most 10000, address
    absent or not blocked) makes [detect_threat] return
    [threat_detected = False] and leaves the whole object as it was:
    level, response plan, active threats, security alerts and blocked
    addresses. *)
Theorem detect_threat_quiet_event_frame self a e :
  login_attempts_quiet a ->
  transaction_quiet a ->
  ip_address_quiet self a ->
  detect_threat self a e =
    ((false,
      {| ti_threat_detected := false;
         ti_threat_level := threat_level self;
         ti_threat_details := None;
         ti_response_plan := response_plan self |}),
     self).
Proof.
  unfold login_attempts_quiet, transaction_quiet, ip_address_quiet.
  intros Hl Ht Hi.
  unfold detect_threat, check_login_attempts, check_transaction,
    check_ip_address.
  destruct (login_attempts a) as [k|].
  2: destruct (transaction a) as [t|].
  1: destruct (transaction a) as [t|].
  all: try (apply Z.ltb_ge in Hl; rewrite Hl).
  all: try (apply Qlt_bool_false_iff in Ht; rewrite Ht).
  all: cbn [sc_self]; destruct (ip_address a) as [ip|];
    try (destruct (decide (ip ∈ blocked_ips self)) as [Hyes|_];
         [contradiction|]);
    reflexivity.
Qed.

Lemma detect_threat_quiet_event_frame_witness :
  let ip := "203.0.113.42" in
  let e := {| rnd := 0.1%Q; now_threat := "2024-05-01T10:00:00";
              now_alert := "2024-05-01T10:00:01" |} in
  let s0 := (block_access (init "2024-05-01T09:00:00")
               {| ad_ip_address := Some ip; ad_reason := None |}
               "2024-05-01T09:30:00").2 in
  let a := {| login_attempts := Some 5%Z;
              transaction := Some {| amount := Some 10000%Q |};
              ip_address := Some "198.51.100.7" |} in
  login_attempts_quiet a /\ transaction_quiet a /\ ip_address_quiet s0 a /\
  detect_threat s0 a e =
    ((false,
      {| ti_threat_detected := false;
         ti_threat_level := threat_level s0;
         ti_threat_details := None;
         ti_response_plan := response_plan s0 |}),
     s0).
Proof.
  intros ip e s0 a.
  assert (Hl : login_attempts_quiet a) by (cbn; lia).
  assert (Ht : transaction_quiet a) by (cbn; unfold Qle; cbn; lia).
  assert (Hi : ip_address_quiet s0 a)
    by (apply (bool_decide_unpack _); vm_compute; exact I).
  split; [exact Hl|]. split; [exact Ht|]. split; [exact Hi|].
  exact (detect_threat_quiet_event_frame s0 a e Hl Ht Hi).
Defined.

(** *** The whole call, and the other operations *)

(** The locals and the object after the three rules. *)
Lemma rules_scan self a e :
  check_ip_address a
    (check_transaction a e
       (check_login_attempts a
          {| sc_self := self; threat_detected := false; sc_details := None |}))
  = {| sc_self := if any_rule_fires self a e
                  then set_threat_level self (level_after self a e) else self;
       threat_detected := any_rule_fires self a e;
       sc_details := details_after self a e |}.
Proof.
  unfold any_rule_fires, level_after, details_after, ip_rule_fires,
    transaction_rule_fires, login_rule_fires, check_ip_address,
    check_transaction, check_login_attempts.
  destruct (login_attempts a) as [k|]; [destruct (5 <? k)%Z|];
    (destruct (transaction a) as [t|];
       [destruct (Qlt_bool 10000 (get_amount t)), (Qlt_bool (rnd e) 0.3)|]);
    (destruct (ip_address a) as [ip|];
       [cbn [sc_self fire blocked_ips set_threat_level]; unfold bool_decide;
        destruct (decide_rel elem_of ip (blocked_ips self)) as [Hin|Hout];
        [destruct (decide (ip ∈ blocked_ips self)) as [_|Hno];
           [|contradiction]
        |destruct (decide (ip ∈ blocked_ips self)) as [Hyes|_];
           [contradiction|]]|]);
    destruct self; reflexivity.
Qed.

Lemma update_response_plan_plan self :
  is_Some (plan_of (threat_level self)) ->
  plan_of (threat_level (_update_response_plan self))
  = Some (response_plan (_update_response_plan self)).
Proof.
  unfold _update_response_plan, plan_of. intros [p Hp]. revert Hp.
  destruct (threat_level self =? THREAT_LEVEL_LOW)%Z eqn:E1.
  { intros _. cbn. rewrite E1. reflexivity. }
  destruct (threat_level self =? THREAT_LEVEL_MEDIUM)%Z eqn:E2.
  { intros _. cbn. rewrite E1, E2. reflexivity. }
  destruct (threat_level self =? THREAT_LEVEL_HIGH)%Z eqn:E3.
  { intros _. cbn. rewrite E1, E2, E3. reflexivity. }
  destruct (threat_level self =? THREAT_LEVEL_CRITICAL)%Z eqn:E4.
  { intros _. cbn. rewrite E1, E2, E3, E4. reflexivity. }
  discriminate.
Qed.

Lemma level_after_fired self a e :
  any_rule_fires self a e = true ->
  level_after self a e = THREAT_LEVEL_MEDIUM \/
  level_after self a e = THREAT_LEVEL_HIGH \/
  level_after self a e = THREAT_LEVEL_CRITICAL.
Proof.
  unfold any_rule_fires, level_after.
  destruct (ip_rule_fires self a), (transaction_rule_fires a e),
    (login_rule_fires a); cbn; intros H; try discriminate H; auto.
Qed.

(** The object a call of [detect_threat] leaves. *)
Lemma detect_threat_state self a e :
  (detect_threat self a e).2
  = if any_rule_fires self a e then
      let s2 := _update_response_plan
                  (append_active_threat
                     (set_threat_level self (level_after self a e))
                     (logged_threat a e (details_after self a e))) in
      append_security_alert s2
        (NewThreatAlert (now_alert e) (threat_level s2) (details_after self a e))
    else self.
Proof.
  unfold detect_threat. cbn [snd]. rewrite rules_scan.
  unfold record_threat. cbn [threat_detected sc_self sc_details].
  destruct (any_rule_fires self a e); reflexivity.
Qed.

Lemma detect_threat_detected self a e :
  (detect_threat self a e).1.1 = any_rule_fires self a e.
Proof. unfold detect_threat. cbn [fst]. rewrite rules_scan. reflexivity. Qed.

Lemma detect_threat_info self a e :
  (detect_threat self a e).1.2
  = {| ti_threat_detected := any_rule_fires self a e;
       ti_threat_level := threat_level (detect_threat self a e).2;
       ti_threat_details := if any_rule_fires self a e
                            then details_after self a e else None;
       ti_response_plan := response_plan (detect_threat self a e).2 |}.
Proof. unfold detect_threat. cbn [fst snd]. rewrite rules_scan. reflexivity. Qed.

Lemma detect_threat_plan_matches self a e :
  plan_matches_level self -> plan_matches_level (detect_threat self a e).2.
Proof.
  intros Hinv. rewrite detect_threat_state.
  destruct (any_rule_fires self a e) eqn:Hf; [|exact Hinv].
  unfold plan_matches_level. cbn zeta.
  change (plan_of (threat_level (_update_response_plan
            (append_active_threat
               (set_threat_level self (level_after self a e))
               (logged_threat a e (details_after self a e)))))
          = Some (response_plan (_update_response_plan
            (append_active_threat
               (set_threat_level self (level_after self a e))
               (logged_threat a e (details_after self a e)))))).
  apply update_response_plan_plan. cbn [threat_level append_active_threat set_threat_level].
  destruct (level_after_fired self a e Hf) as [H|[H|H]]; rewrite H; eexists;
    reflexivity.
Qed.

Lemma block_access_plan_matches self ad now :
  plan_matches_level self -> plan_matches_level (block_access self ad now).2.
Proof.
  unfold plan_matches_level, block_access. cbn [snd].
  destruct (ad_ip_address ad) as [ip|]; [destruct (decide _)|]; intros H; exact H.
Qed.

Lemma run_security_scan_plan_matches self now v p :
  plan_matches_level self -> plan_matches_level (run_security_scan self now v p).2.
Proof.
  unfold plan_matches_level, run_security_scan. cbn [snd].
  destruct ((2 <? v)%Z || (1 <? p)%Z); intros H; [|exact H].
  apply update_response_plan_plan. eexists. reflexivity.
Qed.

Lemma fold_operations_plan_matches ops : forall self,
  plan_matches_level self ->
  plan_matches_level (fold_left apply_operation ops self).
Proof.
  induction ops as [|op ops IH]; intros self H; [exact H|].
  cbn [fold_left]. apply IH. destruct op; cbn [apply_operation].
  - apply detect_threat_plan_matches, H.
  - apply block_access_plan_matches, H.
  - apply run_security_scan_plan_matches, H.
Qed.

Lemma update_response_plan_active_threats self :
  active_threats (_update_response_plan self) = active_threats self.
Proof.
  unfold _update_response_plan.
  repeat (match goal with |- context [if ?b then _ else _] => destruct b end);
    reflexivity.
Qed.

Lemma update_response_plan_security_alerts self :
  security_alerts (_update_response_plan self) = security_alerts self.
Proof.
  unfold _update_response_plan.
  repeat (match goal with |- context [if ?b then _ else _] => destruct b end);
    reflexivity.
Qed.

(** X1: in every system built from a fresh one by detections, blocks
    and scans, the response plan is the plan of the current threat
    level, which is one of the four levels. *)
Theorem response_plan_follows_level now ops :
  plan_of (threat_level (run now ops)) = Some (response_plan (run now ops)).
Proof.
  apply fold_operations_plan_matches. reflexivity.
Qed.

(** X2: a call of [detect_threat] reports a threat exactly when a rule
    fires; it then appends one record to the active threats and one
    alert to the security alerts, both with the details returned, the
    alert with the level returned; otherwise it appends nothing.  It
    never changes the block-list. *)
Theorem detect_threat_logs_each_detection self a e :
  let r := detect_threat self a e in
  r.1.1 = any_rule_fires self a e /\
  active_threats r.2
  = active_threats self
    ++ (if r.1.1 then [logged_threat a e (ti_threat_details r.1.2)] else []) /\
  security_alerts r.2
  = security_alerts self
    ++ (if r.1.1
        then [NewThreatAlert (now_alert e) (ti_threat_level r.1.2)
                (ti_threat_details r.1.2)]
        else []) /\
  blocked_ips r.2 = blocked_ips self.
Proof.
  intros r. subst r.
  rewrite detect_threat_info, detect_threat_detected, detect_threat_state.
  cbn [ti_threat_details ti_threat_level].
  destruct (any_rule_fires self a e).
  - cbn zeta. repeat split.
    + cbn. rewrite update_response_plan_active_threats. reflexivity.
    + cbn. rewrite update_response_plan_security_alerts. reflexivity.
    + cbn. rewrite update_response_plan_blocked_ips. reflexivity.
  - repeat split; symmetry; apply app_nil_r.
Qed.

(** X3: when a threat is reported, the details name the last rule
    that fired (blocked address before flagged transaction before
    login attempts), their severity word names the level returned,
    and the level and plan returned are those of the object after the
    call, the plan being the plan of that level; when none is
    reported, the details are empty and level and plan are those the
    object had. *)
Theorem detect_threat_report self a e :
  let r := detect_threat self a e in
  ti_threat_level r.1.2 = threat_level r.2 /\
  ti_response_plan r.1.2 = response_plan r.2 /\
  ti_threat_detected r.1.2 = r.1.1 /\
  (r.1.1 = true ->
     exists d, ti_threat_details r.1.2 = Some d /\
       severity_level (td_severity d) = Some (ti_threat_level r.1.2) /\
       plan_of (ti_threat_level r.1.2) = Some (ti_response_plan r.1.2) /\
       td_type d = (if ip_rule_fires self a then "blocked_ip_access"
                    else if transaction_rule_fires a e then "unusual_transaction"
                    else "brute_force_attempt")) /\
  (r.1.1 = false ->
     ti_threat_details r.1.2 = None /\ r.2 = self).
Proof.
  intros r. subst r.
  rewrite detect_threat_info, detect_threat_detected.
  cbn [ti_threat_level ti_response_plan ti_threat_detected ti_threat_details].
  split; [reflexivity|]. split; [reflexivity|]. split; [reflexivity|].
  split.
  - intros Hf. rewrite Hf.
    assert (Hplan : plan_of (threat_level (detect_threat self a e).2)
                    = Some (response_plan (detect_threat self a e).2)).
    { rewrite detect_threat_state, Hf. cbn zeta.
      cbn [threat_level response_plan append_security_alert].
      apply update_response_plan_plan.
      cbn [threat_level append_active_threat set_threat_level].
      destruct (level_after_fired self a e Hf) as [H|[H|H]]; rewrite H; eexists;
        reflexivity. }
    rewrite detect_threat_level.
    revert Hf Hplan. rewrite detect_threat_level.
    unfold any_rule_fires, details_after, level_after, ip_rule_fires,
      transaction_rule_fires, login_rule_fires.
    destruct (ip_address a) as [ip|];
      [destruct (bool_decide (ip ∈ blocked_ips self))|];
      (destruct (transaction a) as [t|];
         [destruct (Qlt_bool 10000 (get_amount t) && Qlt_bool (rnd e) 0.3)|]);
      (destruct (login_attempts a) as [k|]; [destruct (5 <? k)%Z|]);
      cbn; intros Hf Hplan; try discriminate Hf;
      eexists; (split; [reflexivity|]); repeat split; exact Hplan.
  - intros Hf. rewrite Hf. split; [reflexivity|].
    rewrite detect_threat_state, Hf. reflexivity.
Qed.

Lemma detect_threat_report_witness :
  let ip := "203.0.113.42" in
  let e := {| rnd := 0.1%Q; now_threat := "2024-05-01T10:00:00";
              now_alert := "2024-05-01T10:00:01" |} in
  let s0 := (block_access (init "2024-05-01T09:00:00")
               {| ad_ip_address := Some ip; ad_reason := None |}
               "2024-05-01T09:30:00").2 in
  let hit := {| login_attempts := Some 9%Z;
                transaction := Some {| amount := Some 20000%Q |};
                ip_address := Some ip |} in
  let miss := {| login_attempts := Some 2%Z; transaction := None;
                 ip_address := None |} in
  ((detect_threat s0 hit e).1.1 = true /\
   exists d, ti_threat_details (detect_threat s0 hit e).1.2 = Some d /\
     td_type d = "blocked_ip_access" /\ td_severity d = "critical" /\
     ti_threat_level (detect_threat s0 hit e).1.2 = THREAT_LEVEL_CRITICAL) /\
  ((detect_threat s0 miss e).1.1 = false /\ (detect_threat s0 miss e).2 = s0).
Proof.
  intros ip e s0 hit miss.
  assert (Hhit : (detect_threat s0 hit e).1.1 = true) by reflexivity.
  assert (Hmiss : (detect_threat s0 miss e).1.1 = false) by reflexivity.
  split.
  - split; [exact Hhit|].
    destruct (detect_threat_report s0 hit e) as (_ & _ & _ & Hd & _).
    destruct (Hd Hhit) as (d & Hsome & _ & _ & Htype).
    exists d. split; [exact Hsome|].
    assert (Hv : ti_threat_details (detect_threat s0 hit e).1.2
                 = Some {| td_type := "blocked_ip_access";
                           td_severity := "critical";
                           td_evidence := AccessAttemptFromBlockedIP ip |})
      by (vm_compute; reflexivity).
    rewrite Hv in Hsome. injection Hsome as <-.
    repeat split.
  - split; [exact Hmiss|].
    exact (proj2 (proj2 (proj2 (proj2 (proj2 (detect_threat_report s0 miss e)))) Hmiss)).
Defined.

(** *** The block-list *)

Lemma block_access_blocked_ips self ad now :
  blocked_ips (block_access self ad now).2
  = match ad_ip_address ad with
    | Some ip => if decide (ip ∈ blocked_ips self) then blocked_ips self
                 else blocked_ips self ++ [ip]
    | None => blocked_ips self
    end.
Proof.
  unfold block_access. cbn [snd].
  destruct (ad_ip_address ad) as [ip|]; [|reflexivity].
  destruct (decide (ip ∈ blocked_ips self)); reflexivity.
Qed.

Lemma run_security_scan_blocked_ips self now v p :
  blocked_ips (run_security_scan self now v p).2 = blocked_ips self.
Proof.
  unfold run_security_scan. cbn [snd].
  destruct ((2 <? v)%Z || (1 <? p)%Z); [|reflexivity].
  rewrite update_response_plan_blocked_ips. reflexivity.
Qed.

Lemma apply_operation_blocked_ips self op :
  (NoDup (blocked_ips self) -> NoDup (blocked_ips (apply_operation self op))) /\
  (forall ip, ip ∈ blocked_ips self -> ip ∈ blocked_ips (apply_operation self op)).
Proof.
  destruct op as [a e|ad now|now v p]; cbn [apply_operation].
  - rewrite detect_threat_blocked_ips. tauto.
  - rewrite block_access_blocked_ips.
    destruct (ad_ip_address ad) as [ip'|]; [|tauto].
    destruct (decide (ip' ∈ blocked_ips self)) as [Hin|Hout]; [tauto|].
    split.
    + intros Hnd. apply NoDup_app. split; [exact Hnd|]. split.
      * intros x Hx Hx'. apply list_elem_of_singleton in Hx'. subst x.
        contradiction.
      * apply NoDup_singleton.
    + intros ip Hip. apply elem_of_app. left. exact Hip.
  - rewrite run_security_scan_blocked_ips. tauto.
Qed.

Lemma fold_operations_blocked_ips ops : forall self,
  (NoDup (blocked_ips self) ->
   NoDup (blocked_ips (fold_left apply_operation ops self))) /\
  (forall ip, ip ∈ blocked_ips self ->
              ip ∈ blocked_ips (fold_left apply_operation ops self)).
Proof.
  induction ops as [|op ops IH]; intros self; [tauto|].
  cbn [fold_left].
  destruct (apply_operation_blocked_ips self op) as [Hnd Hin].
  destruct (IH (apply_operation self op)) as [Hnd' Hin'].
  split; [intros H; apply Hnd', Hnd, H | intros ip H; apply Hin', Hin, H].
Qed.

(** X4: over any sequence of detections, blocks and scans the
    block-list never loses an address, and the block-list of a system
    built from a fresh one never holds an address twice. *)
Theorem blocked_ips_grow_without_duplicates :
  (forall self ops ip,
     ip ∈ blocked_ips self ->
     ip ∈ blocked_ips (fold_left apply_operation ops self)) /\
  (forall now ops, NoDup (blocked_ips (run now ops))).
Proof.
  split.
  - intros self ops ip. apply (fold_operations_blocked_ips ops self).
  - intros now ops. apply (fold_operations_blocked_ips ops (init now)).
    apply NoDup_nil_2.
Qed.

Lemma blocked_ips_grow_without_duplicates_witness :
  let ip := "203.0.113.42" in
  let e := {| rnd := 0.1%Q; now_threat := "2024-05-01T10:00:00";
              now_alert := "2024-05-01T10:00:01" |} in
  let block := BlockAccess {| ad_ip_address := Some ip; ad_reason := None |}
                 "2024-05-01T09:30:00" in
  let s0 := run "2024-05-01T09:00:00" [block] in
  let ops := [RunSecurityScan "2024-05-01T11:00:00" 3 0; block;
              DetectThreat {| login_attempts := Some 7%Z; transaction := None;
                              ip_address := Some ip |} e] in
  ip ∈ blocked_ips s0 /\
  ip ∈ blocked_ips (fold_left apply_operation ops s0) /\
  NoDup (blocked_ips (run "2024-05-01T09:00:00" (block :: ops))).
Proof.
  intros ip e block s0 ops.
  assert (Hin : ip ∈ blocked_ips s0)
    by (apply (bool_decide_unpack _); vm_compute; exact I).
  split; [exact Hin|]. split.
  - exact (proj1 blocked_ips_grow_without_duplicates s0 ops ip Hin).
  - exact (proj2 blocked_ips_grow_without_duplicates _ _).
Defined.

(** X5: [block_access] always returns [True] and always appends one
    alert, also for an address that is already blocked; an address
    given to it is blocked afterwards, and blocking it again leaves
    the block-list as it is. *)
Theorem block_access_idempotent_on_list self ad now now' :
  let r1 := block_access self ad now in
  let r2 := block_access r1.2 ad now' in
  r1.1 = true /\ r2.1 = true /\
  security_alerts r1.2 = security_alerts self ++ [BlockAccessAlert now ad] /\
  security_alerts r2.2
  = security_alerts self ++ [BlockAccessAlert now ad; BlockAccessAlert now' ad] /\
  blocked_ips r2.2 = blocked_ips r1.2 /\
  (forall ip, ad_ip_address ad = Some ip -> ip ∈ blocked_ips r1.2) /\
  (ad_ip_address ad = None -> blocked_ips r1.2 = blocked_ips self) /\
  threat_level r2.2 = threat_level self /\
  active_threats r2.2 = active_threats self.
Proof.
  intros r1 r2. subst r1 r2.
  split; [reflexivity|]. split; [reflexivity|].
  rewrite !block_access_blocked_ips.
  assert (Hal : forall s a n, security_alerts (block_access s a n).2
                              = security_alerts s ++ [BlockAccessAlert n a]).
  { intros s a n. unfold block_access. cbn [snd security_alerts append_security_alert].
    destruct (ad_ip_address a) as [ip|]; [destruct (decide _)|]; reflexivity. }
  split; [apply Hal|]. split; [rewrite !Hal, <- app_assoc; reflexivity|].
  assert (Hfr : forall s a n, threat_level (block_access s a n).2 = threat_level s
                              /\ active_threats (block_access s a n).2 = active_threats s).
  { intros s a n. unfold block_access. cbn [snd].
    destruct (ad_ip_address a) as [ip|]; [destruct (decide _)|]; split; reflexivity. }
  destruct (ad_ip_address ad) as [ip|].
  - destruct (decide (ip ∈ blocked_ips self)) as [Hin|Hout].
    + rewrite decide_True by exact Hin.
      repeat split; try discriminate.
      * intros ip' [= <-]. exact Hin.
      * rewrite !(proj1 (Hfr _ _ _)). reflexivity.
      * rewrite !(proj2 (Hfr _ _ _)). reflexivity.
    + assert (Hnew : ip ∈ blocked_ips self ++ [ip])
        by (apply elem_of_app; right; apply list_elem_of_singleton; reflexivity).
      rewrite decide_True by exact Hnew.
      repeat split; try discriminate.
      * intros ip' [= <-]. exact Hnew.
      * rewrite !(proj1 (Hfr _ _ _)). reflexivity.
      * rewrite !(proj2 (Hfr _ _ _)). reflexivity.
  - repeat split; try discriminate.
    + rewrite !(proj1 (Hfr _ _ _)). reflexivity.
    + rewrite !(proj2 (Hfr _ _ _)). reflexivity.
Qed.

Lemma block_access_idempotent_on_list_witness :
  let ad := {| ad_ip_address := Some "203.0.113.42";
               ad_reason := Some "High risk login attempt" |} in
  let r1 := block_access (init "2024-05-01T09:00:00") ad "2024-05-01T09:30:00" in
  let r2 := block_access r1.2 ad "2024-05-01T09:31:00" in
  ad_ip_address ad = Some "203.0.113.42" /\
  "203.0.113.42" ∈ blocked_ips r1.2 /\
  blocked_ips r2.2 = blocked_ips r1.2 /\
  length (security_alerts r2.2) = 2%nat.
Proof.
  intros ad r1 r2.
  destruct (block_access_idempotent_on_list (init "2024-05-01T09:00:00") ad
              "2024-05-01T09:30:00" "2024-05-01T09:31:00")
    as (_ & _ & _ & Hal & Hsame & Hin & _).
  split; [reflexivity|]. split; [exact (Hin _ eq_refl)|].
  split; [exact Hsame|].
  fold r1 in Hal. fold r2 in Hal. rewrite Hal. reflexivity.
Defined.

(** X6: once an address has been given to [block_access], whatever
    detections, blocks and scans follow, an event from that address is
    reported as a threat of type [blocked_ip_access], the level
    becomes Critical and the plan the lockdown plan. *)
Theorem blocked_address_is_detected self ad now ops a e ip :
  ad_ip_address ad = Some ip ->
  ip_address a = Some ip ->
  let s := fold_left apply_operation ops (block_access self ad now).2 in
  let r := detect_threat s a e in
  r.1.1 = true /\
  threat_level r.2 = THREAT_LEVEL_CRITICAL /\
  response_plan r.2
  = "Lockdown affected systems, block all suspicious IPs, immediate security team response" /\
  td_type <$> ti_threat_details r.1.2 = Some "blocked_ip_access".
Proof.
  intros Had Ha s r.
  assert (Hin : ip ∈ blocked_ips s).
  { apply (fold_operations_blocked_ips ops). rewrite block_access_blocked_ips, Had.
    destruct (decide (ip ∈ blocked_ips self)) as [H|_]; [exact H|].
    apply elem_of_app. right. apply list_elem_of_singleton. reflexivity. }
  assert (Hip : ip_rule_fires s a = true) by (apply (ip_rule_fires_blocked s a ip Ha Hin)).
  assert (Hany : any_rule_fires s a e = true)
    by (unfold any_rule_fires; rewrite Hip; apply orb_true_r).
  assert (Hlvl : level_after s a e = THREAT_LEVEL_CRITICAL)
    by (unfold level_after; rewrite Hip; reflexivity).
  subst r. rewrite detect_threat_info, detect_threat_detected, detect_threat_state.
  rewrite Hany, Hlvl. cbn zeta. cbn [ti_threat_details].
  split; [reflexivity|]. split; [|split].
  - reflexivity.
  - reflexivity.
  - unfold details_after. rewrite Ha, Hip.
    match goal with |- _ <$> (Some _ ∪ ?y) = _ => destruct y end; reflexivity.
Qed.

Lemma blocked_address_is_detected_witness :
  let ip := "203.0.113.42" in
  let e := {| rnd := 0.9%Q; now_threat := "2024-05-01T10:00:00";
              now_alert := "2024-05-01T10:00:01" |} in
  let ad := {| ad_ip_address := Some ip; ad_reason := None |} in
  let a := {| login_attempts := Some 1%Z; transaction := None;
              ip_address := Some ip |} in
  let ops := [RunSecurityScan "2024-05-01T11:00:00" 3 2] in
  let s := fold_left apply_operation ops
             (block_access (init "2024-05-01T09:00:00") ad "2024-05-01T09:30:00").2 in
  ad_ip_address ad = Some ip /\ ip_address a = Some ip /\
  (detect_threat s a e).1.1 = true /\
  threat_level (detect_threat s a e).2 = THREAT_LEVEL_CRITICAL.
Proof.
  intros ip e ad a ops s.
  destruct (blocked_address_is_detected (init "2024-05-01T09:00:00") ad
              "2024-05-01T09:30:00" ops a e ip eq_refl eq_refl)
    as (H1 & H2 & _).
  split; [reflexivity|]. split; [reflexivity|]. split; [exact H1|exact H2].
Defined.

End ProactiveDefenseFacts.

(** ** Authentication risk *)

Module AuthenticationFacts.
Import Authentication.

Lemma evaluate_risk_clamped_sum self ud :
  ((evaluate_risk self ud).1 == Qmin (penalties self ud) 1)%Q.
Proof.
  unfold evaluate_risk, penalties, unusual_hour. cbn [fst].
  destruct (missing (face_data ud)), (missing (typing_pattern ud)),
    ((2 <=? hour (login_time self))%Z && (hour (login_time self) <=? 5)%Z);
    vm_compute; reflexivity.
Qed.

(** [authenticate] reports the risk [evaluate_risk] computes from the
    same context. *)
Lemma authenticate_risk self ud :
  ai_risk_level (authenticate self ud).1.2 = (evaluate_risk self ud).1.
Proof. reflexivity. Qed.

Lemma authenticate_success self ud :
  (authenticate self ud).1.1 = Qlt_bool (evaluate_risk self ud).1 0.7.
Proof. reflexivity. Qed.

Lemma authenticate_additional self ud :
  additional_verification_required (authenticate self ud).1.2
  = Qle_bool 0.3 (evaluate_risk self ud).1
    && Qlt_bool (evaluate_risk self ud).1 0.7.
Proof. reflexivity. Qed.

(** Reading the floats as rationals changes no comparison the source
    makes on the risk: on binary64 the risk of every context compares
    with 0.3, 0.5 and 0.7 as the rational risk does. *)
Lemma evaluate_risk_binary64_agrees self ud :
  let q := (evaluate_risk self ud).1 in
  let f := evaluate_risk_binary64 (missing (face_data ud))
             (missing (typing_pattern ud))
             (unusual_hour (hour (login_time self))) in
  PrimFloat.ltb f 0.7 = Qlt_bool q 0.7 /\
  PrimFloat.leb 0.3 f = Qle_bool 0.3 q /\
  PrimFloat.ltb f 0.5 = Qlt_bool q 0.5 /\
  PrimFloat.leb 0.5 f = Qle_bool 0.5 q.
Proof.
  unfold evaluate_risk, unusual_hour. cbn [fst].
  destruct (missing (face_data ud)), (missing (typing_pattern ud)),
    ((2 <=? hour (login_time self))%Z && (hour (login_time self) <=? 5)%Z);
    vm_compute; repeat split.
Qed.

(** C5: the base risk is the sum of the independent penalties (0.3
    for a missing or empty face sample, 0.2 for a missing or empty
    typing sample, 0.2 for a login hour in the unusual window) capped
    at 1.0; with both samples missing and a login at 3 AM the risk is
    0.7 and authentication is denied. *)
Theorem evaluate_risk_additive_penalties :
  (forall self ud,
     ((evaluate_risk self ud).1 == Qmin (penalties self ud) 1)%Q) /\
  (forall self ud,
     missing (face_data ud) = true ->
     missing (typing_pattern ud) = true ->
     hour (login_time self) = 3%Z ->
     ((evaluate_risk self ud).1 == 0.7)%Q /\
     (authenticate self ud).1.1 = false /\
     decision_of (authenticate self ud).1 = Deny).
Proof.
  split; [exact evaluate_risk_clamped_sum|].
  intros self ud Hf Ht Hh.
  assert (Hr : (evaluate_risk self ud).1 = py_min (0.0 + 0.3 + 0.2 + 0.2) 1.0).
  { unfold evaluate_risk. cbn [fst]. rewrite Hf, Ht, Hh. reflexivity. }
  unfold decision_of.
  rewrite authenticate_success, Hr.
  split; [vm_compute; reflexivity|]. split; reflexivity.
Qed.

Lemma evaluate_risk_additive_penalties_witness :
  let self := init {| hour := 3; isoformat := "2024-05-01T03:12:45" |} in
  let ud := {| device_info := Some "Windows 11, Chrome 98.0.4758.102";
               location := Some "33.5102,36.29128";
               face_data := None;
               typing_pattern := Some "" |} in
  missing (face_data ud) = true /\
  missing (typing_pattern ud) = true /\
  hour (login_time self) = 3%Z /\
  ((evaluate_risk self ud).1 == 0.7)%Q /\
  (authenticate self ud).1.1 = false /\
  decision_of (authenticate self ud).1 = Deny.
Proof.
  intros self ud.
  assert (Hf : missing (face_data ud) = true) by reflexivity.
  assert (Ht : missing (typing_pattern ud) = true) by reflexivity.
  assert (Hh : hour (login_time self) = 3%Z) by reflexivity.
  split; [exact Hf|]. split; [exact Ht|]. split; [exact Hh|].
  exact (proj2 evaluate_risk_additive_penalties self ud Hf Ht Hh).
Defined.

(** C2, as stated, fails: with only the face sample missing, at 10 AM,
    the risk is 0.3, below 0.5, yet [authenticate] asks for additional
    verification. *)
Lemma authenticate_challenges_below_half :
  let self := init {| hour := 10; isoformat := "2024-05-01T10:12:45" |} in
  let ud := {| device_info := Some "Windows 11, Chrome 98.0.4758.102";
               location := Some "33.5102,36.29128";
               face_data := None;
               typing_pattern := Some "angel_typing_pattern_data" |} in
  let r := (authenticate self ud).1 in
  ((evaluate_risk self ud).1 == 0.3)%Q /\
  ((evaluate_risk self ud).1 < 0.5)%Q /\
  r.1 = true /\
  additional_verification_required r.2 = true /\
  decision_of r <> Allow.
Proof.
  vm_compute. repeat split; discriminate.
Qed.

(** C2, amended: the result of [authenticate] is determined by the
    risk of [evaluate_risk]: below 0.3 it succeeds with no additional
    verification (Allow), from 0.3 to below 0.7 it succeeds and
    requires additional verification (Challenge), from 0.7 on it fails
    (Deny).  The thresholds 0.5 and 0.7 are those of [simulate_login],
    on the aggregated risk: with a successful [authenticate] the login
    succeeds below 0.5, additional verification is requested from 0.5
    to below 0.7, and in every other case the login is denied. *)
Theorem authenticate_decision_thresholds :
  (forall self ud,
     let risk := (evaluate_risk self ud).1 in
     let r := (authenticate self ud).1 in
     ((risk < 0.3)%Q ->
        r.1 = true /\ additional_verification_required r.2 = false /\
        decision_of r = Allow) /\
     ((0.3 <= risk)%Q -> (risk < 0.7)%Q ->
        r.1 = true /\ additional_verification_required r.2 = true /\
        decision_of r = Challenge) /\
     ((0.7 <= risk)%Q ->
        r.1 = false /\ decision_of r = Deny)) /\
  (forall auth_result risk,
     (auth_result = true -> (risk < 0.5)%Q ->
        simulate_login_outcome auth_result risk = LoginSuccessful) /\
     (auth_result = true -> (0.5 <= risk)%Q -> (risk < 0.7)%Q ->
        simulate_login_outcome auth_result risk = AdditionalVerificationRequested) /\
     (auth_result = false \/ (0.7 <= risk)%Q ->
        simulate_login_outcome auth_result risk = LoginDenied)).
Proof.
  split.
  - intros self ud risk r.
    unfold decision_of. subst r.
    rewrite authenticate_success, authenticate_additional. fold risk.
    split; [|split].
    + intros Hlt.
      assert (H7 : (risk < 0.7)%Q)
        by (eapply Qlt_trans; [exact Hlt|reflexivity]).
      apply Qlt_bool_iff in H7. rewrite H7.
      assert (H3 : Qle_bool 0.3 risk = false).
      { destruct (Qle_bool 0.3 risk) eqn:E; [|reflexivity].
        apply Qle_bool_iff in E. exfalso. exact (Qlt_not_le _ _ Hlt E). }
      rewrite H3. repeat split.
    + intros H3 H7.
      apply Qlt_bool_iff in H7. apply Qle_bool_iff in H3.
      rewrite H7, H3. repeat split.
    + intros H7. apply Qlt_bool_false_iff in H7. rewrite H7. repeat split.
  - intros auth_result risk. unfold simulate_login_outcome.
    split; [|split].
    + intros -> Hlt. apply Qlt_bool_iff in Hlt. rewrite Hlt. reflexivity.
    + intros -> H5 H7.
      assert (Hn : Qlt_bool risk 0.5 = false) by (apply Qlt_bool_false_iff, H5).
      apply Qlt_bool_iff in H7. apply Qle_bool_iff in H5.
      rewrite Hn, H5, H7. reflexivity.
    + intros [-> | H7]; [reflexivity|].
      assert (Hn : Qlt_bool risk 0.5 = false).
      { apply Qlt_bool_false_iff. eapply Qle_trans; [|exact H7].
        unfold Qle; cbn; lia. }
      apply Qlt_bool_false_iff in H7. rewrite Hn, H7.
      destruct auth_result; cbn; rewrite ?andb_false_r; reflexivity.
Qed.

Lemma authenticate_decision_thresholds_witness :
  let self := init {| hour := 10; isoformat := "2024-05-01T10:12:45" |} in
  let ud := {| device_info := Some "Windows 11, Chrome 98.0.4758.102";
               location := Some "33.5102,36.29128";
               face_data := None;
               typing_pattern := Some "angel_typing_pattern_data" |} in
  let risk := (evaluate_risk self ud).1 in
  let r := (authenticate self ud).1 in
  ((0.3 <= risk)%Q /\ (risk < 0.7)%Q /\
   r.1 = true /\ additional_verification_required r.2 = true /\
   decision_of r = Challenge) /\
  (true = true /\ (0.5 <= 0.6)%Q /\ (0.6 < 0.7)%Q /\
   simulate_login_outcome true 0.6 = AdditionalVerificationRequested).
Proof.
  intros self ud risk r.
  destruct authenticate_decision_thresholds as (Hauth & Hsim).
  assert (H3 : (0.3 <= risk)%Q) by (vm_compute; discriminate).
  assert (H7 : (risk < 0.7)%Q) by (vm_compute; reflexivity).
  assert (H5 : (0.5 <= 0.6)%Q) by (vm_compute; discriminate).
  assert (H6 : (0.6 < 0.7)%Q) by (vm_compute; reflexivity).
  split.
  - split; [exact H3|]. split; [exact H7|].
    exact (proj1 (proj2 (Hauth self ud)) H3 H7).
  - split; [reflexivity|]. split; [exact H5|]. split; [exact H6|].
    exact (proj1 (proj2 (Hsim true 0.6%Q)) eq_refl H5 H6).
Defined.

(** *** Reach of the risk, risk factors and history *)

(** X7: the risk of [evaluate_risk] is the plain sum of the
    penalties, the cap at 1.0 never applies since the sum is at most
    0.7, and [authenticate] fails exactly when all three penalties
    apply: both samples missing or empty and a login hour from 2 to
    5. *)
Theorem authenticate_fails_only_with_all_penalties self ud :
  ((evaluate_risk self ud).1 == penalties self ud)%Q /\
  ((evaluate_risk self ud).1 <= 0.7)%Q /\
  ((authenticate self ud).1.1 = false
   <-> missing (face_data ud) = true /\ missing (typing_pattern ud) = true /\
       unusual_hour (hour (login_time self)) = true).
Proof.
  rewrite authenticate_success.
  unfold evaluate_risk, penalties, unusual_hour. cbn [fst].
  destruct (missing (face_data ud)), (missing (typing_pattern ud)),
    ((2 <=? hour (login_time self))%Z && (hour (login_time self) <=? 5)%Z);
    (split; [vm_compute; reflexivity|]); (split; [vm_compute; discriminate|]);
    vm_compute; intuition discriminate.
Qed.

(** X8: after [evaluate_risk] the recorded risk factors are exactly
    those of the context, whatever was recorded before; none is
    recorded exactly when the risk is 0, and [authenticate] returns
    the same list. *)
Theorem risk_factors_reflect_context self ud :
  risk_factors (evaluate_risk self ud).2 = expected_factors self ud /\
  ai_risk_factors (authenticate self ud).1.2 = expected_factors self ud /\
  (expected_factors self ud = [] <-> ((evaluate_risk self ud).1 == 0)%Q) /\
  length (expected_factors self ud) <= 3.
Proof.
  unfold evaluate_risk, authenticate, evaluate_risk, expected_factors,
    unusual_hour.
  cbn [fst snd risk_factors login_time ai_risk_factors].
  destruct (missing (face_data ud)), (missing (typing_pattern ud)),
    ((2 <=? hour (login_time self))%Z && (hour (login_time self) <=? 5)%Z);
    cbn; (split; [reflexivity|]); (split; [reflexivity|]);
    (split; [|lia]); split; intros H; try discriminate H;
    try reflexivity; exfalso; vm_compute in H; discriminate H.
Qed.

Lemma authenticate_state self ud :
  (authenticate self ud).2
  = {| login_time := login_time self;
       login_device := default "Unknown device" (device_info ud);
       login_location := default "Unknown location" (location ud);
       risk_factors := expected_factors self ud;
       authentication_history :=
         authentication_history self ++ [entry_of (login_time self) ud] |}.
Proof.
  unfold authenticate, entry_of, evaluate_risk, expected_factors, unusual_hour,
    init.
  cbn [fst snd login_time login_device login_location risk_factors
         authentication_history].
  destruct (missing (face_data ud)), (missing (typing_pattern ud)),
    ((2 <=? hour (login_time self))%Z && (hour (login_time self) <=? 5)%Z);
    reflexivity.
Qed.

Lemma authenticate_all_state uds : forall self,
  login_time (authenticate_all self uds) = login_time self /\
  authentication_history (authenticate_all self uds)
  = authentication_history self ++ map (entry_of (login_time self)) uds.
Proof.
  unfold authenticate_all.
  induction uds as [|ud uds IH]; intros self; cbn [fold_left map].
  - split; [reflexivity|]. symmetry. apply app_nil_r.
  - destruct (IH (authenticate self ud).2) as [Ht Hh].
    rewrite Ht, Hh, authenticate_state. cbn [login_time authentication_history].
    split; [reflexivity|]. rewrite <- app_assoc. reflexivity.
Qed.

(** X9: [authenticate] never refreshes [login_time]: after any number
    of attempts on an object created at [now], the history holds one
    entry per attempt, in order, each stamped with [now], with the
    device and location of the attempt (or the "Unknown" defaults),
    its risk, and a success flag that says whether the risk is below
    0.7. *)
Theorem authentication_history_records_attempts now uds :
  let s := authenticate_all (init now) uds in
  login_time s = now /\
  authentication_history s = map (entry_of now) uds /\
  length (authentication_history s) = length uds /\
  Forall (fun entry => he_timestamp entry = now /\
                       he_success entry = Qlt_bool (he_risk_level entry) 0.7)
    (authentication_history s).
Proof.
  intros s. subst s.
  destruct (authenticate_all_state uds (init now)) as [Ht Hh].
  cbn [login_time authentication_history init app] in Ht, Hh.
  rewrite Ht, Hh, length_map. repeat split.
  apply Forall_forall. intros entry Hin.
  apply list_elem_of_fmap in Hin as (ud & -> & _). split; reflexivity.
Qed.

End AuthenticationFacts.

(** ** Risk aggregation *)

Module AIEngineFacts.
Import AIEngine.


Lemma key_factor_Some k f : key_factor k = Some f -> k = factor_key f.
Proof.
  unfold key_factor. repeat case_decide; intros [= <-]; assumption.
Qed.

Lemma key_factor_None k : key_factor k = None <-> ~ recognized k.
Proof.
  unfold key_factor, recognized. rewrite !elem_of_cons, elem_of_nil.
  repeat case_decide; split; try discriminate; intuition congruence.
Qed.

Lemma weights_lookup k : weights !! k = factor_weight <$> key_factor k.
Proof.
  unfold weights, key_factor.
  rewrite !lookup_insert, lookup_empty.
  repeat case_decide; subst; try congruence; reflexivity.
Qed.

(** Settle a membership test between string literals. *)
Ltac decide_membership :=
  let Hm := fresh "Hm" in
  case_decide as Hm;
  [ try solve [exfalso; rewrite !elem_of_cons, elem_of_nil in Hm;
               intuition discriminate]
  | try solve [exfalso; apply Hm; rewrite !elem_of_cons; auto] ].

Lemma accumulate_components acc item :
  ((accumulate acc item).1 == acc.1 + item_risk item)%Q /\
  ((accumulate acc item).2 == acc.2 + item_weight item)%Q.
Proof.
  destruct item as [k [b s]]. unfold accumulate, item_risk, item_weight.
  rewrite weights_lookup. cbn [fst snd].
  destruct (key_factor k) as [f|] eqn:E; cbn [fmap option_fmap option_map].
  - apply key_factor_Some in E. subst k.
    destruct f; cbn; split; try decide_membership; ring.
  - cbn. split; ring.
Qed.

Lemma Qsum_nil : Qsum [] = 0%Q.
Proof. reflexivity. Qed.

Lemma Qsum_cons x l : Qsum (x :: l) = (x + Qsum l)%Q.
Proof. reflexivity. Qed.

(** The loop computes the two sums. *)
Lemma fold_accumulate vr : forall acc,
  ((fold_left accumulate vr acc).1 == acc.1 + total_risk_of vr)%Q /\
  ((fold_left accumulate vr acc).2 == acc.2 + total_weight_of vr)%Q.
Proof.
  unfold total_risk_of, total_weight_of.
  induction vr as [|item vr IH]; intros acc; cbn [fold_left map];
    rewrite ?Qsum_cons, ?Qsum_nil.
  - split; ring.
  - destruct (IH (accumulate acc item)) as [IH1 IH2].
    destruct (accumulate_components acc item) as [H1 H2].
    split; [rewrite IH1, H1 | rewrite IH2, H2]; ring.
Qed.

Lemma factor_weight_pos f : (0 < factor_weight f)%Q.
Proof. destruct f; reflexivity. Qed.

Lemma item_weight_nonneg item : (0 <= item_weight item)%Q.
Proof.
  unfold item_weight. destruct (key_factor item.1) as [f|].
  - apply Qlt_le_weak, factor_weight_pos.
  - apply Qle_refl.
Qed.

Lemma total_weight_nonneg vr : (0 <= total_weight_of vr)%Q.
Proof.
  unfold total_weight_of.
  induction vr as [|item vr IH]; cbn [map]; rewrite ?Qsum_cons, ?Qsum_nil.
  - apply Qle_refl.
  - pose proof (item_weight_nonneg item). lra.
Qed.

(** With scores in the unit interval, an entry adds a risk between 0
    and its weight. *)
Lemma item_risk_bounds item :
  (0 <= item.2.2 /\ item.2.2 <= 1)%Q ->
  (0 <= item_risk item /\ item_risk item <= item_weight item)%Q.
Proof.
  intros [H0 H1]. unfold item_risk, item_weight.
  destruct (key_factor item.1) as [f|]; [|split; apply Qle_refl].
  destruct f; cbn [factor_risk factor_weight]; lra.
Qed.

Lemma total_risk_bounds vr :
  scores_in_unit vr ->
  (0 <= total_risk_of vr /\ total_risk_of vr <= total_weight_of vr)%Q.
Proof.
  unfold scores_in_unit, total_risk_of, total_weight_of.
  induction 1 as [|item vr Hitem _ IH]; cbn [map];
    rewrite ?Qsum_cons, ?Qsum_nil.
  - split; apply Qle_refl.
  - pose proof (item_risk_bounds item Hitem). lra.
Qed.

(** [predict_risk_level] in terms of the two sums. *)
Lemma predict_risk_level_sums vr :
  (total_weight_of vr == 0)%Q /\ predict_risk_level vr = 0.9%Q \/
  (0 < total_weight_of vr)%Q /\
  (predict_risk_level vr == total_risk_of vr / total_weight_of vr)%Q.
Proof.
  unfold predict_risk_level.
  destruct (fold_accumulate vr (0.0%Q, 0.0%Q)) as [H1 H2].
  destruct (fold_left accumulate vr (0.0%Q, 0.0%Q)) as [tr tw].
  cbn [fst snd] in H1, H2.
  assert (Hw : (tw == total_weight_of vr)%Q) by (rewrite H2; ring).
  assert (Hr : (tr == total_risk_of vr)%Q) by (rewrite H1; ring).
  destruct (Qeq_bool tw 0) eqn:E.
  - left. apply Qeq_bool_iff in E. split; [|reflexivity].
    rewrite <- Hw. exact E.
  - right. apply Qeq_bool_neq in E.
    pose proof (total_weight_nonneg vr) as Hn.
    split.
    + apply Qle_lt_or_eq in Hn. destruct Hn as [Hlt|Heq]; [exact Hlt|].
      exfalso. apply E. rewrite Hw. symmetry. exact Heq.
    + rewrite Hr, Hw. reflexivity.
Qed.

(** *** The loop against the reference definition *)


Lemma present_weight_factor_value vr f :
  present_weight vr f = factor_value plain_weight vr f.
Proof. reflexivity. Qed.



Lemma Qsum_all_factors (g : factor -> Q) :
  Qsum (map g all_factors)
  = (g Face + (g Typing + (g Location + (g Device + 0))))%Q.
Proof. reflexivity. Qed.


Lemma item_risk_value item : item_risk item = item_value weighted_risk item.
Proof. reflexivity. Qed.

Lemma item_weight_value item : item_weight item = item_value plain_weight item.
Proof. reflexivity. Qed.





Lemma accumulate_unrecognized acc k v :
  ~ recognized k -> accumulate acc (k, v) = acc.
Proof.
  intros Hk. destruct v as [b s]. unfold accumulate.
  rewrite weights_lookup. apply key_factor_None in Hk. rewrite Hk.
  reflexivity.
Qed.

Lemma fold_accumulate_unrecognized vr : forall acc,
  Forall (fun k => ~ recognized k) (keys vr) ->
  fold_left accumulate vr acc = acc.
Proof.
  induction vr as [|[k v] vr IH]; intros acc Hall; [reflexivity|].
  cbn in Hall. apply Forall_cons in Hall as [Hk Hall].
  cbn [fold_left]. rewrite accumulate_unrecognized by exact Hk.
  apply IH, Hall.
Qed.

Lemma aggregate_spec_all_present vr f t l d :
  score_of vr "face" = Some f -> score_of vr "typing" = Some t ->
  score_of vr "location" = Some l -> score_of vr "device" = Some d ->
  (aggregate_spec vr
   == ((1 - f) * 0.35 + (1 - t) * 0.25 + l * 0.2 + d * 0.2)
      / (0.35 + 0.25 + 0.2 + 0.2))%Q.
Proof.
  intros Hf Ht Hl Hd.
  unfold aggregate_spec. rewrite !Qsum_all_factors.
  unfold all_factors, is_present, contribution, present_weight.
  cbn [existsb factor_key factor_weight].
  rewrite Hf, Ht, Hl, Hd. cbn [orb]. field.
Qed.

(** On binary64 too the three extreme results are exact, in the order
    in which [simulate_login] fills the dict and in the reverse one. *)
Lemma predict_risk_level_binary64_extremes :
  let perfect := [("face", (true, 1.0%float)); ("typing", (true, 1.0%float));
                  ("location", (true, 0.0%float)); ("device", (true, 0.0%float))] in
  let worst := [("face", (false, 0.0%float)); ("typing", (false, 0.0%float));
                ("location", (false, 1.0%float)); ("device", (false, 1.0%float))] in
  PrimFloat.eqb (predict_risk_level_binary64 perfect) 0.0 = true /\
  PrimFloat.eqb (predict_risk_level_binary64 (rev perfect)) 0.0 = true /\
  PrimFloat.eqb (predict_risk_level_binary64 worst) 1.0 = true /\
  PrimFloat.eqb (predict_risk_level_binary64 (rev worst)) 1.0 = true /\
  PrimFloat.eqb (predict_risk_level_binary64 []) 0.9 = true.
Proof. vm_compute. repeat split. Qed.

(** *** The loop on binary64 *)







(** C10: with scores in the unit interval the aggregated risk lies
    in the unit interval, and an entry whose key is not face, typing,
    location or device has no effect: the risk is the same with the
    entry, wherever it stands, and without it. *)
Theorem predict_risk_level_unit_interval :
  (forall vr, scores_in_unit vr ->
     (0 <= predict_risk_level vr /\ predict_risk_level vr <= 1)%Q) /\
  (forall vr1 vr2 k v, ~ recognized k ->
     predict_risk_level (vr1 ++ (k, v) :: vr2) = predict_risk_level (vr1 ++ vr2)).
Proof.
  split.
  - intros vr Hunit.
    destruct (total_risk_bounds vr Hunit) as [H0 H1].
    destruct (predict_risk_level_sums vr) as [[_ Hp]|[Hpos Hp]].
    + rewrite Hp. split; [unfold Qle; cbn; lia | unfold Qle; cbn; lia].
    + rewrite Hp. split.
      * apply Qle_shift_div_l; [exact Hpos|]. lra.
      * apply Qle_shift_div_r; [exact Hpos|]. lra.
  - intros vr1 vr2 k v Hk. unfold predict_risk_level.
    rewrite !fold_left_app. cbn [fold_left].
    rewrite accumulate_unrecognized by exact Hk. reflexivity.
Qed.

Lemma predict_risk_level_unit_interval_witness :
  let vr := [("face", (true, 0.9%Q)); ("device", (true, 0.2%Q))] in
  (scores_in_unit (("session", (true, 0.4%Q)) :: vr) /\
   (0 <= predict_risk_level (("session", (true, 0.4%Q)) :: vr))%Q /\
   (predict_risk_level (("session", (true, 0.4%Q)) :: vr) <= 1)%Q) /\
  (~ recognized "session" /\
   predict_risk_level ([] ++ ("session", (true, 0.4%Q)) :: vr)
   = predict_risk_level ([] ++ vr)).
Proof.
  intros vr.
  destruct predict_risk_level_unit_interval as (Hrange & Hframe).
  assert (Hu : scores_in_unit (("session", (true, 0.4%Q)) :: vr)).
  { repeat apply Forall_cons_2; try apply Forall_nil_2;
      cbn; split; unfold Qle; cbn; lia. }
  assert (Hk : ~ recognized "session")
    by (apply (bool_decide_unpack _); vm_compute; exact I).
  split.
  - split; [exact Hu|]. exact (Hrange _ Hu).
  - split; [exact Hk|]. exact (Hframe [] vr "session" (true, 0.4%Q) Hk).
Defined.

End AIEngineFacts.

(** ** Transaction transitions *)

Module TransactionFacts.
Import Transaction.

Lemma complete_guarded self now :
  guarded (fun s => s = STATUS_PENDING) STATUS_COMPLETED self (complete self now).
Proof.
  unfold guarded, complete.
  destruct (decide (status self = STATUS_PENDING)) as [Hp|Hp]; cbn;
    repeat split; try tauto; try discriminate; intros; congruence.
Qed.

Lemma block_guarded self reason now :
  guarded (fun s => s = STATUS_PENDING) STATUS_BLOCKED self (block self reason now).
Proof.
  unfold guarded, block.
  destruct (decide (status self = STATUS_PENDING)) as [Hp|Hp]; cbn;
    repeat split; try tauto; try discriminate; intros; congruence.
Qed.

Lemma flag_for_review_guarded self score now :
  guarded (fun s => s = STATUS_PENDING) STATUS_UNDER_REVIEW self
    (flag_for_review self score now).
Proof.
  unfold guarded, flag_for_review.
  destruct (decide (status self = STATUS_PENDING)) as [Hp|Hp]; cbn;
    repeat split; try tauto; try discriminate; intros; congruence.
Qed.

Lemma fail_guarded self reason now :
  guarded (fun s => s <> STATUS_COMPLETED) STATUS_FAILED self (fail self reason now).
Proof.
  unfold guarded, fail.
  destruct (decide (status self ≠ STATUS_COMPLETED)) as [Hp|Hp]; cbn;
    repeat split; try tauto; try discriminate; intros; congruence.
Qed.

(** On a completed transaction every call fails and changes nothing. *)
Lemma perform_completed self c :
  status self = STATUS_COMPLETED -> perform self c = (false, self).
Proof.
  intros Hc.
  destruct c; cbn [perform]; unfold complete, fail, block, flag_for_review;
    rewrite Hc.
  - destruct (decide (STATUS_COMPLETED = STATUS_PENDING)); [discriminate|reflexivity].
  - destruct (decide (STATUS_COMPLETED ≠ STATUS_COMPLETED)); [congruence|reflexivity].
  - destruct (decide (STATUS_COMPLETED = STATUS_PENDING)); [discriminate|reflexivity].
  - destruct (decide (STATUS_COMPLETED = STATUS_PENDING)); [discriminate|reflexivity].
Qed.

Lemma perform_all_completed cs : forall self,
  status self = STATUS_COMPLETED ->
  perform_all self cs = (map (fun _ => false) cs, self).
Proof.
  induction cs as [|c cs IH]; intros self Hc; [reflexivity|].
  cbn [perform_all map]. rewrite (perform_completed self c Hc), (IH self Hc).
  reflexivity.
Qed.

(** C4: [complete] succeeds exactly from Pending and then sets
    Completed; [block] and [flag_for_review] succeed exactly from
    Pending; [fail] succeeds exactly from a status other than
    Completed; a failed call leaves the transaction as it was; and on
    a Completed transaction every later sequence of calls returns
    failure at each call and leaves the transaction, its status
    included, unchanged. *)
Theorem transaction_transition_guards :
  (forall self now,
     guarded (fun s => s = STATUS_PENDING) STATUS_COMPLETED self
       (complete self now)) /\
  (forall self reason now,
     guarded (fun s => s = STATUS_PENDING) STATUS_BLOCKED self
       (block self reason now)) /\
  (forall self score now,
     guarded (fun s => s = STATUS_PENDING) STATUS_UNDER_REVIEW self
       (flag_for_review self score now)) /\
  (forall self reason now,
     guarded (fun s => s <> STATUS_COMPLETED) STATUS_FAILED self
       (fail self reason now)) /\
  (forall self cs,
     status self = STATUS_COMPLETED ->
     (perform_all self cs).1 = map (fun _ => false) cs /\
     (perform_all self cs).2 = self /\
     status (perform_all self cs).2 = STATUS_COMPLETED).
Proof.
  split; [exact complete_guarded|].
  split; [exact block_guarded|].
  split; [exact flag_for_review_guarded|].
  split; [exact fail_guarded|].
  intros self cs Hc. rewrite (perform_all_completed cs self Hc). cbn.
  repeat split. exact Hc.
Qed.

Lemma transaction_transition_guards_witness :
  let t0 := new "7b0c2d1e" 1001 1002 500%Q "Payment" "2024-05-01T10:00:00" in
  let t1 := (complete t0 "2024-05-01T10:00:05").2 in
  let cs := [Block "late block" "2024-05-01T10:01:00";
             FlagForReview 0.9%Q "2024-05-01T10:02:00";
             Fail "late failure" "2024-05-01T10:03:00";
             Complete "2024-05-01T10:04:00"] in
  (complete t0 "2024-05-01T10:00:05").1 = true /\
  status t1 = STATUS_COMPLETED /\
  (perform_all t1 cs).1 = [false; false; false; false] /\
  (perform_all t1 cs).2 = t1 /\
  status (perform_all t1 cs).2 = STATUS_COMPLETED.
Proof.
  intros t0 t1 cs.
  assert (Hc : status t1 = STATUS_COMPLETED) by reflexivity.
  split; [reflexivity|]. split; [exact Hc|].
  exact (proj2 (proj2 (proj2 (proj2 transaction_transition_guards))) t1 cs Hc).
Defined.

(** *** What the transitions keep, and the course of the status *)

Lemma perform_keeps self c :
  identity_of (perform self c).2 = identity_of self /\
  (forall k, is_Some (metadata self !! k) ->
             is_Some (metadata (perform self c).2 !! k)) /\
  (status self <> STATUS_PENDING ->
   risk_score (perform self c).2 = risk_score self).
Proof.
  assert (Hins : forall (m : gmap string meta_value) k' v k,
             is_Some (m !! k) -> is_Some (<[k' := v]> m !! k)).
  { intros m k' v k Hk. rewrite lookup_insert. case_decide; [eexists; reflexivity|exact Hk]. }
  destruct c; cbn [perform]; unfold complete, fail, block, flag_for_review;
    case_decide; cbn [snd]; (split; [reflexivity|]); split;
    try (intros k Hk; exact Hk); try (intros; reflexivity);
    try (intros k Hk; cbn; repeat apply Hins; exact Hk).
  intros Hne. contradiction.
Qed.

Lemma perform_all_cons self c cs :
  perform_all self (c :: cs)
  = ((perform self c).1 :: (perform_all (perform self c).2 cs).1,
     (perform_all (perform self c).2 cs).2).
Proof.
  cbn [perform_all]. destruct (perform self c) as [r t1]. cbn [fst snd].
  destruct (perform_all t1 cs) as [rs t2]. reflexivity.
Qed.

(** One call on a transaction that is not pending. *)
Lemma perform_not_pending self c :
  status self <> STATUS_PENDING ->
  (perform self c).1 = is_fail c && bool_decide (status self ≠ STATUS_COMPLETED) /\
  status (perform self c).2
  = (if is_fail c && bool_decide (status self ≠ STATUS_COMPLETED)
     then STATUS_FAILED else status self).
Proof.
  intros Hne.
  destruct c; cbn [perform is_fail andb]; unfold complete, fail, block,
    flag_for_review.
  - destruct (decide (status self = STATUS_PENDING)); [contradiction|].
    split; reflexivity.
  - destruct (decide (status self ≠ STATUS_COMPLETED)) as [H|H];
      [rewrite bool_decide_eq_true_2 by exact H
      |rewrite bool_decide_eq_false_2 by exact H]; split; reflexivity.
  - destruct (decide (status self = STATUS_PENDING)); [contradiction|].
    split; reflexivity.
  - destruct (decide (status self = STATUS_PENDING)); [contradiction|].
    split; reflexivity.
Qed.

Lemma perform_all_not_pending cs : forall self,
  status self <> STATUS_PENDING ->
  (perform_all self cs).1 = later_results (status self) cs /\
  status (perform_all self cs).2 = later_status (status self) cs.
Proof.
  induction cs as [|c cs IH]; intros self Hne.
  - cbn. unfold later_status. cbn. split; [reflexivity|].
    destruct (decide (status self = STATUS_COMPLETED)); reflexivity.
  - rewrite perform_all_cons. cbn [fst snd].
    destruct (perform_not_pending self c Hne) as [Hr Hs].
    assert (Hne' : status (perform self c).2 <> STATUS_PENDING).
    { rewrite Hs. destruct (is_fail c && _); [discriminate|exact Hne]. }
    destruct (IH _ Hne') as [IHr IHs].
    rewrite IHr, IHs, Hr, Hs. unfold later_results, later_status.
    cbn [map existsb].
    destruct (decide (status self = STATUS_COMPLETED)) as [Hc|Hc].
    + rewrite (bool_decide_eq_false_2 _ (fun H => H Hc)), andb_false_r.
      rewrite decide_True by exact Hc.
      rewrite (bool_decide_eq_false_2 _ (fun H => H Hc)). split; reflexivity.
    + rewrite (bool_decide_eq_true_2 _ Hc), andb_true_r.
      destruct (is_fail c); cbn [orb].
      * rewrite decide_False by discriminate.
        rewrite (bool_decide_eq_true_2 (STATUS_FAILED ≠ STATUS_COMPLETED))
          by discriminate.
        split; [reflexivity|]. destruct (existsb is_fail cs); reflexivity.
      * rewrite decide_False by exact Hc.
        rewrite (bool_decide_eq_true_2 _ Hc). split; reflexivity.
Qed.

Lemma perform_pending self c :
  status self = STATUS_PENDING ->
  (perform self c).1 = true /\ status (perform self c).2 = first_status c.
Proof.
  intros Hp.
  destruct c; cbn [perform first_status]; unfold complete, fail, block,
    flag_for_review; rewrite Hp.
  - rewrite decide_True by reflexivity. split; reflexivity.
  - rewrite decide_True by discriminate. split; reflexivity.
  - rewrite decide_True by reflexivity. split; reflexivity.
  - rewrite decide_True by reflexivity. split; reflexivity.
Qed.

Lemma first_status_not_pending c : first_status c <> STATUS_PENDING.
Proof. destruct c; discriminate. Qed.

Lemma later_results_no_guarded_success s cs :
  guarded_successes cs (later_results s cs) = 0.
Proof.
  unfold later_results. induction cs as [|c cs IH]; [reflexivity|].
  cbn [map guarded_successes]. rewrite IH.
  destruct (is_fail c); reflexivity.
Qed.

(** X13: the course of the status.  On a pending transaction the
    first call of any sequence succeeds and sets the status of its
    kind; from then on, as on any transaction that is not pending,
    only [fail] can succeed, and it does unless the status is
    Completed, so the status ends Failed if a [fail] follows and
    stays as it is otherwise.  So, along any sequence of calls, at
    most one call among [complete], [block] and [flag_for_review]
    succeeds. *)
Theorem status_course self cs :
  (status self = STATUS_PENDING ->
   status (perform_all self cs).2 = final_status cs /\
   (perform_all self cs).1
   = match cs with
     | [] => []
     | c :: rest => true :: later_results (first_status c) rest
     end) /\
  (status self <> STATUS_PENDING ->
   status (perform_all self cs).2 = later_status (status self) cs /\
   (perform_all self cs).1 = later_results (status self) cs) /\
  guarded_successes cs (perform_all self cs).1 <= 1.
Proof.
  assert (Hpend : status self = STATUS_PENDING ->
    status (perform_all self cs).2 = final_status cs /\
    (perform_all self cs).1
    = match cs with
      | [] => []
      | c :: rest => true :: later_results (first_status c) rest
      end).
  { intros Hp. destruct cs as [|c rest]; [split; [exact Hp|reflexivity]|].
    rewrite perform_all_cons. cbn [fst snd final_status].
    destruct (perform_pending self c Hp) as [Hr Hs].
    assert (Hne : status (perform self c).2 <> STATUS_PENDING)
      by (rewrite Hs; apply first_status_not_pending).
    destruct (perform_all_not_pending rest _ Hne) as [IHr IHs].
    rewrite IHr, IHs, Hr, Hs. split; reflexivity. }
  assert (Hnot : status self <> STATUS_PENDING ->
    status (perform_all self cs).2 = later_status (status self) cs /\
    (perform_all self cs).1 = later_results (status self) cs).
  { intros Hne. destruct (perform_all_not_pending cs self Hne) as [Hr Hs].
    split; assumption. }
  split; [exact Hpend|]. split; [exact Hnot|].
  destruct (decide (status self = STATUS_PENDING)) as [Hp|Hne].
  - destruct (Hpend Hp) as [_ Hr]. rewrite Hr.
    destruct cs as [|c rest]; [cbn; lia|].
    cbn [guarded_successes]. rewrite later_results_no_guarded_success.
    destruct (negb (is_fail c) && true); lia.
  - destruct (Hnot Hne) as [_ Hr]. rewrite Hr.
    rewrite later_results_no_guarded_success. lia.
Qed.

Lemma status_course_witness :
  let t := new "7b0c2d1e" 1001 1002 500%Q "Payment" "2024-05-01T10:00:00" in
  let cs := [FlagForReview 0.9%Q "2024-05-01T10:01:00";
             Complete "2024-05-01T10:02:00";
             Block "too late" "2024-05-01T10:03:00";
             Fail "rejected by reviewer" "2024-05-01T10:04:00";
             Complete "2024-05-01T10:05:00"] in
  status t = STATUS_PENDING /\
  status (perform_all t cs).2 = STATUS_FAILED /\
  (perform_all t cs).1 = [true; false; false; true; false] /\
  status (perform_all t cs).2 <> STATUS_PENDING /\
  status (perform_all (perform_all t cs).2 cs).2 = STATUS_FAILED.
Proof.
  intros t cs.
  assert (Hp : status t = STATUS_PENDING) by reflexivity.
  destruct (proj1 (status_course t cs) Hp) as [Hs Hr].
  assert (Hne : status (perform_all t cs).2 <> STATUS_PENDING)
    by (rewrite Hs; discriminate).
  destruct (proj1 (proj2 (status_course (perform_all t cs).2 cs)) Hne) as [Hs' _].
  split; [exact Hp|]. split; [exact Hs|]. split; [exact Hr|].
  split; [exact Hne|]. rewrite Hs', Hs. reflexivity.
Defined.

Lemma perform_all_keeps cs : forall self,
  identity_of (perform_all self cs).2 = identity_of self /\
  (forall k, is_Some (metadata self !! k) ->
             is_Some (metadata (perform_all self cs).2 !! k)) /\
  (status self <> STATUS_PENDING ->
   risk_score (perform_all self cs).2 = risk_score self).
Proof.
  induction cs as [|c cs IH]; intros self.
  - cbn. repeat split; auto.
  - rewrite perform_all_cons. cbn [snd].
    destruct (perform_keeps self c) as (Hi & Hm & Hr).
    destruct (IH (perform self c).2) as (IHi & IHm & IHr).
    split; [rewrite IHi; exact Hi|]. split.
    + intros k Hk. apply IHm, Hm, Hk.
    + intros Hne. rewrite IHr, (Hr Hne); [reflexivity|].
      destruct (perform_not_pending self c Hne) as [_ Hs]. rewrite Hs.
      destruct (is_fail c && _); [discriminate|exact Hne].
Qed.

(** X14: no sequence of transitions changes the id, the sender, the
    receiver, the amount, the creation time or the description of a
    transaction, and none removes a key of its metadata; the risk
    score can change only while the transaction is pending. *)
Theorem transitions_keep_identity self cs :
  identity_of (perform_all self cs).2 = identity_of self /\
  (forall k, is_Some (metadata self !! k) ->
             is_Some (metadata (perform_all self cs).2 !! k)) /\
  (status self <> STATUS_PENDING ->
   risk_score (perform_all self cs).2 = risk_score self).
Proof. apply perform_all_keeps. Qed.

Lemma transitions_keep_identity_witness :
  let t0 := new "7b0c2d1e" 1001 1002 500%Q "Payment" "2024-05-01T10:00:00" in
  let t := (flag_for_review t0 0.9%Q "2024-05-01T10:01:00").2 in
  let cs := [FlagForReview 0.1%Q "2024-05-01T10:02:00";
             Fail "rejected by reviewer" "2024-05-01T10:04:00"] in
  is_Some (metadata t !! "flagged_at") /\
  is_Some (metadata (perform_all t cs).2 !! "flagged_at") /\
  status t <> STATUS_PENDING /\
  risk_score (perform_all t cs).2 = risk_score t.
Proof.
  intros t0 t cs.
  assert (Hk : is_Some (metadata t !! "flagged_at"))
    by (apply (bool_decide_unpack _); vm_compute; exact I).
  assert (Hne : status t <> STATUS_PENDING) by discriminate.
  destruct (transitions_keep_identity t cs) as (_ & Hm & Hr).
  split; [exact Hk|]. split; [exact (Hm _ Hk)|]. split; [exact Hne|exact (Hr Hne)].
Defined.

(** *** Dict conversion *)

(** X15: [from_dict] gives back the transaction [to_dict] was applied
    to, provided its id is not empty and its time reads back from its
    ISO text; with an empty id the restored transaction gets a fresh
    id.  A dict without sender, receiver or amount is refused, and one
    with these three keys only gives a pending transaction with the
    fresh id, an empty description, risk score 0 and no metadata. *)
Theorem from_dict_restores self data fresh_id now fromisoformat :
  (transaction_id self <> "" ->
   fromisoformat (timestamp self) = Some (timestamp self) ->
   from_dict (to_dict self) fresh_id now fromisoformat = Some self) /\
  (transaction_id self = "" ->
   transaction_id <$> from_dict (to_dict self) fresh_id now fromisoformat
   = Some fresh_id) /\
  (d_sender_id data = None \/ d_receiver_id data = None \/ d_amount data = None ->
   from_dict data fresh_id now fromisoformat = None) /\
  (forall sender receiver amt,
     from_dict {| d_transaction_id := None; d_sender_id := Some sender;
                  d_receiver_id := Some receiver; d_amount := Some amt;
                  d_timestamp := None; d_status := None; d_description := None;
                  d_risk_score := None; d_metadata := None |}
       fresh_id now fromisoformat
     = Some (new fresh_id sender receiver amt "" now)).
Proof.
  split; [|split; [|split]].
  - intros Hid Hts. unfold from_dict, to_dict. cbn.
    rewrite decide_False by exact Hid. rewrite Hts. cbn.
    destruct self; reflexivity.
  - intros Hid. unfold from_dict, to_dict. cbn.
    rewrite decide_True by exact Hid. reflexivity.
  - unfold from_dict.
    destruct (d_sender_id data), (d_receiver_id data), (d_amount data); cbn;
      intros [H|[H|H]]; try discriminate H; reflexivity.
  - intros sender receiver amt. reflexivity.
Qed.

Lemma from_dict_restores_witness :
  let t0 := new "7b0c2d1e" 1001 1002 500%Q "Payment" "2024-05-01T10:00:00" in
  let t := (fail t0 "Insufficient balance" "2024-05-01T10:00:05").2 in
  let parse := fun text => match UserDatabase.iso_hour text with
                           | Some _ => Some text
                           | None => None
                           end in
  let partial := {| d_transaction_id := Some "7b0c2d1e"; d_sender_id := Some 1001%Z;
                    d_receiver_id := None; d_amount := Some 500%Q;
                    d_timestamp := None; d_status := None; d_description := None;
                    d_risk_score := None; d_metadata := None |} in
  transaction_id t <> "" /\
  parse (timestamp t) = Some (timestamp t) /\
  from_dict (to_dict t) "c0ffee" "2024-06-01T08:00:00" parse = Some t /\
  from_dict partial "c0ffee" "2024-06-01T08:00:00" parse = None.
Proof.
  intros t0 t parse partial.
  assert (Hid : transaction_id t <> "") by discriminate.
  assert (Hts : parse (timestamp t) = Some (timestamp t)) by reflexivity.
  split; [exact Hid|]. split; [exact Hts|]. split.
  - exact (proj1 (from_dict_restores t partial "c0ffee" "2024-06-01T08:00:00" parse)
             Hid Hts).
  - apply (proj1 (proj2 (proj2
             (from_dict_restores t partial "c0ffee" "2024-06-01T08:00:00" parse)))).
    right. left. reflexivity.
Defined.

End TransactionFacts.

(** ** The user database *)

Module UserDatabaseFacts.
Import UserDatabase.

(** *** Substrings *)

Lemma prefix_refl s : String.prefix s s = true.
Proof.
  induction s as [|c s IH]; [reflexivity|].
  cbn. destruct (Ascii.ascii_dec c c) as [_|Hne]; [exact IH|contradiction].
Qed.

Lemma contains_refl s : contains s s = true.
Proof.
  destruct s as [|c s]; [reflexivity|].
  change (String.prefix (String c s) (String c s)
          || contains (String c s) s = true).
  rewrite prefix_refl. reflexivity.
Qed.

Lemma contains_empty s : contains "" s = true.
Proof. destruct s; reflexivity. Qed.

(** *** Trusted devices *)

Lemma empty_devices_nodup : devices_nodup empty.
Proof. intros key l H. cbn in H. rewrite lookup_empty in H. discriminate. Qed.

Lemma add_user_devices_nodup self u d :
  devices_nodup self -> devices_nodup (add_user self u d).2.
Proof.
  intros Hinv. unfold add_user.
  destruct (decide (is_Some (users self !! str u))); [exact Hinv|].
  intros key l. cbn. rewrite lookup_insert. case_decide.
  - intros [= <-]. apply NoDup_nil_2.
  - apply Hinv.
Qed.

Lemma update_user_devices_nodup self u d :
  devices_nodup self -> devices_nodup (update_user self u d).2.
Proof.
  intros Hinv. unfold update_user.
  destruct (users self !! str u); exact Hinv.
Qed.

Lemma add_login_record_devices_nodup self u r now :
  devices_nodup self -> devices_nodup (add_login_record self u r now).2.
Proof.
  intros Hinv. unfold add_login_record.
  destruct (decide (is_Some (users self !! str u))); exact Hinv.
Qed.

Lemma add_trusted_device_result self u d :
  is_Some (users self !! str u) ->
  (add_trusted_device self u d).1 = true /\
  users (add_trusted_device self u d).2 = users self /\
  trusted_devices (add_trusted_device self u d).2
    = <[str u := with_device (devices_of self u) d]> (trusted_devices self).
Proof.
  intros Hu. unfold add_trusted_device, with_device, devices_of.
  destruct (decide (is_Some (users self !! str u))) as [_|Hno];
    [|contradiction].
  destruct (trusted_devices self !! str u) as [l|] eqn:E; cbn [default].
  - rewrite E. cbn [default].
    repeat case_decide; try contradiction; cbn.
    + repeat split. symmetry. apply insert_id, E.
    + repeat split.
  - cbn. rewrite lookup_insert_eq. cbn [default].
    repeat case_decide; try contradiction; cbn.
    + exfalso. eapply elem_of_nil. eassumption.
    + repeat split. apply insert_insert_eq.
Qed.

Lemma add_trusted_device_missing_user self u d :
  ~ is_Some (users self !! str u) -> add_trusted_device self u d = (false, self).
Proof.
  intros Hu. unfold add_trusted_device.
  destruct (decide (is_Some (users self !! str u))); [contradiction|reflexivity].
Qed.

Lemma with_device_nodup l d : NoDup l -> NoDup (with_device l d).
Proof.
  intros Hl. unfold with_device. destruct (decide (d ∈ l)) as [Hin|Hout].
  - exact Hl.
  - apply NoDup_app. split; [exact Hl|]. split.
    + intros x Hx Hd. apply list_elem_of_singleton in Hd. subst x. contradiction.
    + apply NoDup_singleton.
Qed.

Lemma devices_of_nodup self u : devices_nodup self -> NoDup (devices_of self u).
Proof.
  intros Hinv. unfold devices_of.
  destruct (trusted_devices self !! str u) as [l|] eqn:E; cbn.
  - exact (Hinv _ _ E).
  - apply NoDup_nil_2.
Qed.

Lemma add_trusted_device_devices_nodup self u d :
  devices_nodup self -> devices_nodup (add_trusted_device self u d).2.
Proof.
  intros Hinv.
  destruct (decide (is_Some (users self !! str u))) as [Hu|Hu].
  - destruct (add_trusted_device_result self u d Hu) as (_ & _ & Htd).
    intros key l. rewrite Htd, lookup_insert. case_decide.
    + intros [= <-]. apply with_device_nodup, devices_of_nodup, Hinv.
    + apply Hinv.
  - rewrite (add_trusted_device_missing_user self u d Hu). exact Hinv.
Qed.

Lemma apply_operation_devices_nodup self op :
  devices_nodup self -> devices_nodup (apply_operation self op).
Proof.
  destruct op; cbn [apply_operation].
  - apply add_user_devices_nodup.
  - apply update_user_devices_nodup.
  - apply add_login_record_devices_nodup.
  - apply add_trusted_device_devices_nodup.
Qed.

Lemma fold_operations_devices_nodup ops : forall self,
  devices_nodup self -> devices_nodup (fold_left apply_operation ops self).
Proof.
  induction ops as [|op ops IH]; intros self Hinv; [exact Hinv|].
  cbn [fold_left]. apply IH, apply_operation_devices_nodup, Hinv.
Qed.

Lemma run_devices_nodup ops : devices_nodup (run ops).
Proof. apply fold_operations_devices_nodup, empty_devices_nodup. Qed.

Lemma elem_of_with_device l d : d ∈ with_device l d.
Proof.
  unfold with_device. destruct (decide (d ∈ l)) as [Hin|_]; [exact Hin|].
  apply elem_of_app. right. apply list_elem_of_singleton. reflexivity.
Qed.

Lemma absent_no_entry (l : list string) d :
  d ∉ l -> length (filter (fun x => x = d) l) = 0%nat.
Proof.
  induction l as [|x l IH]; intros Hd; [reflexivity|].
  apply not_elem_of_cons in Hd as [Hne Hd].
  rewrite filter_cons_False by congruence. apply IH, Hd.
Qed.

(** In a list without duplicates a member occurs once. *)
Lemma nodup_one_entry (l : list string) d :
  NoDup l -> d ∈ l -> length (filter (fun x => x = d) l) = 1%nat.
Proof.
  induction 1 as [|x l Hx Hl IH]; intros Hd.
  - apply elem_of_nil in Hd. contradiction.
  - destruct (decide (x = d)) as [->|Hne].
    + rewrite filter_cons_True by reflexivity. cbn [length].
      rewrite (absent_no_entry l d Hx). reflexivity.
    + rewrite filter_cons_False by exact Hne. apply IH.
      apply elem_of_cons in Hd as [Heq|Hin]; [congruence|exact Hin].
Qed.

(** Adding the same fingerprint twice, on any database holding the
    user: both calls succeed, the second changes nothing, and the
    fingerprint is among the user's devices. *)
Lemma add_trusted_device_twice self user_id device_info :
  let r1 := add_trusted_device self user_id device_info in
  let r2 := add_trusted_device r1.2 user_id device_info in
  is_Some (users self !! str user_id) ->
  r1.1 = true /\ r2.1 = true /\ r2.2 = r1.2 /\
  devices_of r2.2 user_id = with_device (devices_of self user_id) device_info.
Proof.
  intros r1 r2 Hu.
  destruct (add_trusted_device_result self user_id device_info Hu)
    as (Hr1 & Hu1 & Htd1).
  fold r1 in Hr1, Hu1, Htd1.
  assert (Hu' : is_Some (users r1.2 !! str user_id)) by (rewrite Hu1; exact Hu).
  destruct (add_trusted_device_result r1.2 user_id device_info Hu')
    as (Hr2 & _ & _).
  fold r2 in Hr2.
  assert (Hl : trusted_devices r1.2 !! str user_id
               = Some (with_device (devices_of self user_id) device_info))
    by (rewrite Htd1; apply lookup_insert_eq).
  assert (Hdev : devices_of r1.2 user_id
                 = with_device (devices_of self user_id) device_info)
    by (unfold devices_of at 1; rewrite Hl; reflexivity).
  assert (Hsame : r2.2 = r1.2).
  { subst r2. unfold add_trusted_device.
    destruct (decide (is_Some (users r1.2 !! str user_id))) as [_|Hno];
      [|contradiction].
    rewrite Hl. cbn [default]. rewrite Hl. cbn [default].
    case_decide as Hin; [reflexivity|].
    exfalso. apply Hin, elem_of_with_device. }
  split; [exact Hr1|]. split; [exact Hr2|]. split; [exact Hsame|].
  rewrite Hsame. exact Hdev.
Qed.

(** C8: for an existing user, adding the same fingerprint twice
    succeeds both times, the second call changes nothing and the
    fingerprint is trusted; and in a database built by the program
    the user's trusted devices then hold exactly one entry for that
    fingerprint. *)
Theorem add_trusted_device_idempotent :
  (forall self user_id device_info,
     let r1 := add_trusted_device self user_id device_info in
     let r2 := add_trusted_device r1.2 user_id device_info in
     is_Some (users self !! str user_id) ->
     r1.1 = true /\ r2.1 = true /\ r2.2 = r1.2 /\
     device_info ∈ devices_of r2.2 user_id) /\
  (forall ops user_id device_info,
     let r1 := add_trusted_device (run ops) user_id device_info in
     let r2 := add_trusted_device r1.2 user_id device_info in
     is_Some (users (run ops) !! str user_id) ->
     entries_for r2.2 user_id device_info = 1%nat).
Proof.
  split.
  - intros self user_id device_info r1 r2 Hu.
    destruct (add_trusted_device_twice self user_id device_info Hu)
      as (H1 & H2 & H3 & H4).
    fold r1 in H1, H2, H3, H4. fold r2 in H2, H3, H4.
    split; [exact H1|]. split; [exact H2|]. split; [exact H3|].
    rewrite H4. apply elem_of_with_device.
  - intros ops user_id device_info r1 r2 Hu.
    destruct (add_trusted_device_twice (run ops) user_id device_info Hu)
      as (_ & _ & _ & H4).
    fold r1 in H4. fold r2 in H4.
    unfold entries_for. rewrite H4. apply nodup_one_entry.
    + apply with_device_nodup, devices_of_nodup, run_devices_nodup.
    + apply elem_of_with_device.
Qed.

Lemma add_trusted_device_idempotent_witness :
  let device := "Windows 11, Chrome 98.0.4758.102" in
  let ops := [AddUser 1001 ∅; AddTrustedDevice 1001 device;
              AddTrustedDevice 1001 "Pixel 8, Firefox 125"] in
  let r1 := add_trusted_device (run ops) 1001 device in
  let r2 := add_trusted_device r1.2 1001 device in
  is_Some (users (run ops) !! str 1001) /\
  (r1.1 = true /\ r2.1 = true /\ r2.2 = r1.2 /\
   device ∈ devices_of r2.2 1001) /\
  entries_for r2.2 1001 device = 1%nat.
Proof.
  intros device ops r1 r2.
  assert (Hu : is_Some (users (run ops) !! str 1001))
    by (apply (bool_decide_unpack _); vm_compute; exact I).
  split; [exact Hu|]. split.
  - exact (proj1 add_trusted_device_idempotent (run ops) 1001%Z device Hu).
  - exact (proj2 add_trusted_device_idempotent ops 1001%Z device Hu).
Defined.

(** *** The anomaly detector *)

Section CompareFacts.

Variable fromisoformat_hour : string -> option Z.

Abbreviation compare := (compare_with_current fromisoformat_hour).
Abbreviation counts := (hour_counts_of fromisoformat_hour).
Abbreviation occurs := (occurrences fromisoformat_hour).
Abbreviation time_unusual := (UserDatabase.time_unusual fromisoformat_hour).

Lemma check_device_tag self key cur anoms :
  check_device self key cur anoms
  = anoms ++ tag_if (device_untrusted self key cur) "Untrusted device".
Proof.
  unfold check_device, device_untrusted, tag_if.
  destruct (cd_device_info cur) as [dev|]; [|symmetry; apply app_nil_r].
  destruct (negb _); [reflexivity|symmetry; apply app_nil_r].
Qed.

Lemma check_location_tag self key cur anoms :
  check_location self key cur anoms
  = anoms ++ tag_if (location_unusual self key cur) "Unusual location".
Proof.
  unfold check_location, location_unusual, tag_if.
  destruct (cd_location cur) as [loc|]; [|symmetry; apply app_nil_r].
  destruct (historical_logins self !! key) as [logins|];
    [|symmetry; apply app_nil_r].
  destruct (_ && _); [reflexivity|symmetry; apply app_nil_r].
Qed.

Lemma check_login_time_tag self key h anoms :
  check_login_time fromisoformat_hour self key h anoms
  = anoms ++ tag_if (time_unusual self key h) "Unusual login time".
Proof.
  unfold check_login_time, time_unusual, tag_if.
  destruct (historical_logins self !! key) as [logins|];
    [|symmetry; apply app_nil_r].
  destruct (bool_decide (0 < length logins)); cbn [andb];
    [|symmetry; apply app_nil_r].
  destruct (bool_decide (counts logins ≠ ∅)); cbn [andb];
    [|symmetry; apply app_nil_r].
  destruct (counts logins !! h) as [n|]; [|symmetry; apply app_nil_r].
  destruct (bool_decide (n < 2)); [reflexivity|symmetry; apply app_nil_r].
Qed.

(** The anomalies of an existing user: the three tags, in order, each
    under its condition. *)
Lemma compare_anomalies self user_id cur h :
  is_Some (users self !! str user_id) ->
  let r := compare self user_id cur h in
  anomalies r
  = tag_if (device_untrusted self (str user_id) cur) "Untrusted device"
    ++ tag_if (location_unusual self (str user_id) cur) "Unusual location"
    ++ tag_if (time_unusual self (str user_id) h) "Unusual login time" /\
  cmp_error r = None /\
  anomaly_count r = Some (length (anomalies r)) /\
  is_suspicious r = Some (bool_decide (1 < length (anomalies r))).
Proof.
  intros [ud Hu] r. subst r. unfold compare_with_current. rewrite Hu.
  cbn [anomalies cmp_error anomaly_count is_suspicious].
  rewrite check_login_time_tag, check_location_tag, check_device_tag.
  cbn [app]. rewrite <- app_assoc. repeat split.
Qed.

Lemma compare_unknown_user self user_id cur h :
  users self !! str user_id = None ->
  anomalies (compare self user_id cur h) = [].
Proof.
  intros Hu. unfold compare_with_current. rewrite Hu. reflexivity.
Qed.

Lemma tag_membership (d l t : bool) (tag : string) :
  tag ∈ tag_if d "Untrusted device" ++ tag_if l "Unusual location"
        ++ tag_if t "Unusual login time"
  <-> (d = true /\ tag = "Untrusted device")
      \/ (l = true /\ tag = "Unusual location")
      \/ (t = true /\ tag = "Unusual login time").
Proof.
  rewrite !elem_of_app. unfold tag_if.
  destruct d, l, t; rewrite ?list_elem_of_singleton, ?elem_of_nil;
    intuition congruence.
Qed.

(** *** Counting logins by hour *)

Lemma count_hour_login_hour (m : gmap Z nat) login :
  count_hour fromisoformat_hour m login
  = match login_hour fromisoformat_hour login with
    | Some hour => <[hour := (default 0 (m !! hour) + 1)%nat]> m
    | None => m
    end.
Proof.
  unfold count_hour, login_hour.
  destruct (lr_timestamp login) as [text|]; reflexivity.
Qed.

Lemma occurrences_cons login logins h :
  occurs (login :: logins) h
  = ((if decide (login_hour fromisoformat_hour login = Some h) then 1 else 0)
     + occurs logins h)%nat.
Proof.
  unfold occurrences. rewrite filter_cons.
  destruct (decide (login_hour fromisoformat_hour login = Some h));
    reflexivity.
Qed.

(** After the counting loop, the entry of an hour is its count before
    the loop plus the number of records of that hour; an hour without
    records keeps its entry, or its lack of one. *)
Lemma fold_count_hour_lookup logins : forall (m : gmap Z nat) h,
  fold_left (count_hour fromisoformat_hour) logins m !! h
  = match occurs logins h with
    | O => m !! h
    | S n => Some (default 0 (m !! h) + S n)%nat
    end.
Proof.
  induction logins as [|login logins IH]; intros m h; [reflexivity|].
  cbn [fold_left]. rewrite IH, occurrences_cons, count_hour_login_hour.
  destruct (login_hour fromisoformat_hour login) as [hour|].
  - destruct (decide (Some hour = Some h)) as [[= ->]|Hne].
    + rewrite lookup_insert_eq. cbn [default].
      destruct (occurs logins h); cbn; f_equal; lia.
    + rewrite lookup_insert_ne by congruence.
      destruct (occurs logins h); reflexivity.
  - destruct (decide (None = Some h)) as [Heq|_]; [discriminate|].
    destruct (occurs logins h); reflexivity.
Qed.

Lemma hour_counts_lookup logins h :
  counts logins !! h
  = match occurs logins h with O => None | S n => Some (S n) end.
Proof.
  unfold hour_counts_of. rewrite fold_count_hour_lookup, lookup_empty.
  reflexivity.
Qed.

(** The time check fires exactly when the user has a history and the
    current hour occurs once in it. *)
Lemma time_unusual_iff self user_id h :
  time_unusual self (str user_id) h = true
  <-> history_of self user_id <> [] /\ occurs (history_of self user_id) h = 1%nat.
Proof.
  unfold time_unusual, history_of.
  destruct (historical_logins self !! str user_id) as [logins|];
    cbn [default from_option id].
  - rewrite !andb_true_iff, !bool_decide_eq_true, hour_counts_lookup.
    split.
    + intros [[Hlen Hne] Hn]. split.
      * destruct logins; [cbn in Hlen; lia|discriminate].
      * destruct (occurs logins h) as [|[|n]] eqn:E; cbn in Hn.
        -- discriminate Hn.
        -- reflexivity.
        -- apply bool_decide_eq_true in Hn. lia.
    + intros [Hne Hone]. rewrite Hone. split; [split|].
      * destruct logins; [contradiction|cbn; lia].
      * intros Hempty.
        pose proof (hour_counts_lookup logins h) as Hl.
        rewrite Hempty, lookup_empty, Hone in Hl. discriminate.
      * apply bool_decide_eq_true. lia.
  - split; [discriminate|]. intros [Hne _]. contradiction.
Qed.

(** The location check fires exactly when the context has a location,
    the user has a history, and no record of it has that location. *)
Lemma location_unusual_iff self user_id cur :
  location_unusual self (str user_id) cur = true
  <-> exists loc, cd_location cur = Some loc /\
        history_of self user_id <> [] /\
        forall login, login ∈ history_of self user_id ->
                      lr_location login <> Some loc.
Proof.
  unfold location_unusual, history_of.
  destruct (cd_location cur) as [loc|].
  2: { split; [discriminate|]. intros (loc & Hl & _). discriminate. }
  destruct (historical_logins self !! str user_id) as [logins|];
    cbn [default from_option id].
  2: { split; [discriminate|]. intros (l & _ & Hne & _). contradiction. }
  rewrite andb_true_iff, negb_true_iff, bool_decide_eq_true. split.
  - intros [Hex Hlen]. exists loc. split; [reflexivity|]. split.
    + destruct logins; [cbn in Hlen; lia|discriminate].
    + intros login Hin Hloc.
      assert (Ht : existsb
                (fun login => bool_decide (lr_location login = Some loc))
                logins = true).
      { apply existsb_exists. exists login. split.
        - apply list_elem_of_In, Hin.
        - apply bool_decide_eq_true, Hloc. }
      congruence.
  - intros (l & [= <-] & Hne & Hall). split.
    + destruct (existsb _ logins) eqn:E; [|reflexivity].
      apply existsb_exists in E as (login & Hin & Hloc).
      apply bool_decide_eq_true in Hloc. apply list_elem_of_In in Hin.
      exfalso. exact (Hall login Hin Hloc).
    + destruct logins; [contradiction|cbn; lia].
Qed.

(** The time tag is raised exactly for an existing user with a
    history in which the current hour occurs once; an hour that never
    occurs raises nothing, and neither does an empty history. *)
Lemma unusual_login_time_iff self user_id cur h :
  is_Some (users self !! str user_id) ->
  ("Unusual login time" ∈ anomalies (compare self user_id cur h)
   <-> history_of self user_id <> [] /\
       occurs (history_of self user_id) h = 1%nat).
Proof.
  intros Hu.
  destruct (compare_anomalies self user_id cur h Hu) as (Ha & _).
  rewrite Ha, tag_membership, <- time_unusual_iff.
  split.
  - intros [[_ H]|[[_ H]|[H _]]]; [discriminate H|discriminate H|exact H].
  - intros H. right. right. split; [exact H|reflexivity].
Qed.

(** C7: for an existing user, the location tag is raised exactly when
    the context has a location, the user's history is not empty and no
    record of the history has exactly that location; and the result is
    suspicious exactly when at least two tags were raised. *)
Theorem unusual_location_tag self user_id cur h :
  is_Some (users self !! str user_id) ->
  let r := compare self user_id cur h in
  ("Unusual location" ∈ anomalies r
   <-> exists loc, cd_location cur = Some loc /\
         history_of self user_id <> [] /\
         forall login, login ∈ history_of self user_id ->
                       lr_location login <> Some loc) /\
  is_suspicious r = Some (bool_decide (2 <= length (anomalies r))).
Proof.
  intros Hu r.
  destruct (compare_anomalies self user_id cur h Hu) as (Ha & _ & _ & Hs).
  fold r in Ha, Hs. split.
  - rewrite Ha, tag_membership, <- location_unusual_iff.
    split.
    + intros [[_ H]|[[H _]|[_ H]]]; [discriminate H|exact H|discriminate H].
    + intros H. right. left. split; [exact H|reflexivity].
  - rewrite Hs. reflexivity.
Qed.

End CompareFacts.

Lemma unusual_location_tag_witness :
  let from_c := {| cd_device_info := None; cd_location := Some "C" |} in
  let from_a := {| cd_device_info := None; cd_location := Some "A" |} in
  let r := compare_with_current iso_hour two_logins 1001 from_c 10 in
  is_Some (users two_logins !! str 1001) /\
  (("Unusual location" ∈ anomalies r
    <-> exists loc, cd_location from_c = Some loc /\
          history_of two_logins 1001 <> [] /\
          forall login, login ∈ history_of two_logins 1001 ->
                        lr_location login <> Some loc) /\
   is_suspicious r = Some (bool_decide (2 <= length (anomalies r)))) /\
  "Unusual location" ∈ anomalies r /\
  "Unusual location" ∉
    anomalies (compare_with_current iso_hour two_logins 1001 from_a 10).
Proof.
  intros from_c from_a r.
  assert (Hu : is_Some (users two_logins !! str 1001))
    by (apply (bool_decide_unpack _); vm_compute; exact I).
  split; [exact Hu|].
  split; [exact (unusual_location_tag iso_hour two_logins 1001 from_c 10 Hu)|].
  split; apply (bool_decide_unpack _); vm_compute; exact I.
Defined.

(** C6 at a failing input: the user has one login, at 10 o'clock; at
    15 o'clock the hour has no prior occurrence, fewer than two, and
    the history is not empty, yet no time tag is raised, while at 10
    o'clock, with one prior occurrence, it is. *)
Theorem unusual_login_time_missed_for_unseen_hour :
  let db := run [AddUser 1001 ∅;
                 AddLoginRecord 1001 (login_at "2024-05-01T10:15:00" "A")
                   "2024-05-01T10:15:01"] in
  let cur := {| cd_device_info := None; cd_location := Some "A" |} in
  history_of db 1001 <> [] /\
  occurrences iso_hour (history_of db 1001) 15 = 0%nat /\
  anomalies (compare_with_current iso_hour db 1001 cur 15) = [] /\
  ("Unusual login time" ∉ anomalies (compare_with_current iso_hour db 1001 cur 15)) /\
  occurrences iso_hour (history_of db 1001) 10 = 1%nat /\
  anomalies (compare_with_current iso_hour db 1001 cur 10) = ["Unusual login time"].
Proof.
  intros db cur.
  split; [vm_compute; discriminate|].
  split; [vm_compute; reflexivity|].
  split; [vm_compute; reflexivity|].
  split; [apply (bool_decide_unpack _); vm_compute; exact I|].
  split; vm_compute; reflexivity.
Qed.

(** *** What each operation does to a user's records *)

Lemma add_user_effect self u d key :
  let r := add_user self u d in
  (is_Some (users self !! str u) -> r = (false, self)) /\
  (users self !! str u = None ->
   r.1 = true /\
   users r.2 !! key = (if decide (str u = key) then Some d else users self !! key) /\
   trusted_devices r.2 !! key
   = (if decide (str u = key) then Some [] else trusted_devices self !! key) /\
   historical_logins r.2 !! key
   = (if decide (str u = key) then Some [] else historical_logins self !! key)).
Proof.
  intros r. subst r. unfold add_user. split.
  - intros Hu. rewrite decide_True by exact Hu. reflexivity.
  - intros Hu. rewrite decide_False by (rewrite Hu; apply is_Some_None).
    cbn. rewrite !lookup_insert. repeat split.
Qed.

Lemma update_user_effect self u d :
  let r := update_user self u d in
  trusted_devices r.2 = trusted_devices self /\
  historical_logins r.2 = historical_logins self /\
  (forall key, is_Some (users r.2 !! key) <-> is_Some (users self !! key)) /\
  (users self !! str u = None -> r = (false, self)).
Proof.
  intros r. subst r. unfold update_user.
  destruct (users self !! str u) as [old|] eqn:E; cbn.
  - split; [reflexivity|]. split; [reflexivity|]. split; [|discriminate].
    intros key. rewrite lookup_insert. case_decide as Hk.
    + subst key. rewrite E. split; intros _; eexists; reflexivity.
    + reflexivity.
  - repeat split; auto.
Qed.

Lemma add_login_record_effect self u l now key :
  let r := add_login_record self u l now in
  users r.2 = users self /\
  trusted_devices r.2 = trusted_devices self /\
  (is_Some (users self !! str u) ->
   r.1 = true /\
   historical_logins r.2 !! key
   = (if decide (str u = key)
      then Some (default [] (historical_logins self !! key) ++ [stamped l now])
      else historical_logins self !! key)) /\
  (users self !! str u = None -> r = (false, self)).
Proof.
  intros r. subst r. unfold add_login_record, stamped.
  destruct (decide (is_Some (users self !! str u))) as [Hu|Hu]; cbn.
  - split; [reflexivity|]. split; [reflexivity|]. split.
    + intros _. split; [reflexivity|]. rewrite lookup_insert.
      case_decide as Hk; [subst key|]; reflexivity.
    + intros Hn. rewrite Hn in Hu. destruct Hu as [? Hu]. discriminate.
  - split; [reflexivity|]. split; [reflexivity|]. split; [contradiction|].
    reflexivity.
Qed.

Lemma add_trusted_device_effect self u d key :
  let r := add_trusted_device self u d in
  users r.2 = users self /\
  historical_logins r.2 = historical_logins self /\
  (is_Some (users self !! str u) ->
   trusted_devices r.2 !! key
   = (if decide (str u = key) then Some (with_device (devices_of self u) d)
      else trusted_devices self !! key)) /\
  (users self !! str u = None -> r = (false, self)).
Proof.
  intros r. subst r.
  destruct (decide (is_Some (users self !! str u))) as [Hu|Hu].
  - destruct (add_trusted_device_result self u d Hu) as (_ & Hus & Htd).
    split; [exact Hus|]. split.
    + unfold add_trusted_device. rewrite decide_True by exact Hu.
      destruct (trusted_devices self !! str u); cbn; case_decide; reflexivity.
    + split.
      * intros _. rewrite Htd, lookup_insert. reflexivity.
      * intros Hn. rewrite Hn in Hu. destruct Hu as [? Hu]. discriminate.
  - rewrite (add_trusted_device_missing_user self u d Hu).
    split; [reflexivity|]. split; [reflexivity|]. split; [contradiction|].
    reflexivity.
Qed.

(** X16: for a user the database does not hold, [update_user],
    [add_login_record] and [add_trusted_device] return [False] and
    change nothing, [get_user_detail] returns nothing, and
    [compare_with_current] returns the error result, with no anomaly
    and no verdict. *)
Theorem unknown_user_is_refused self user_id :
  users self !! str user_id = None ->
  (forall d, update_user self user_id d = (false, self)) /\
  (forall l now, add_login_record self user_id l now = (false, self)) /\
  (forall d, add_trusted_device self user_id d = (false, self)) /\
  get_user_detail self user_id = None /\
  (forall parse cur h,
     compare_with_current parse self user_id cur h
     = {| cmp_error := Some "User not found"; cmp_user_id := None;
          anomalies := []; anomaly_count := None; is_suspicious := None |}).
Proof.
  intros Hu.
  split; [intros d; apply (update_user_effect self user_id d), Hu|].
  split; [intros l now; apply (add_login_record_effect self user_id l now ""), Hu|].
  split; [intros d; apply (add_trusted_device_effect self user_id d ""), Hu|].
  split.
  - unfold get_user_detail. rewrite Hu. reflexivity.
  - intros parse cur h. unfold compare_with_current. rewrite Hu. reflexivity.
Qed.

Lemma unknown_user_is_refused_witness :
  let db := run [AddUser 1001 ∅] in
  users db !! str 1002 = None /\
  add_trusted_device db 1002 "Pixel 8, Firefox 125" = (false, db) /\
  get_user_detail db 1002 = None.
Proof.
  intros db.
  assert (Hu : users db !! str 1002 = None) by (vm_compute; reflexivity).
  destruct (unknown_user_is_refused db 1002 Hu) as (_ & _ & Hd & Hg & _).
  split; [exact Hu|]. split; [apply Hd|exact Hg].
Defined.

(** *** Records of an existing user along later operations *)

Lemma apply_operation_existing self op v :
  is_Some (users self !! str v) ->
  is_Some (users (apply_operation self op) !! str v) /\
  (forall d, d ∈ devices_of self v -> d ∈ devices_of (apply_operation self op) v) /\
  history_of self v `prefix_of` history_of (apply_operation self op) v.
Proof.
  intros Hv. unfold devices_of, history_of.
  destruct op as [u d|u d|u l now|u d]; cbn [apply_operation].
  - destruct (users self !! str u) as [old|] eqn:E.
    + rewrite (proj1 (add_user_effect self u d "") (mk_is_Some _ _ E)).
      cbn [snd]. split; [exact Hv|]. split; [auto|reflexivity].
    + destruct (proj2 (add_user_effect self u d (str v)) E) as (_ & Hus & Htd & Hhl).
      assert (Hne : str u <> str v).
      { intros Heq. rewrite Heq in E. rewrite E in Hv. destruct Hv as [? Hv].
        discriminate. }
      rewrite decide_False in Hus by exact Hne.
      rewrite decide_False in Htd by exact Hne.
      rewrite decide_False in Hhl by exact Hne.
      rewrite Hus, Htd, Hhl. split; [exact Hv|]. split; [auto|reflexivity].
  - destruct (update_user_effect self u d) as (Htd & Hhl & Hus & _).
    rewrite Htd, Hhl. split; [apply Hus, Hv|]. split; [auto|reflexivity].
  - destruct (add_login_record_effect self u l now (str v)) as (Hus & Htd & Hyes & Hno).
    rewrite Hus, Htd. split; [exact Hv|]. split; [auto|].
    destruct (decide (is_Some (users self !! str u))) as [Hu|Hu].
    + destruct (Hyes Hu) as [_ Hhl]. rewrite Hhl.
      case_decide; [|reflexivity]. cbn [default]. apply prefix_app_r. reflexivity.
    + rewrite (Hno (proj2 (eq_None_not_Some _) Hu)). reflexivity.
  - destruct (add_trusted_device_effect self u d (str v)) as (Hus & Hhl & Hyes & Hno).
    rewrite Hus, Hhl. split; [exact Hv|]. split; [|reflexivity].
    destruct (decide (is_Some (users self !! str u))) as [Hu|Hu].
    + rewrite (Hyes Hu). intros d' Hd'.
      case_decide as Hk; [|exact Hd']. cbn [default].
      unfold with_device, devices_of. rewrite Hk.
      destruct (decide (d ∈ default [] (trusted_devices self !! str v)));
        [exact Hd'|]. apply elem_of_app. left. exact Hd'.
    + rewrite (Hno (proj2 (eq_None_not_Some _) Hu)). auto.
Qed.

Lemma fold_operations_existing ops : forall self v,
  is_Some (users self !! str v) ->
  is_Some (users (fold_left apply_operation ops self) !! str v) /\
  (forall d, d ∈ devices_of self v ->
             d ∈ devices_of (fold_left apply_operation ops self) v) /\
  history_of self v `prefix_of` history_of (fold_left apply_operation ops self) v.
Proof.
  induction ops as [|op ops IH]; intros self v Hv; cbn [fold_left].
  - split; [exact Hv|]. split; [auto|reflexivity].
  - destruct (apply_operation_existing self op v Hv) as (Hv' & Hd & Hh).
    destruct (IH _ v Hv') as (Hv'' & Hd' & Hh').
    split; [exact Hv''|]. split; [intros d H; apply Hd', Hd, H|].
    etransitivity; eassumption.
Qed.

(** *** Registration *)

(** X18: [add_user] registers an unknown id with empty lists of
    trusted devices and logins, and [get_user_detail] then returns the
    data given, with these two lists and the face sample of the data
    under their own keys; for an id the database already holds it
    returns [False] and leaves the database, lists included, as it
    is. *)
Theorem add_user_registers_once self user_id user_data :
  (users self !! str user_id = None ->
   let r := add_user self user_id user_data in
   r.1 = true /\
   devices_of r.2 user_id = [] /\ history_of r.2 user_id = [] /\
   (forall other, add_user r.2 user_id other = (false, r.2)) /\
   exists detail, get_user_detail r.2 user_id = Some detail /\
     detail !! "trusted_devices" = Some (TrustedDevices []) /\
     detail !! "historical_logins" = Some (HistoricalLogins []) /\
     (forall v, user_data !! "face_data" = Some v ->
                detail !! "stored_face" = Some (Plain v)) /\
     (forall key, key ∉ derived_keys ->
                  detail !! key = Plain <$> user_data !! key)) /\
  (is_Some (users self !! str user_id) ->
   add_user self user_id user_data = (false, self)).
Proof.
  split.
  - intros Hu r.
    destruct (proj2 (add_user_effect self user_id user_data (str user_id)) Hu)
      as (Hr & Hus & Htd & Hhl).
    fold r in Hr, Hus, Htd, Hhl.
    rewrite decide_True in Hus by reflexivity.
    rewrite decide_True in Htd by reflexivity.
    rewrite decide_True in Hhl by reflexivity.
    split; [exact Hr|].
    split; [unfold devices_of; rewrite Htd; reflexivity|].
    split; [unfold history_of; rewrite Hhl; reflexivity|].
    split.
    { intros other. apply (add_user_effect r.2 user_id other "").
      rewrite Hus. eexists. reflexivity. }
    unfold get_user_detail. rewrite Hus, Htd, Hhl.
    eexists. split; [reflexivity|].
    split; [rewrite lookup_insert_ne by discriminate; apply lookup_insert_eq|].
    split; [apply lookup_insert_eq|].
    split.
    + intros v Hv. rewrite !lookup_insert_ne by discriminate.
      assert (Hf : stored_face r.2 !! str user_id = Some v).
      { subst r. unfold add_user.
        rewrite decide_False by (rewrite Hu; apply is_Some_None).
        cbn. rewrite Hv. apply lookup_insert_eq. }
      rewrite Hf.
      destruct (stored_typing_pattern r.2 !! str user_id);
        [rewrite lookup_insert_ne by discriminate|]; apply lookup_insert_eq.
    + intros key Hkey. unfold derived_keys in Hkey.
      rewrite !not_elem_of_cons in Hkey. destruct Hkey as (K1 & K2 & K3 & K4 & _).
      rewrite !lookup_insert_ne by congruence.
      destruct (stored_typing_pattern r.2 !! str user_id);
        [rewrite lookup_insert_ne by congruence|];
        (destruct (stored_face r.2 !! str user_id);
           [rewrite lookup_insert_ne by congruence|]);
        apply lookup_fmap.
  - intros Hu. apply (add_user_effect self user_id user_data ""), Hu.
Qed.

Lemma add_user_registers_once_witness :
  let data : gmap string value :=
    <["username" := Str "angel_abubakar"]> (<["face_data" := Str "face"]> ∅) in
  let r := add_user empty 1001 data in
  users empty !! str 1001 = None /\
  r.1 = true /\ devices_of r.2 1001 = [] /\
  is_Some (users r.2 !! str 1001) /\
  add_user r.2 1001 ∅ = (false, r.2).
Proof.
  intros data r.
  assert (Hu : users empty !! str 1001 = None) by reflexivity.
  destruct (proj1 (add_user_registers_once empty 1001 data) Hu)
    as (Hr & Hd & _ & Hagain & _).
  assert (Hnow : is_Some (users r.2 !! str 1001))
    by (apply (bool_decide_unpack _); vm_compute; exact I).
  split; [exact Hu|]. split; [exact Hr|]. split; [exact Hd|].
  split; [exact Hnow|].
  exact (proj2 (add_user_registers_once r.2 1001 ∅) Hnow).
Defined.

(** *** The detector after the database has learnt *)

Section DetectorFacts.

Variable fromisoformat_hour : string -> option Z.

Abbreviation compare := (compare_with_current fromisoformat_hour).

Lemma untrusted_device_tag self user_id cur h :
  is_Some (users self !! str user_id) ->
  ("Untrusted device" ∈ anomalies (compare self user_id cur h)
   <-> device_untrusted self (str user_id) cur = true).
Proof.
  intros Hu.
  destruct (compare_anomalies fromisoformat_hour self user_id cur h Hu) as (Ha & _).
  rewrite Ha, (tag_membership fromisoformat_hour). split.
  - intros [[H _]|[[_ H]|[_ H]]]; [exact H|discriminate H|discriminate H].
  - intros H. left. split; [exact H|reflexivity].
Qed.

Lemma unusual_location_tag_iff self user_id cur h :
  is_Some (users self !! str user_id) ->
  ("Unusual location" ∈ anomalies (compare self user_id cur h)
   <-> location_unusual self (str user_id) cur = true).
Proof.
  intros Hu.
  destruct (compare_anomalies fromisoformat_hour self user_id cur h Hu) as (Ha & _).
  rewrite Ha, (tag_membership fromisoformat_hour). split.
  - intros [[_ H]|[[H _]|[_ H]]]; [discriminate H|exact H|discriminate H].
  - intros H. right. left. split; [exact H|reflexivity].
Qed.

(** X20: once [add_trusted_device] has accepted a description for a
    user, whatever operations follow, a login context with exactly
    that description never gets the tag [Untrusted device]; a user
    with no trusted device gets it for every context that carries a
    description. *)
Theorem trusted_device_is_recognized self user_id device_info cur h :
  is_Some (users self !! str user_id) ->
  (forall ops,
     cd_device_info cur = Some device_info ->
     let db := fold_left apply_operation ops
                 (add_trusted_device self user_id device_info).2 in
     "Untrusted device" ∉ anomalies (compare db user_id cur h)) /\
  (devices_of self user_id = [] -> is_Some (cd_device_info cur) ->
   "Untrusted device" ∈ anomalies (compare self user_id cur h)).
Proof.
  intros Hu. split.
  - intros ops Hcur db.
    destruct (add_trusted_device_effect self user_id device_info (str user_id))
      as (Hus & _ & Hyes & _).
    assert (Hu1 : is_Some (users (add_trusted_device self user_id device_info).2
                             !! str user_id)) by (rewrite Hus; exact Hu).
    assert (Hd1 : device_info
                  ∈ devices_of (add_trusted_device self user_id device_info).2 user_id).
    { unfold devices_of at 1. rewrite (Hyes Hu), decide_True by reflexivity.
      apply elem_of_with_device. }
    destruct (fold_operations_existing ops _ user_id Hu1) as (Hu2 & Hd2 & _).
    fold db in Hu2, Hd2. specialize (Hd2 _ Hd1).
    rewrite (untrusted_device_tag db user_id cur h Hu2).
    unfold device_untrusted. rewrite Hcur.
    unfold devices_of in Hd2.
    destruct (trusted_devices db !! str user_id) as [devices|];
      [|apply elem_of_nil in Hd2; contradiction].
    cbn [default from_option id] in Hd2.
    assert (He : existsb (contains device_info) devices = true).
    { apply existsb_exists. exists device_info.
      split; [apply list_elem_of_In, Hd2|apply contains_refl]. }
    rewrite He. discriminate.
  - intros Hd [dev Hcur].
    rewrite (untrusted_device_tag self user_id cur h Hu).
    unfold device_untrusted. rewrite Hcur.
    unfold devices_of in Hd.
    destruct (trusted_devices self !! str user_id) as [devices|]; [|reflexivity].
    cbn [default from_option id] in Hd. subst devices. reflexivity.
Qed.

(** X22: a user with no login record is never suspicious: whatever
    the context and the hour, the only tag that can be raised is
    [Untrusted device]. *)
Theorem no_history_never_suspicious self user_id cur h :
  is_Some (users self !! str user_id) ->
  history_of self user_id = [] ->
  let r := compare self user_id cur h in
  anomalies r = tag_if (device_untrusted self (str user_id) cur) "Untrusted device" /\
  is_suspicious r = Some false /\
  (exists n, anomaly_count r = Some n /\ n <= 1).
Proof.
  intros Hu Hh r.
  destruct (compare_anomalies fromisoformat_hour self user_id cur h Hu)
    as (Ha & _ & Hc & Hs).
  fold r in Ha, Hc, Hs.
  assert (Hl : location_unusual self (str user_id) cur = false).
  { destruct (location_unusual self (str user_id) cur) eqn:E; [|reflexivity].
    apply location_unusual_iff in E as (loc & _ & Hne & _). contradiction. }
  assert (Ht : time_unusual fromisoformat_hour self (str user_id) h = false).
  { destruct (time_unusual fromisoformat_hour self (str user_id) h) eqn:E;
      [|reflexivity].
    apply time_unusual_iff in E as [Hne _]. contradiction. }
  rewrite Hl, Ht in Ha. cbn [tag_if] in Ha. rewrite !app_nil_r in Ha.
  split; [exact Ha|]. rewrite Hs, Hc, Ha.
  destruct (device_untrusted self (str user_id) cur); cbn;
    (split; [reflexivity|eexists; split; [reflexivity|lia]]).
Qed.

(** X23: after the counting loop of [compare_with_current] the entry
    of an hour is the number of login records whose timestamp reads as
    that hour, and an hour with no such record has no entry; a record
    with no timestamp, or an unreadable one, changes no count. *)
Theorem hour_counts_count_readable_records logins h :
  hour_counts_of fromisoformat_hour logins !! h
  = (match occurrences fromisoformat_hour logins h with
     | O => None
     | S n => Some (S n)
     end) /\
  (forall before login after,
     logins = before ++ login :: after ->
     login_hour fromisoformat_hour login = None ->
     hour_counts_of fromisoformat_hour logins
     = hour_counts_of fromisoformat_hour (before ++ after)).
Proof.
  split; [apply hour_counts_lookup|].
  intros before login after -> Hnone.
  apply map_eq. intros k. rewrite !hour_counts_lookup.
  unfold occurrences. rewrite !filter_app, filter_cons_False; [reflexivity|].
  rewrite Hnone. discriminate.
Qed.

End DetectorFacts.

Lemma trusted_device_is_recognized_witness :
  let db := run [AddUser 1001 ∅] in
  let device := "Windows 11, Chrome 98.0.4758.102" in
  let cur := {| cd_device_info := Some device; cd_location := None |} in
  let later := fold_left apply_operation [AddTrustedDevice 1001 "Pixel 8, Firefox 125"]
                 (add_trusted_device db 1001 device).2 in
  is_Some (users db !! str 1001) /\
  ("Untrusted device" ∉ anomalies (compare_with_current iso_hour later 1001 cur 10)) /\
  devices_of db 1001 = [] /\
  "Untrusted device" ∈ anomalies (compare_with_current iso_hour db 1001 cur 10).
Proof.
  intros db device cur later.
  assert (Hu : is_Some (users db !! str 1001))
    by (apply (bool_decide_unpack _); vm_compute; exact I).
  destruct (trusted_device_is_recognized iso_hour db 1001 device cur 10 Hu)
    as [Hyes Hno].
  split; [exact Hu|]. split; [exact (Hyes _ eq_refl)|].
  split; [reflexivity|]. apply Hno; [reflexivity|eexists; reflexivity].
Defined.

Lemma no_history_never_suspicious_witness :
  let db := run [AddUser 1001 ∅] in
  let cur := {| cd_device_info := Some "Unknown Device";
                cd_location := Some "1.2921,36.8219" |} in
  is_Some (users db !! str 1001) /\ history_of db 1001 = [] /\
  is_suspicious (compare_with_current iso_hour db 1001 cur 3) = Some false.
Proof.
  intros db cur.
  assert (Hu : is_Some (users db !! str 1001))
    by (apply (bool_decide_unpack _); vm_compute; exact I).
  assert (Hh : history_of db 1001 = []) by reflexivity.
  split; [exact Hu|]. split; [exact Hh|].
  exact (proj1 (proj2 (no_history_never_suspicious iso_hour db 1001 cur 3 Hu Hh))).
Defined.

Lemma hour_counts_count_readable_records_witness :
  let unreadable := {| lr_timestamp := Some "yesterday"; lr_device_info := None;
                       lr_location := None; lr_ip_address := None;
                       lr_success := None; lr_risk_level := None |} in
  let a := login_at "2024-05-01T10:15:00" "A" in
  let b := login_at "2024-05-02T10:20:00" "B" in
  [a; unreadable; b] = [a] ++ unreadable :: [b] /\
  login_hour iso_hour unreadable = None /\
  hour_counts_of iso_hour [a; unreadable; b] = hour_counts_of iso_hour ([a] ++ [b]) /\
  hour_counts_of iso_hour [a; unreadable; b] !! 10%Z = Some 2.
Proof.
  intros unreadable a b.
  destruct (hour_counts_count_readable_records iso_hour [a; unreadable; b] 10)
    as [Hl Hskip].
  split; [reflexivity|]. split; [reflexivity|].
  split; [exact (Hskip [a] unreadable [b] eq_refl eq_refl)|].
  rewrite Hl. reflexivity.
Defined.

End UserDatabaseFacts.

(** ** The user database on shared dict objects *)

Module UserStoreFacts.
Import UserStore.

Lemma content_set_dict self d c d' :
  content (set_dict self d c) d' = if decide (d = d') then c else content self d'.
Proof.
  unfold content, set_dict. cbn [dicts].
  destruct (decide (d = d')) as [->|Hne].
  - rewrite lookup_insert_eq. reflexivity.
  - rewrite lookup_insert_ne by exact Hne. reflexivity.
Qed.

Lemma content_inserted self d c d' :
  default ∅ (<[d := c]> (dicts self) !! d')
  = if decide (d = d') then c else content self d'.
Proof. exact (content_set_dict self d c d'). Qed.

(** Unfold one operation down to its tests. *)
Ltac open_operation :=
  cbn [apply_operation];
  unfold add_user, update_user, add_login_record, add_trusted_device, assign;
  repeat match goal with
         | |- context [decide ?P] => destruct (decide P)
         | |- context [match users ?s !! ?k with _ => _ end] =>
             destruct (users s !! k) eqn:?
         | |- context [match content ?s ?d !! ?k with _ => _ end] =>
             destruct (content s d !! k) eqn:?
         | |- context [match trusted_devices ?s !! ?k with _ => _ end] =>
             destruct (trusted_devices s !! k) eqn:?
         end;
  cbn [snd fst dicts users stored_face stored_typing_pattern trusted_devices
       historical_logins set_dict set_trusted_devices].

Lemma users_kept self op key d :
  users self !! key = Some d ->
  users (apply_operation self op) !! key = Some d.
Proof.
  intros Hk. destruct op; open_operation; try exact Hk.
  assert (Hne : UserDatabase.str user_id <> key).
  { intros <-. match goal with H : ~ is_Some _ |- _ => apply H end.
    rewrite Hk. eexists. reflexivity. }
  rewrite lookup_insert_ne by exact Hne. exact Hk.
Qed.

Lemma no_entry_kept self op d :
  no_entry self d -> leaves d op -> no_entry (apply_operation self op) d.
Proof.
  intros Hno Hl key. specialize (Hno key).
  destruct op; cbn [leaves] in Hl; open_operation; try exact Hno.
  destruct (decide (UserDatabase.str user_id = key)) as [<-|Hne].
  - rewrite lookup_insert_eq. intros [= E]. exact (Hl E).
  - rewrite lookup_insert_ne by exact Hne. exact Hno.
Qed.

Lemma content_kept self op d :
  d ∉ written self op ->
  content (apply_operation self op) d = content self d.
Proof.
  intros Hw. destruct op; cbn [written] in Hw; revert Hw; open_operation;
    intros Hw; try reflexivity;
    unfold content at 1; cbn [dicts set_dict];
    match goal with
    | |- default ∅ (<[?r := ?c]> (dicts ?s) !! ?d') = _ =>
        rewrite (content_inserted s r c d'), decide_False;
        [reflexivity
        |intros <-; apply Hw; apply list_elem_of_singleton; reflexivity]
    end.
Qed.


(** *** What an operation keeps of a user's entry *)

Lemma other_key self u key :
  ~ is_Some (users self !! UserDatabase.str u) ->
  is_Some (users self !! key) ->
  UserDatabase.str u <> key.
Proof. intros Hno Hyes <-. exact (Hno Hyes). Qed.

Lemma devices_grow self op u :
  is_Some (users self !! UserDatabase.str u) ->
  devices_of self u `prefix_of` devices_of (apply_operation self op) u.
Proof.
  intros Hu. unfold devices_of.
  destruct op; open_operation; try reflexivity.
  all: destruct (decide (UserDatabase.str user_id = UserDatabase.str u))
         as [E|Hne];
       [|rewrite !lookup_insert_ne by exact Hne; reflexivity].
  all: rewrite E in *; rewrite ?lookup_insert_eq; cbn [default from_option id].
  all: try solve [exfalso; match goal with H : ~ is_Some _ |- _ => exact (H Hu) end].
  all: repeat match goal with
              | H : trusted_devices _ !! _ = _ |- _ => rewrite H
              end; cbn [default from_option id].
  all: first [reflexivity | apply prefix_nil | apply prefix_app_r; reflexivity].
Qed.

Lemma history_grows self op u :
  is_Some (users self !! UserDatabase.str u) ->
  history_of self u `prefix_of` history_of (apply_operation self op) u.
Proof.
  intros Hu. unfold history_of.
  destruct op; open_operation; try reflexivity.
  all: destruct (decide (UserDatabase.str user_id = UserDatabase.str u))
         as [E|Hne];
       [|rewrite !lookup_insert_ne by exact Hne; reflexivity].
  all: rewrite E in *; rewrite ?lookup_insert_eq; cbn [default from_option id].
  all: try solve [exfalso; match goal with H : ~ is_Some _ |- _ => exact (H Hu) end].
  all: first [reflexivity | apply prefix_nil | apply prefix_app_r; reflexivity].
Qed.

Lemma fold_operations_grow ops : forall self u,
  is_Some (users self !! UserDatabase.str u) ->
  let db := fold_left apply_operation ops self in
  users db !! UserDatabase.str u = users self !! UserDatabase.str u /\
  devices_of self u `prefix_of` devices_of db u /\
  history_of self u `prefix_of` history_of db u.
Proof.
  induction ops as [|op ops IH]; intros self u Hu; cbn [fold_left].
  - repeat split; reflexivity.
  - destruct Hu as [d Hd].
    pose proof (users_kept self op _ _ Hd) as Hd1.
    destruct (IH (apply_operation self op) u (mk_is_Some _ _ Hd1))
      as (Hus & Hdev & Hhist).
    split; [rewrite Hus, Hd1, Hd; reflexivity|].
    split; (etransitivity; [|eassumption]).
    + apply devices_grow. rewrite Hd. eexists. reflexivity.
    + apply history_grows. rewrite Hd. eexists. reflexivity.
Qed.

(** *** Dicts that stay as they are *)

Lemma kept_not_written self op d :
  no_entry self d -> leaves d op ->
  is_Some (content self d !! "timestamp") ->
  d ∉ written self op.
Proof.
  intros Hno Hl [t Ht]. destruct op; cbn [written leaves] in *.
  - apply not_elem_of_nil.
  - destruct (users self !! UserDatabase.str user_id) as [stored|] eqn:E;
      [|apply not_elem_of_nil].
    intros Hin. apply list_elem_of_singleton in Hin. subst stored.
    exact (Hno _ E).
  - destruct (decide (is_Some (users self !! UserDatabase.str user_id)));
      [|apply not_elem_of_nil].
    destruct (content self login_data !! "timestamp") eqn:E;
      [apply not_elem_of_nil|].
    intros Hin. apply list_elem_of_singleton in Hin. subst login_data.
    rewrite Ht in E. discriminate.
  - apply not_elem_of_nil.
  - intros Hin. apply list_elem_of_singleton in Hin. exact (Hl (eq_sym Hin)).
Qed.

Lemma fold_operations_kept ops : forall self d,
  no_entry self d -> Forall (leaves d) ops ->
  is_Some (content self d !! "timestamp") ->
  let db := fold_left apply_operation ops self in
  content db d = content self d /\ no_entry db d.
Proof.
  induction ops as [|op ops IH]; intros self d Hno Hall Ht; cbn [fold_left].
  - split; [reflexivity|exact Hno].
  - apply Forall_cons in Hall as [Hl Hall].
    pose proof (content_kept self op d (kept_not_written self op d Hno Hl Ht))
      as Hc.
    destruct (IH (apply_operation self op) d
                (no_entry_kept self op d Hno Hl) Hall) as [Hc' Hno'].
    { rewrite Hc. exact Ht. }
    split; [rewrite Hc', Hc; reflexivity|exact Hno'].
Qed.


(** *** What a reader finds *)

Lemma snapshot_users self key :
  UserDatabase.users (snapshot self) !! key = content self <$> users self !! key.
Proof. unfold snapshot. cbn [UserDatabase.users]. apply lookup_fmap. Qed.

Lemma snapshot_history self u :
  UserDatabase.history_of (snapshot self) u
  = map (fun d => as_login_record (content self d)) (history_of self u).
Proof.
  unfold UserDatabase.history_of, history_of, snapshot.
  cbn [UserDatabase.historical_logins]. rewrite lookup_fmap.
  destruct (historical_logins self !! UserDatabase.str u); reflexivity.
Qed.

(** The comparison reads the user's presence, devices and history
    dicts, nothing else. *)
Lemma compare_with_current_reads parse a b u cur h :
  (is_Some (users a !! UserDatabase.str u)
   <-> is_Some (users b !! UserDatabase.str u)) ->
  trusted_devices a !! UserDatabase.str u = trusted_devices b !! UserDatabase.str u ->
  historical_logins a !! UserDatabase.str u
  = historical_logins b !! UserDatabase.str u ->
  (forall d, d ∈ history_of a u -> content a d = content b d) ->
  compare_with_current parse a u cur h = compare_with_current parse b u cur h.
Proof.
  intros Hu Htd Hhl Hc.
  assert (Hh : UserDatabase.historical_logins (snapshot a) !! UserDatabase.str u
               = UserDatabase.historical_logins (snapshot b) !! UserDatabase.str u).
  { unfold snapshot. cbn [UserDatabase.historical_logins].
    rewrite !lookup_fmap, <- Hhl. unfold history_of in Hc.
    destruct (historical_logins a !! UserDatabase.str u) as [logins|];
      [|reflexivity].
    cbn [fmap option_fmap option_map default from_option id] in *.
    f_equal. apply map_ext_in. intros d Hd. rewrite (Hc d); [reflexivity|].
    apply list_elem_of_In, Hd. }
  unfold compare_with_current, UserDatabase.compare_with_current,
    UserDatabase.check_device, UserDatabase.check_location,
    UserDatabase.check_login_time.
  rewrite Hh, !snapshot_users.
  change (UserDatabase.trusted_devices (snapshot a)) with (trusted_devices a).
  change (UserDatabase.trusted_devices (snapshot b)) with (trusted_devices b).
  rewrite Htd.
  destruct (users a !! UserDatabase.str u) as [ra|] eqn:Ea,
           (users b !! UserDatabase.str u) as [rb|] eqn:Eb;
    cbn [fmap option_fmap option_map]; try reflexivity.
  - exfalso. destruct (proj1 Hu (mk_is_Some _ _ eq_refl)) as [x Hx]. discriminate.
  - exfalso. destruct (proj2 Hu (mk_is_Some _ _ eq_refl)) as [x Hx]. discriminate.
Qed.

(** *** Append only *)

Lemma add_login_record_appends self user_id d now :
  is_Some (users self !! UserDatabase.str user_id) ->
  let r := add_login_record self user_id d now in
  r.1 = true /\
  users r.2 = users self /\
  history_of r.2 user_id = history_of self user_id ++ [d] /\
  content r.2 d = stamped (content self d) now.
Proof.
  intros Hu r. subst r. unfold add_login_record, stamped, history_of.
  rewrite decide_True by exact Hu.
  destruct (content self d !! "timestamp") eqn:E;
    cbn [fst snd users historical_logins set_dict];
    rewrite lookup_insert_eq; cbn [default from_option id];
    (split; [reflexivity|]); (split; [reflexivity|]); (split; [reflexivity|]).
  - reflexivity.
  - change (content (set_dict self d
                       (<["timestamp" := UserDatabase.Str now]> (content self d)))
              d = <["timestamp" := UserDatabase.Str now]> (content self d)).
    rewrite content_set_dict, decide_True by reflexivity. reflexivity.
Qed.

(** X17: for a user the database holds, no later sequence of calls
    and caller's writes replaces the user's dict, removes one of the
    user's trusted devices, or removes or reorders a dict of the login
    history: both lists only grow at their end.
    [add_login_record] appends the very dict it is given, stamped in
    place with the current time when it has no timestamp.  A stamped
    dict that is no user's entry keeps what it holds as long as it is
    not registered as a user's entry and the caller does not write to
    it. *)
Theorem records_are_append_only self user_id :
  is_Some (users self !! UserDatabase.str user_id) ->
  (forall ops,
     let db := fold_left apply_operation ops self in
     users db !! UserDatabase.str user_id = users self !! UserDatabase.str user_id /\
     devices_of self user_id `prefix_of` devices_of db user_id /\
     history_of self user_id `prefix_of` history_of db user_id) /\
  (forall d now,
     let r := add_login_record self user_id d now in
     r.1 = true /\
     history_of r.2 user_id = history_of self user_id ++ [d] /\
     content r.2 d = stamped (content self d) now) /\
  (forall d ops,
     no_entry self d -> Forall (leaves d) ops ->
     is_Some (content self d !! "timestamp") ->
     content (fold_left apply_operation ops self) d = content self d).
Proof.
  intros Hu. split; [|split].
  - intros ops. apply fold_operations_grow, Hu.
  - intros d now r.
    destruct (add_login_record_appends self user_id d now Hu)
      as (Hr & _ & Hh & Hc).
    split; [exact Hr|]. split; [exact Hh|exact Hc].
  - intros d ops Hno Hall Ht. apply fold_operations_kept; assumption.
Qed.

Lemma records_are_append_only_witness :
  let user := 1%positive in
  let login := 2%positive in
  let db := run [Assign user "username" (UserDatabase.Str "angel_abubakar");
                 AddUser 1001 user;
                 AddTrustedDevice 1001 "Windows 11, Chrome 98.0.4758.102";
                 Assign login "location" (UserDatabase.Str "33.5102,36.29128")] in
  let r := add_login_record db 1001 login "2024-05-01T10:15:01" in
  let later := [AddUser 1002 user; UpdateUser 1002 login;
                AddLoginRecord 1002 login "2024-05-02T08:00:00"] in
  is_Some (users db !! UserDatabase.str 1001) /\
  r.1 = true /\
  history_of r.2 1001 = [login] /\
  content r.2 login !! "timestamp"
  = Some (UserDatabase.Str "2024-05-01T10:15:01") /\
  content (fold_left apply_operation later r.2) login = content r.2 login.
Proof.
  intros user login db r later.
  assert (Hu : is_Some (users db !! UserDatabase.str 1001))
    by (apply (bool_decide_unpack _); vm_compute; exact I).
  destruct (records_are_append_only db 1001 Hu) as (_ & Hadd & _).
  destruct (Hadd login "2024-05-01T10:15:01") as (Hr & Hh & Hc).
  assert (Hu1 : is_Some (users r.2 !! UserDatabase.str 1001))
    by (apply (bool_decide_unpack _); vm_compute; exact I).
  destruct (records_are_append_only r.2 1001 Hu1) as (_ & _ & Hkept).
  split; [exact Hu|]. split; [exact Hr|]. split; [exact Hh|].
  split; [reflexivity|].
  apply Hkept.
  - intros key Hkey.
    assert (F : map_Forall (fun _ d => d <> login) (users r.2))
      by (apply (bool_decide_unpack _); vm_compute; exact I).
    exact (F key _ Hkey eq_refl).
  - repeat constructor; cbn [leaves]; discriminate.
  - eexists. reflexivity.
Defined.

(** *** Other users *)

Lemma refresh_other key sample stored other :
  key <> other -> refresh key sample stored !! other = stored !! other.
Proof.
  intros Hne. unfold refresh. destruct sample; [|reflexivity].
  apply lookup_insert_ne, Hne.
Qed.

(** X19: an operation about one user, or a caller's write, leaves
    every other user as it finds it, provided it writes to none of the
    dicts the other user's entry is made of (the other user's own dict
    and the dicts of the other user's login history): the other user
    keeps the same dict, stored samples, trusted devices and history
    dicts, these dicts hold what they held, and
    [compare_with_current] returns for the other user what it
    returned. *)
Theorem operations_leave_other_users self op other :
  subject op <> Some other ->
  (forall d, d ∈ written self op -> d ∉ footprint self other) ->
  let db := apply_operation self op in
  users db !! UserDatabase.str other = users self !! UserDatabase.str other /\
  stored_face db !! UserDatabase.str other
  = stored_face self !! UserDatabase.str other /\
  stored_typing_pattern db !! UserDatabase.str other
  = stored_typing_pattern self !! UserDatabase.str other /\
  devices_of db other = devices_of self other /\
  history_of db other = history_of self other /\
  (forall d, d ∈ footprint self other -> content db d = content self d) /\
  (forall parse cur h,
     compare_with_current parse db other cur h
     = compare_with_current parse self other cur h).
Proof.
  intros Hsub Hsep db.
  assert (Hk : forall u, subject op = Some u ->
                         UserDatabase.str u <> UserDatabase.str other).
  { intros u Hu E. apply Hsub. rewrite Hu. f_equal.
    exact (pretty_Z_inj _ _ E). }
  assert (H5 : users db !! UserDatabase.str other
               = users self !! UserDatabase.str other /\
               stored_face db !! UserDatabase.str other
               = stored_face self !! UserDatabase.str other /\
               stored_typing_pattern db !! UserDatabase.str other
               = stored_typing_pattern self !! UserDatabase.str other /\
               trusted_devices db !! UserDatabase.str other
               = trusted_devices self !! UserDatabase.str other /\
               historical_logins db !! UserDatabase.str other
               = historical_logins self !! UserDatabase.str other).
  { subst db.
    destruct op as [u d|u d|u d now|u dev|d key v]; cbn [subject] in Hk;
      try specialize (Hk u eq_refl); open_operation;
      rewrite ?refresh_other by exact Hk;
      rewrite ?lookup_insert_ne by exact Hk; repeat split. }
  destruct H5 as (Hus & Hsf & Hst & Htd & Hhl).
  assert (Hc : forall d, d ∈ footprint self other -> content db d = content self d).
  { intros d Hd. apply content_kept. intros Hw. exact (Hsep d Hw Hd). }
  split; [exact Hus|]. split; [exact Hsf|]. split; [exact Hst|].
  split; [unfold devices_of; rewrite Htd; reflexivity|].
  split; [unfold history_of; rewrite Hhl; reflexivity|].
  split; [exact Hc|].
  intros parse cur h. apply compare_with_current_reads.
  - rewrite Hus. reflexivity.
  - exact Htd.
  - exact Hhl.
  - intros d Hd. apply Hc. unfold footprint. apply elem_of_app. right.
    unfold history_of in *. rewrite <- Hhl. exact Hd.
Qed.

Lemma operations_leave_other_users_witness :
  let first := 1%positive in
  let second := 2%positive in
  let login := 3%positive in
  let change := 4%positive in
  let db := run [Assign first "username" (UserDatabase.Str "angel_abubakar");
                 Assign second "username" (UserDatabase.Str "ahmad_ali");
                 Assign login "location" (UserDatabase.Str "33.5102,36.29128");
                 Assign change "email" (UserDatabase.Str "angel@example.com");
                 AddUser 1001 first; AddUser 1002 second;
                 AddLoginRecord 1002 login "2024-05-01T10:15:01"] in
  let op := UpdateUser 1001 change in
  let db' := apply_operation db op in
  content db' first !! "email" = Some (UserDatabase.Str "angel@example.com") /\
  content db' second = content db second /\
  content db' login = content db login /\
  history_of db' 1002 = [login].
Proof.
  intros first second login change db op db'.
  destruct (operations_leave_other_users db op 1002) as (_ & _ & _ & _ & Hh & Hc & _).
  - discriminate.
  - intros d Hw Hf. vm_compute in Hw. vm_compute in Hf.
    apply list_elem_of_singleton in Hw. subst d.
    apply elem_of_cons in Hf as [Hf|Hf]; [discriminate|].
    apply list_elem_of_singleton in Hf. discriminate.
  - split; [reflexivity|].
    split; [apply Hc; vm_compute; apply list_elem_of_here|].
    split; [apply Hc; vm_compute; apply list_elem_of_further, list_elem_of_here|].
    fold db' in Hh. rewrite Hh. reflexivity.
Defined.

(** One dict registered as the entry of two users: an update of
    the first is an update of the second. *)
Lemma shared_entry_updates_both_users :
  let entry := 1%positive in
  let change := 2%positive in
  let db := run [AddUser 1001 entry; AddUser 1002 entry;
                 Assign change "email" (UserDatabase.Str "angel@example.com");
                 UpdateUser 1001 change] in
  users db !! UserDatabase.str 1002 = Some entry /\
  content db entry !! "email" = Some (UserDatabase.Str "angel@example.com").
Proof. vm_compute. split; reflexivity. Qed.

(** *** Known locations *)

(** X21: once [add_login_record] has stored for a user a dict whose
    location is a given string, a login context from exactly that
    location never gets the tag [Unusual location], whatever calls and
    caller's writes follow, provided the dict is no user's entry and
    is neither registered as one nor written to by the caller
    afterwards. *)
Theorem known_location_is_recognized parse self user_id d now loc ops cur h :
  is_Some (users self !! UserDatabase.str user_id) ->
  content self d !! "location" = Some (UserDatabase.Str loc) ->
  no_entry self d ->
  Forall (leaves d) ops ->
  UserDatabase.cd_location cur = Some loc ->
  let db := fold_left apply_operation ops (add_login_record self user_id d now).2 in
  "Unusual location"
    ∉ UserDatabase.anomalies (compare_with_current parse db user_id cur h).
Proof.
  intros Hu Hloc Hno Hall Hcur db.
  destruct (add_login_record_appends self user_id d now Hu)
    as (_ & Hus & Hh & Hc).
  set (db1 := (add_login_record self user_id d now).2) in *.
  assert (Hu1 : is_Some (users db1 !! UserDatabase.str user_id))
    by (rewrite Hus; exact Hu).
  assert (Hno1 : no_entry db1 d) by (intros key; rewrite Hus; apply Hno).
  assert (Ht1 : is_Some (content db1 d !! "timestamp")).
  { rewrite Hc. unfold stamped.
    destruct (content self d !! "timestamp") eqn:E.
    - rewrite E. eexists. reflexivity.
    - rewrite lookup_insert_eq. eexists. reflexivity. }
  assert (Hloc1 : content db1 d !! "location" = Some (UserDatabase.Str loc)).
  { rewrite Hc. unfold stamped.
    destruct (content self d !! "timestamp"); [exact Hloc|].
    rewrite lookup_insert_ne by discriminate. exact Hloc. }
  destruct (fold_operations_kept ops db1 d Hno1 Hall Ht1) as [Hkept _].
  destruct (fold_operations_grow ops db1 user_id Hu1) as (Hu2 & _ & [k Hk]).
  fold db in Hkept, Hu2, Hk.
  assert (Hin : d ∈ history_of db user_id).
  { rewrite Hk, Hh. apply elem_of_app. left. apply elem_of_app. right.
    apply list_elem_of_singleton. reflexivity. }
  assert (Hsnap : is_Some (UserDatabase.users (snapshot db)
                             !! UserDatabase.str user_id)).
  { rewrite snapshot_users, Hu2. destruct Hu1 as [x ->]. eexists. reflexivity. }
  unfold compare_with_current.
  rewrite (UserDatabaseFacts.unusual_location_tag_iff parse (snapshot db)
             user_id cur h Hsnap).
  rewrite UserDatabaseFacts.location_unusual_iff.
  intros (loc' & Hcur' & _ & Hnone).
  rewrite Hcur in Hcur'. injection Hcur' as <-.
  apply (Hnone (as_login_record (content db d))).
  - rewrite snapshot_history. apply list_elem_of_In.
    apply (in_map (fun d' => as_login_record (content db d'))).
    apply list_elem_of_In, Hin.
  - unfold as_login_record. cbn [UserDatabase.lr_location].
    rewrite Hkept, Hloc1. reflexivity.
Qed.

(** A dict shared between a login history and a user's entry: user
    1001 logs in from ["A"] with a dict that is then registered as
    user 1002 and updated; the stored login of user 1001 now says
    ["B"], and a login of user 1001 from ["A"] is an unusual
    location. *)
Lemma shared_dict_rewrites_history :
  let user := 1%positive in
  let login := 2%positive in
  let change := 3%positive in
  let db := run [AddUser 1001 user;
                 Assign login "location" (UserDatabase.Str "A");
                 AddLoginRecord 1001 login "2024-05-01T10:15:01";
                 AddUser 1002 login;
                 Assign change "location" (UserDatabase.Str "B");
                 UpdateUser 1002 change] in
  let cur := {| UserDatabase.cd_device_info := None;
                UserDatabase.cd_location := Some "A" |} in
  content db login !! "location" = Some (UserDatabase.Str "B") /\
  UserDatabase.anomalies
    (compare_with_current UserDatabase.iso_hour db 1001 cur 10)
  = ["Unusual location"; "Unusual login time"].
Proof. vm_compute. split; reflexivity. Qed.

Lemma known_location_is_recognized_witness :
  let user := 1%positive in
  let login := 2%positive in
  let change := 3%positive in
  let db := run [AddUser 1001 user;
                 Assign login "location" (UserDatabase.Str "A");
                 Assign change "location" (UserDatabase.Str "B")] in
  let later := [AddUser 1002 change; UpdateUser 1002 change;
                UpdateUser 1001 change] in
  let cur := {| UserDatabase.cd_device_info := None;
                UserDatabase.cd_location := Some "A" |} in
  "Unusual location"
    ∉ UserDatabase.anomalies
        (compare_with_current UserDatabase.iso_hour
           (fold_left apply_operation later
              (add_login_record db 1001 login "2024-05-01T10:15:01").2)
           1001 cur 10).
Proof.
  intros user login change db later cur.
  apply (known_location_is_recognized UserDatabase.iso_hour db 1001 login
           "2024-05-01T10:15:01" "A" later cur 10).
  - apply (bool_decide_unpack _). vm_compute. exact I.
  - reflexivity.
  - intros key Hkey.
    assert (F : map_Forall (fun _ d => d <> login) (users db))
      by (apply (bool_decide_unpack _); vm_compute; exact I).
    exact (F key _ Hkey eq_refl).
  - repeat constructor; cbn [leaves]; discriminate.
  - reflexivity.
Defined.

End UserStoreFacts.

(** ** The verifications *)

Module VerificationFacts.
Import Verification.

Lemma perform_counts self c :
  (perform self c).2 = count self (perform self c).1.1.
Proof. destruct c; reflexivity. Qed.

Lemma count_adds_up self n result :
  counters_add_up self n -> counters_add_up (count self result) (S n).
Proof.
  unfold counters_add_up. intros (Ha & Hs & H1 & H2).
  destruct result; cbn [count verification_attempts successful_verifications
                          flagged_attempts]; repeat split; lia.
Qed.

Lemma fold_perform_adds_up calls : forall self n,
  counters_add_up self n ->
  counters_add_up (fold_left (fun s c => (perform s c).2) calls self)
    (n + length calls).
Proof.
  induction calls as [|c calls IH]; intros self n H; cbn [fold_left length].
  - rewrite Nat.add_0_r. exact H.
  - rewrite Nat.add_succ_r. apply (IH _ (S n)).
    rewrite perform_counts. apply count_adds_up, H.
Qed.

(** X10: after any sequence of verifications on a fresh engine, the
    attempts counter is the number of calls, every attempt is counted
    as successful or as flagged and never as both, and the success
    rate of the statistics lies between 0 and 1: it is 0 when nothing
    was verified and when no verification succeeded, and 1 when every
    verification succeeded. *)
Theorem verification_counters_add_up calls :
  let s := run calls in
  let stats := get_verification_stats s in
  total_attempts stats = Z.of_nat (length calls) /\
  (vs_successful_verifications stats + vs_flagged_attempts stats
   = total_attempts stats)%Z /\
  (0 <= vs_successful_verifications stats)%Z /\
  (0 <= vs_flagged_attempts stats)%Z /\
  (0 <= success_rate stats /\ success_rate stats <= 1)%Q /\
  (total_attempts stats = 0%Z -> success_rate stats = 0%Q) /\
  (vs_successful_verifications stats = 0%Z -> (success_rate stats == 0)%Q) /\
  ((0 < total_attempts stats)%Z ->
   vs_flagged_attempts stats = 0%Z -> (success_rate stats == 1)%Q).
Proof.
  intros s stats. subst stats.
  assert (H : counters_add_up s (length calls)).
  { apply (fold_perform_adds_up calls init 0). repeat split; reflexivity || lia. }
  destruct H as (Ha & Hs & H1 & H2).
  unfold get_verification_stats.
  cbn [total_attempts vs_successful_verifications vs_flagged_attempts success_rate].
  split; [exact Ha|]. split; [exact Hs|]. split; [exact H1|]. split; [exact H2|].
  destruct (0 <? verification_attempts s)%Z eqn:E.
  - apply Z.ltb_lt in E.
    assert (Hpos : (0 < inject_Z (verification_attempts s))%Q)
      by (rewrite <- (Zlt_Qlt 0); exact E).
    assert (Hne : ~ (inject_Z (verification_attempts s) == 0)%Q)
      by (intros Hz; rewrite Hz in Hpos; exact (Qlt_irrefl _ Hpos)).
    split; [split|split; [|split]].
    + apply Qle_shift_div_l; [exact Hpos|]. rewrite Qmult_0_l.
      rewrite <- (Zle_Qle 0). exact H1.
    + apply Qle_shift_div_r; [exact Hpos|]. rewrite Qmult_1_l.
      rewrite <- Zle_Qle. lia.
    + intros Hz. lia.
    + intros Hz. rewrite Hz. field. exact Hne.
    + intros _ Hz.
      assert (Heq : successful_verifications s = verification_attempts s) by lia.
      rewrite Heq. field. exact Hne.
  - apply Z.ltb_ge in E.
    split; [split; [apply Qle_refl|unfold Qle; cbn; lia]|].
    split; [reflexivity|]. split; [reflexivity|]. intros Hpos. lia.
Qed.

Lemma verification_counters_add_up_witness :
  let verified := [VerifyFace "face" "stored" 0.9; AnalyzeTyping "keys" "stored" 0.8] in
  success_rate (get_verification_stats (run [])) = 0%Q /\
  (success_rate (get_verification_stats (run [VerifyFace "face" "stored" 0.75]))
   == 0)%Q /\
  (success_rate (get_verification_stats (run verified)) == 1)%Q.
Proof.
  intros verified.
  destruct (verification_counters_add_up []) as (_ & _ & _ & _ & _ & H0 & _).
  destruct (verification_counters_add_up [VerifyFace "face" "stored" 0.75])
    as (_ & _ & _ & _ & _ & _ & Hnone & _).
  destruct (verification_counters_add_up verified)
    as (_ & _ & _ & _ & _ & _ & _ & Hall).
  split; [apply H0; reflexivity|].
  split; [apply Hnone; reflexivity|].
  apply Hall; [vm_compute|]; reflexivity.
Defined.

(** *** Device trust *)

(** X11: [verify_device] passes a device with risk 0.2, whatever is
    drawn, as soon as its description occurs inside one of the trusted
    descriptions: a trusted description itself always passes, and so
    does the empty description when the list is not empty.  When it
    occurs in none of them, in particular for an empty list, the risk
    is the value drawn and the device passes exactly when that value
    is below 0.5. *)
Theorem verify_device_trusts_substrings self device_info trusted drawn :
  let r := (verify_device self device_info trusted drawn).1 in
  ((exists t, t ∈ trusted /\ UserDatabase.contains device_info t = true) ->
     r = (true, 0.2%Q)) /\
  (device_info ∈ trusted -> r = (true, 0.2%Q)) /\
  (device_info = "" -> trusted <> [] -> r = (true, 0.2%Q)) /\
  ((forall t, t ∈ trusted -> UserDatabase.contains device_info t = false) ->
     r = (Qlt_bool drawn 0.5, drawn)) /\
  (trusted = [] -> r = (Qlt_bool drawn 0.5, drawn)).
Proof.
  intros r. subst r. unfold verify_device. cbn [fst].
  assert (Hyes : (exists t, t ∈ trusted /\ UserDatabase.contains device_info t = true) ->
                 existsb (UserDatabase.contains device_info) trusted = true).
  { intros (t & Hin & Hc). apply existsb_exists. exists t.
    split; [apply list_elem_of_In, Hin|exact Hc]. }
  assert (Hno : (forall t, t ∈ trusted -> UserDatabase.contains device_info t = false) ->
                existsb (UserDatabase.contains device_info) trusted = false).
  { intros Hall. destruct (existsb _ trusted) eqn:E; [|reflexivity].
    apply existsb_exists in E as (t & Hin & Hc). apply list_elem_of_In in Hin.
    rewrite (Hall t Hin) in Hc. discriminate. }
  split; [intros H; rewrite (Hyes H); reflexivity|].
  split.
  { intros Hin. rewrite Hyes; [reflexivity|].
    exists device_info. split; [exact Hin|apply UserDatabaseFacts.contains_refl]. }
  split.
  { intros -> Hne. rewrite Hyes; [reflexivity|].
    destruct trusted as [|t rest]; [contradiction|].
    exists t. split; [apply list_elem_of_here|apply UserDatabaseFacts.contains_empty]. }
  split; [intros H; rewrite (Hno H); reflexivity|].
  intros ->. reflexivity.
Qed.

Lemma verify_device_trusts_substrings_witness :
  let trusted := ["Windows 11, Chrome 98.0.4758.102"] in
  let r1 := (verify_device init "Chrome 98" trusted 0.7%Q).1 in
  let r2 := (verify_device init "Unknown Device" trusted 0.45%Q).1 in
  (exists t, t ∈ trusted /\ UserDatabase.contains "Chrome 98" t = true) /\
  r1 = (true, 0.2%Q) /\
  (forall t, t ∈ trusted -> UserDatabase.contains "Unknown Device" t = false) /\
  r2 = (true, 0.45%Q).
Proof.
  intros trusted r1 r2.
  assert (H1 : exists t, t ∈ trusted /\ UserDatabase.contains "Chrome 98" t = true).
  { exists "Windows 11, Chrome 98.0.4758.102". split;
      [apply list_elem_of_here|reflexivity]. }
  assert (H2 : forall t, t ∈ trusted ->
                         UserDatabase.contains "Unknown Device" t = false).
  { intros t Ht. apply list_elem_of_singleton in Ht. subst t. reflexivity. }
  split; [exact H1|]. split.
  - exact (proj1 (verify_device_trusts_substrings init "Chrome 98" trusted 0.7%Q) H1).
  - split; [exact H2|].
    exact (proj1 (proj2 (proj2 (proj2
             (verify_device_trusts_substrings init "Unknown Device" trusted 0.45%Q))))
             H2).
Defined.

(** *** The risk of a verified login *)

Lemma predict_risk_level_at_most vr bound :
  (0 < AIEngine.total_weight_of vr)%Q ->
  (AIEngine.total_risk_of vr <= bound * AIEngine.total_weight_of vr)%Q ->
  (AIEngine.predict_risk_level vr <= bound)%Q.
Proof.
  intros Hpos Hle.
  destruct (AIEngineFacts.predict_risk_level_sums vr) as [[Hz _]|[_ Hp]].
  - exfalso. rewrite Hz in Hpos. exact (Qlt_irrefl _ Hpos).
  - rewrite Hp. apply Qle_shift_div_r; assumption.
Qed.

(** The dict the block builds. *)
Lemma verify_login_results self login_input profile d :
  (verify_login self login_input profile d).1
  = (let vr := entry "face" (face_result login_input profile d)
               ++ entry "typing" (typing_result login_input profile d)
               ++ entry "location" (location_result login_input profile d)
               ++ entry "device" (device_result login_input profile d) in
     (vr, AIEngine.predict_risk_level vr)).
Proof.
  unfold verify_login, face_result, typing_result, location_result,
    device_result, verify_face, analyze_typing, verify_location, verify_device.
  destruct (Authentication.face_data login_input), (stored_face profile),
    (Authentication.typing_pattern login_input), (stored_typing_pattern profile),
    (Authentication.location login_input), (historical_logins profile),
    (Authentication.device_info login_input), (trusted_devices profile);
    reflexivity.
Qed.

(** The sums of the loop on a dict that holds face and typing and,
    possibly, location and device. *)
Lemma login_sums b1 c b2 t (loc dev : option (bool * Q)) :
  let vr := entry "face" (Some (b1, c)) ++ entry "typing" (Some (b2, t))
            ++ entry "location" loc ++ entry "device" dev in
  (AIEngine.total_risk_of vr
   == (1 - c) * 0.35 + (1 - t) * 0.25
      + match loc with Some r => r.2 * 0.2 | None => 0 end
      + match dev with Some r => r.2 * 0.2 | None => 0 end)%Q /\
  (AIEngine.total_weight_of vr
   == 0.35 + 0.25
      + match loc with Some _ => 0.2 | None => 0 end
      + match dev with Some _ => 0.2 | None => 0 end)%Q.
Proof.
  assert (Kf : AIEngine.key_factor "face" = Some AIEngine.Face) by reflexivity.
  assert (Kt : AIEngine.key_factor "typing" = Some AIEngine.Typing) by reflexivity.
  assert (Kl : AIEngine.key_factor "location" = Some AIEngine.Location)
    by reflexivity.
  assert (Kd : AIEngine.key_factor "device" = Some AIEngine.Device) by reflexivity.
  unfold AIEngine.total_risk_of, AIEngine.total_weight_of, entry.
  destruct loc as [[bl l]|], dev as [[bd d]|]; cbn [app map];
    rewrite !AIEngineFacts.Qsum_cons, AIEngineFacts.Qsum_nil;
    unfold AIEngine.item_risk, AIEngine.item_weight; cbn [fst snd];
    rewrite ?Kf, ?Kt, ?Kl, ?Kd;
    cbn [AIEngine.factor_risk AIEngine.factor_weight]; split; ring.
Qed.

(** X12: with draws in the ranges of the four checks, a login whose
    face and typing samples are both verified gets an aggregated risk
    below 0.5, whether or not location and device are verified too;
    [simulate_login] then never asks for additional verification: the
    login succeeds when [authenticate] succeeded and is denied
    otherwise.  On binary64 the risk at the riskiest draws is below
    0.5 as well.  A login for which nothing can be verified gets risk
    0.9 and is denied. *)
Theorem verified_login_risk_below_half self login_input profile d auth_result :
  let risk := (verify_login self login_input profile d).1.2 in
  (in_ranges d ->
   is_Some (Authentication.face_data login_input) ->
   is_Some (stored_face profile) ->
   is_Some (Authentication.typing_pattern login_input) ->
   is_Some (stored_typing_pattern profile) ->
   (risk < 0.5)%Q /\
   Authentication.simulate_login_outcome auth_result risk
   = if auth_result then Authentication.LoginSuccessful
     else Authentication.LoginDenied) /\
  (forall with_location with_device,
     PrimFloat.ltb
       (AIEngine.predict_risk_level_binary64
          (riskiest_results_binary64 with_location with_device)) 0.5
     = true) /\
  (stored_face profile = None -> stored_typing_pattern profile = None ->
   historical_logins profile = None -> trusted_devices profile = None ->
   risk = 0.9%Q /\
   Authentication.simulate_login_outcome auth_result risk
   = Authentication.LoginDenied).
Proof.
  intros risk. subst risk. rewrite verify_login_results. cbn [fst snd].
  split; [|split; [intros [|] [|]; vm_compute; reflexivity|]].
  - intros (Hf & Ht & Hl & Hd) [fd Hfd] [sf Hsf] [tp Htp] [sp Hsp].
    set (loc := location_result login_input profile d).
    set (dev := device_result login_input profile d).
    assert (Hlb : match loc with
                  | Some r => (0.1 <= r.2 /\ r.2 <= 0.6)%Q
                  | None => True end).
    { subst loc. unfold location_result.
      destruct (Authentication.location login_input),
        (historical_logins profile); cbn; auto. }
    assert (Hdb : match dev with
                  | Some r => (0.2 <= r.2 /\ r.2 <= 0.8)%Q
                  | None => True end).
    { subst dev. unfold device_result.
      destruct (Authentication.device_info login_input),
        (trusted_devices profile); cbn; auto.
      destruct (existsb _ _); lra. }
    unfold face_result, typing_result. rewrite Hfd, Hsf, Htp, Hsp.
    destruct (login_sums (Qlt_bool 0.8 (drawn_face d)) (drawn_face d)
                (Qlt_bool 0.75 (drawn_typing d)) (drawn_typing d) loc dev)
      as [Hr Hw].
    match goal with |- (AIEngine.predict_risk_level ?vr < _)%Q /\ _ =>
      assert (Hrisk : (AIEngine.predict_risk_level vr <= 0.4725)%Q)
    end.
    { apply predict_risk_level_at_most; rewrite ?Hr, Hw;
        destruct loc as [[bl l]|], dev as [[bd dv]|]; cbn [snd] in *; lra. }
    split; [lra|].
    unfold Authentication.simulate_login_outcome.
    match goal with |- context [Qlt_bool ?r 0.5] =>
      assert (Hlt : Qlt_bool r 0.5 = true) by (apply Qlt_bool_iff; lra)
    end.
    rewrite Hlt. destruct auth_result; reflexivity.
  - intros Hsf Hsp Hhl Htd.
    unfold face_result, typing_result, location_result, device_result.
    rewrite Hsf, Hsp, Hhl, Htd.
    destruct (Authentication.face_data login_input),
      (Authentication.typing_pattern login_input),
      (Authentication.location login_input),
      (Authentication.device_info login_input);
      (split; [reflexivity|destruct auth_result; reflexivity]).
Qed.

Lemma verified_login_risk_below_half_witness :
  let login_input :=
    {| Authentication.device_info := Some "Unknown Device";
       Authentication.location := Some "1.2921,36.8219";
       Authentication.face_data := Some "base64_encoded_face_image";
       Authentication.typing_pattern := Some "keystroke_timing_data" |} in
  let profile :=
    {| stored_face := Some "base64_encoded_face_data_for_angel";
       stored_typing_pattern := Some "angel_typing_pattern_data";
       historical_logins := Some [];
       trusted_devices := Some ["Windows 11, Chrome 98.0.4758.102"] |} in
  let d := {| drawn_face := 0.7; drawn_typing := 0.65;
              drawn_location := 0.6; drawn_device := 0.8 |} in
  let risk := (verify_login init login_input profile d).1.2 in
  in_ranges d /\
  (risk < 0.5)%Q /\
  Authentication.simulate_login_outcome true risk = Authentication.LoginSuccessful.
Proof.
  intros login_input profile d risk.
  assert (Hd : in_ranges d)
    by (repeat split; unfold Qle; cbn; lia).
  split; [exact Hd|].
  exact (proj1 (verified_login_risk_below_half init login_input profile d true)
           Hd (mk_is_Some _ _ eq_refl) (mk_is_Some _ _ eq_refl)
           (mk_is_Some _ _ eq_refl) (mk_is_Some _ _ eq_refl)).
Defined.

End VerificationFacts.

(** ** Transfers *)

Module TransfersFacts.
Import Transfers.

Lemma detail_balance db user_id detail :
  UserDatabase.get_user_detail db user_id = Some detail ->
  balance detail = balance_of db user_id.
Proof.
  unfold UserDatabase.get_user_detail, balance, balance_of.
  destruct (UserDatabase.users db !! UserDatabase.str user_id) as [user|];
    [|discriminate].
  intros [= <-].
  assert (Hb : forall (m : gmap string UserDatabase.detail_value) k v,
             k <> "balance" -> <[k := v]> m !! "balance" = m !! "balance")
    by (intros m k v Hk; apply lookup_insert_ne, Hk).
  destruct (UserDatabase.historical_logins db !! _);
    [rewrite Hb by discriminate|];
    (destruct (UserDatabase.trusted_devices db !! _);
       [rewrite Hb by discriminate|]);
    (destruct (UserDatabase.stored_typing_pattern db !! _);
       [rewrite Hb by discriminate|]);
    (destruct (UserDatabase.stored_face db !! _);
       [rewrite Hb by discriminate|]);
    rewrite lookup_fmap; destruct (user !! "balance"); reflexivity.
Qed.



Lemma detail_username db user_id :
  named db user_id ->
  exists detail v,
    UserDatabase.get_user_detail db user_id = Some detail
    /\ detail !! "username" = Some v.
Proof.
  intros (user & Hu & [v Hv]).
  unfold UserDatabase.get_user_detail. rewrite Hu.
  assert (Hb : forall (m : gmap string UserDatabase.detail_value) k w,
             k <> "username" -> <[k := w]> m !! "username" = m !! "username")
    by (intros m k w Hk; apply lookup_insert_ne, Hk).
  eexists; exists (UserDatabase.Plain v); split; [reflexivity|].
  destruct (UserDatabase.historical_logins db !! _);
    [rewrite Hb by discriminate|];
    (destruct (UserDatabase.trusted_devices db !! _);
       [rewrite Hb by discriminate|]);
    (destruct (UserDatabase.stored_typing_pattern db !! _);
       [rewrite Hb by discriminate|]);
    (destruct (UserDatabase.stored_face db !! _);
       [rewrite Hb by discriminate|]);
    rewrite lookup_fmap, Hv; reflexivity.
Qed.

Lemma named_not_falsy detail v :
  detail !! "username" = Some v -> falsy (Some detail) = false.
Proof.
  intros Hv. cbn. apply bool_decide_eq_false_2. intros ->.
  rewrite lookup_empty in Hv. discriminate.
Qed.

Lemma transfer_flagged (description : string) s r a e :
  (ProactiveDefense.detect_threat
     (ProactiveDefense.init (defense_created_at e))
     (transaction_event
        (Transaction.new (fresh_id e) s r a description (created_at e)))
     (detection e)).1.1
  = flagged a e.
Proof.
  rewrite ProactiveDefenseFacts.detect_threat_detected.
  unfold ProactiveDefense.any_rule_fires, flagged. cbn.
  rewrite orb_false_r. reflexivity.
Qed.


(** X25: for two stored users with names and numeric balances,
    [transfer] returns [True] exactly when the amount is within the
    sender's balance and the transfer is either not flagged (amount
    above 10000 with a draw below 0.3) or confirmed with y; the risk
    score of at most 0.3 never asks for confirmation by itself.
    Otherwise it returns [False] with the transaction failed and the
    database as it was. *)
Theorem transfer_decision render db s r a e bs br :
  named db s -> named db r ->
  balance_of db s = Some bs -> balance_of db r = Some br ->
  let went := negb (Qlt_bool bs a) && (negb (flagged a e) || confirmed e) in
  exists db' t,
    transfer render db s r a e = Returned went db' (Some t) /\
    Transaction.status t
    = (if went then Transaction.STATUS_COMPLETED
       else Transaction.STATUS_FAILED) /\
    (went = false -> db' = db).
Proof.
  intros Hs Hr Hbs Hbr went. subst went.
  destruct (detail_username _ _ Hs) as (sender & vs & Hds & Hvs).
  destruct (detail_username _ _ Hr) as (receiver & vr & Hdr & Hvr).
  unfold transfer. rewrite Hds, Hdr.
  rewrite (named_not_falsy _ _ Hvs), (named_not_falsy _ _ Hvr).
  cbn [orb]. rewrite Hvs, Hvr.
  rewrite (detail_balance _ _ _ Hds), (detail_balance _ _ _ Hdr), Hbs, Hbr.
  rewrite transfer_flagged.
  cbn [Transaction.amount Transaction.new].
  destruct (Qlt_bool bs a).
  { do 2 eexists. repeat split; reflexivity. }
  assert (Hrisk : Qlt_bool 0.7 (if Qlt_bool 5000 a then (0.0 + 0.3)%Q else 0.0%Q)
                  = false) by (destruct (Qlt_bool 5000 a); reflexivity).
  rewrite Hrisk. cbn [orb negb andb]. fold (confirmed e).
  destruct (flagged a e); cbn [andb orb negb].
  - destruct (confirmed e); cbn [negb];
      do 2 eexists; repeat split; try reflexivity; discriminate.
  - do 2 eexists; repeat split; try reflexivity; discriminate.
Qed.


Lemma transfer_decision_witness :
  let render := fun v => match v with
                         | UserDatabase.Plain (UserDatabase.Str name) => name
                         | _ => "?"
                         end in
  let db :=
    (UserDatabase.add_user
       (UserDatabase.add_user UserDatabase.empty 1001
          (<["username" := UserDatabase.Str "angel_abubakar"]>
             {["balance" := UserDatabase.Num 50000]})).2
       1002
       (<["username" := UserDatabase.Str "ahmad_ali"]>
          {["balance" := UserDatabase.Num 7500]})).2 in
  let e := {| fresh_id := "t-1"; created_at := "2025-01-01T10:00:00";
              defense_created_at := "2025-01-01T10:00:00";
              detection := {| ProactiveDefense.rnd := 0.1;
                              ProactiveDefense.now_threat := "2025-01-01T10:00:01";
                              ProactiveDefense.now_alert := "2025-01-01T10:00:01" |};
              confirmation := "n";
              transition_at := "2025-01-01T10:00:02";
              current_hour := 10 |} in
  exists t,
    transfer render db 1001 1002 20000 e = Returned false db (Some t) /\
    Transaction.status t = Transaction.STATUS_FAILED.
Proof.
  intros render db e.
  assert (Hs : named db 1001).
  { eexists. split; [vm_compute; reflexivity|]. eexists. vm_compute. reflexivity. }
  assert (Hr : named db 1002).
  { eexists. split; [vm_compute; reflexivity|]. eexists. vm_compute. reflexivity. }
  destruct (transfer_decision render db 1001 1002 20000 e 50000 7500 Hs Hr
              eq_refl eq_refl) as (db' & t & H & Hst & Hdb).
  exists t. rewrite H. rewrite (Hdb eq_refl). split; [reflexivity|exact Hst].
Defined.

(** Reading the floats as rationals changes no comparison
    [simulate_transaction] makes on the risk score. *)
Lemma transaction_risk_binary64_agrees t is_legitimate hour :
  let q := transaction_risk t is_legitimate hour in
  let f := transaction_risk_binary64
             (Qlt_bool suspicious_transaction_threshold (Transaction.amount t))
             (negb is_legitimate)
             ((1 <=? hour)%Z && (hour <=? 4)%Z) in
  PrimFloat.ltb 0.7 f = Qlt_bool 0.7 q /\
  PrimFloat.ltb 0.8 f = Qlt_bool 0.8 q /\
  PrimFloat.ltb 0.4 f = Qlt_bool 0.4 q /\
  PrimFloat.leb f 0.7 = Qle_bool q 0.7.
Proof.
  unfold transaction_risk.
  destruct (Qlt_bool suspicious_transaction_threshold (Transaction.amount t)),
    is_legitimate, ((1 <=? hour)%Z && (hour <=? 4)%Z);
    vm_compute; repeat split.
Qed.

Lemma transaction_risk_at_most t is_legitimate hour :
  (0 <= transaction_risk t is_legitimate hour <= 0.7)%Q /\
  Qlt_bool 0.7 (transaction_risk t is_legitimate hour) = false /\
  Qlt_bool 0.8 (transaction_risk t is_legitimate hour) = false.
Proof.
  unfold transaction_risk.
  destruct (Qlt_bool suspicious_transaction_threshold (Transaction.amount t)),
    is_legitimate, ((1 <=? hour)%Z && (hour <=? 4)%Z);
    cbn [negb]; (split; [split; vm_compute; discriminate|split; reflexivity]).
Qed.

(** X26: for two stored users with names and a numeric sender
    balance, [simulate_transaction] ends with the transaction failed
    when the amount (50000 for a suspicious run) exceeds the sender's
    balance, under review when the transaction rule of the defense
    system fires, and completed otherwise.  The accumulated risk score
    is at most 0.7, so it never sends the transaction to review by
    itself and the security team is never alerted. *)
Theorem simulate_transaction_outcome render db s r (a : Q) (legit : bool) e bs :
  named db s -> named db r -> balance_of db s = Some bs ->
  let amt := if legit then a else 50000.0%Q in
  exists t,
    simulate_transaction render db s r a legit e = Finished t false /\
    Transaction.amount t = amt /\
    Transaction.status t
    = (if Qlt_bool bs amt then Transaction.STATUS_FAILED
       else if flagged amt e then Transaction.STATUS_UNDER_REVIEW
       else Transaction.STATUS_COMPLETED) /\
    (0 <= Transaction.risk_score t <= 0.7)%Q.
Proof.
  intros Hs Hr Hbs amt.
  destruct (detail_username _ _ Hs) as (sender & vs & Hds & Hvs).
  destruct (detail_username _ _ Hr) as (receiver & vr & Hdr & Hvr).
  unfold simulate_transaction. rewrite Hds, Hdr.
  rewrite (named_not_falsy _ _ Hvs), (named_not_falsy _ _ Hvr).
  cbn [orb]. rewrite Hvs, Hvr.
  rewrite (detail_balance _ _ _ Hds), Hbs.
  set (t0 := Transaction.new _ _ _ _ _ _).
  set (t := if negb legit then set_amount t0 50000.0%Q else t0).
  assert (Ha : Transaction.amount t = amt) by (subst t amt; destruct legit; reflexivity).
  assert (Hp : Transaction.status t = Transaction.STATUS_PENDING)
    by (subst t; destruct legit; reflexivity).
  assert (Hz : Transaction.risk_score t = 0.0%Q)
    by (subst t; destruct legit; reflexivity).
  assert (Hzero : (0 <= 0.0 <= 0.7)%Q) by (split; vm_compute; discriminate).
  rewrite Ha.
  destruct (Qlt_bool bs amt).
  { eexists. split; [reflexivity|].
    unfold Transaction.fail.
    rewrite decide_True by (rewrite Hp; discriminate).
    cbn. rewrite Ha, Hz. repeat split; apply Hzero. }
  destruct (transaction_risk_at_most t legit (current_hour e)) as (Hle & H7 & H8).
  rewrite H7, H8. cbn [orb].
  rewrite ProactiveDefenseFacts.detect_threat_detected.
  assert (Hf : ProactiveDefense.any_rule_fires
                 (ProactiveDefense.init (defense_created_at e))
                 (transaction_event t) (detection e) = flagged amt e).
  { unfold ProactiveDefense.any_rule_fires, flagged. cbn. rewrite Ha.
    rewrite orb_false_r. reflexivity. }
  rewrite Hf.
  destruct (flagged amt e).
  - eexists. split; [reflexivity|].
    unfold Transaction.flag_for_review. rewrite decide_True by exact Hp.
    cbn. rewrite Ha. repeat split; apply Hle.
  - assert (Hc : Transaction.complete t (transition_at e)
                 = (true, Transaction.set_metadata
                            (Transaction.set_status t Transaction.STATUS_COMPLETED)
                            "completed_at" (Transaction.MStr (transition_at e)))).
    { unfold Transaction.complete. rewrite decide_True by exact Hp. reflexivity. }
    rewrite Hc.
    destruct (Qlt_bool 0.4 _ && Qle_bool _ 0.7);
      (eexists; split; [reflexivity|]; cbn; rewrite Ha, Hz;
       repeat split; apply Hzero).
Qed.

Lemma simulate_transaction_outcome_witness :
  let render := fun v => match v with
                         | UserDatabase.Plain (UserDatabase.Str name) => name
                         | _ => "?"
                         end in
  let db :=
    (UserDatabase.add_user
       (UserDatabase.add_user UserDatabase.empty 1001
          (<["username" := UserDatabase.Str "angel_abubakar"]>
             {["balance" := UserDatabase.Num 5000]})).2
       1002
       (<["username" := UserDatabase.Str "ahmad_ali"]>
          {["balance" := UserDatabase.Num 7500]})).2 in
  let e := {| fresh_id := "t-1"; created_at := "2025-01-01T03:00:00";
              defense_created_at := "2025-01-01T03:00:00";
              detection := {| ProactiveDefense.rnd := 0.1;
                              ProactiveDefense.now_threat := "2025-01-01T03:00:01";
                              ProactiveDefense.now_alert := "2025-01-01T03:00:01" |};
              confirmation := "";
              transition_at := "2025-01-01T03:00:02";
              current_hour := 3 |} in
  exists t,
    simulate_transaction render db 1001 1002 500 false e = Finished t false /\
    Transaction.amount t = 50000.0%Q /\
    Transaction.status t = Transaction.STATUS_FAILED.
Proof.
  intros render db e.
  assert (Hs : named db 1001).
  { eexists. split; [vm_compute; reflexivity|]. eexists. vm_compute. reflexivity. }
  assert (Hr : named db 1002).
  { eexists. split; [vm_compute; reflexivity|]. eexists. vm_compute. reflexivity. }
  destruct (simulate_transaction_outcome render db 1001 1002 500 false e 5000
              Hs Hr eq_refl) as (t & H & Ha & Hst & _).
  exists t. split; [exact H|]. split; [exact Ha|exact Hst].
Defined.

End TransfersFacts.

(** ** The login command *)

Module LoginFacts.
Import Login.

(** The sample that [collect_input] supplies always passes
    [authenticate]: only the hour can add a penalty. *)
Lemma collected_input_authenticates now0 :
  (Authentication.authenticate (Authentication.init now0) collect_input).1.1
  = true.
Proof.
  rewrite AuthenticationFacts.authenticate_success.
  unfold Authentication.evaluate_risk. cbn.
  destruct ((2 <=? Authentication.hour now0)%Z
            && (Authentication.hour now0 <=? 5)%Z); reflexivity.
Qed.

(** The sums of the loop on the dict of the command. *)
Lemma command_sums (f t : option (bool * Q)) :
  let vr := Verification.entry "face" f ++ Verification.entry "typing" t in
  (AIEngine.total_risk_of vr
   == match f with Some r => (1 - r.2) * 0.35 | None => 0 end
      + match t with Some r => (1 - r.2) * 0.25 | None => 0 end)%Q /\
  (AIEngine.total_weight_of vr
   == match f with Some _ => 0.35 | None => 0 end
      + match t with Some _ => 0.25 | None => 0 end)%Q.
Proof.
  assert (Kf : AIEngine.key_factor "face" = Some AIEngine.Face) by reflexivity.
  assert (Kt : AIEngine.key_factor "typing" = Some AIEngine.Typing) by reflexivity.
  unfold AIEngine.total_risk_of, AIEngine.total_weight_of, Verification.entry.
  destruct f as [[bf c]|], t as [[bt x]|]; cbn [app map];
    rewrite ?AIEngineFacts.Qsum_cons, AIEngineFacts.Qsum_nil;
    unfold AIEngine.item_risk, AIEngine.item_weight; cbn [fst snd];
    rewrite ?Kf, ?Kt;
    cbn [AIEngine.factor_risk AIEngine.factor_weight]; split; ring.
Qed.

(** The risk of the command's dict when at least one sample is
    verified. *)
Lemma command_risk (f t : option (bool * Q)) :
  match f with Some r => (0.7 <= r.2)%Q | None => True end ->
  match t with Some r => (0.65 <= r.2)%Q | None => True end ->
  is_Some f \/ is_Some t ->
  (AIEngine.predict_risk_level
     (Verification.entry "face" f ++ Verification.entry "typing" t) <= 0.35)%Q.
Proof.
  intros Hf Ht Hsome.
  destruct (command_sums f t) as [Hr Hw].
  apply VerificationFacts.predict_risk_level_at_most.
  - rewrite Hw. destruct f, t; try lra.
    destruct Hsome as [[? H]|[? H]]; discriminate H.
  - rewrite Hr, Hw. destruct f as [[bf c]|], t as [[bt x]|]; cbn [snd] in *;
      try lra.
Qed.

(** X29: [login] never looks at the password.  A user name that is
    not the name of user 1001 or 1002 returns [False], and so does a
    user found without any stored sample; neither changes the
    database.  For a user found with a stored face sample or typing
    pattern and a printable balance it returns [True] whatever the
    password and the confidences drawn, and appends a successful login
    record with a risk of at most 0.35. *)
Theorem login_ignores_password text db username password e :
  (List.find (matches db username) [1001; 1002]%Z = None ->
   login text db username password e = Returned false db) /\
  (forall user_id user_data,
     List.find (matches db username) [1001; 1002]%Z = Some user_id ->
     UserDatabase.get_user_detail db user_id = Some user_data ->
     user_data !! "stored_face" = None ->
     user_data !! "stored_typing_pattern" = None ->
     login text db username password e = Returned false db) /\
  (forall user_id user_data,
     in_ranges e ->
     List.find (matches db username) [1001; 1002]%Z = Some user_id ->
     UserDatabase.get_user_detail db user_id = Some user_data ->
     is_Some (user_data !! "stored_face")
     \/ is_Some (user_data !! "stored_typing_pattern") ->
     is_Some (Transfers.balance user_data) ->
     exists risk_level,
       (risk_level <= 0.35)%Q /\
       login text db username password e
       = Returned true
           (UserDatabase.add_login_record db user_id
              {| UserDatabase.lr_timestamp := Some (recorded_at e);
                 UserDatabase.lr_device_info :=
                   Some "Windows 11, Chrome 98.0.4758.102";
                 UserDatabase.lr_location := Some "48.8566,2.3522";
                 UserDatabase.lr_ip_address := Some "192.168.1.1";
                 UserDatabase.lr_success := Some true;
                 UserDatabase.lr_risk_level := Some risk_level |}
              (saved_at e)).2).
Proof.
  split; [|split].
  - intros Hfind. unfold login. rewrite Hfind. reflexivity.
  - intros user_id user_data Hfind Hdetail Hface Htyping.
    unfold login. rewrite Hfind, Hdetail, Hface, Htyping.
    rewrite collected_input_authenticates. reflexivity.
  - intros user_id user_data (Hf & Ht) Hfind Hdetail Hsome Hbalance.
    unfold login. rewrite Hfind, Hdetail.
    rewrite collected_input_authenticates.
    set (f := match user_data !! "stored_face" with
              | Some _ => Some (Qlt_bool 0.8 (face_confidence e), face_confidence e)
              | None => None
              end).
    set (t := match user_data !! "stored_typing_pattern" with
              | Some _ => Some (Qlt_bool 0.75 (typing_confidence e),
                                typing_confidence e)
              | None => None
              end).
    assert (Hrisk : (AIEngine.predict_risk_level
                       (Verification.entry "face" f
                        ++ Verification.entry "typing" t) <= 0.35)%Q).
    { apply command_risk.
      - subst f. destruct (user_data !! "stored_face"); [apply Hf|exact I].
      - subst t. destruct (user_data !! "stored_typing_pattern");
          [apply Ht|exact I].
      - subst f t. destruct Hsome as [[x Hx]|[x Hx]]; rewrite Hx;
          [left|right]; eexists; reflexivity. }
    exists (AIEngine.predict_risk_level
              (Verification.entry "face" f ++ Verification.entry "typing" t)).
    split; [exact Hrisk|].
    assert (Hlt : Qlt_bool (AIEngine.predict_risk_level
                              (Verification.entry "face" f
                               ++ Verification.entry "typing" t)) 0.5 = true).
    { apply Qlt_bool_iff. eapply Qle_lt_trans; [exact Hrisk|reflexivity]. }
    destruct Hbalance as [b Hb]. unfold Transfers.balance in Hb.
    subst f t. cbn [collect_input Authentication.face_data
                    Authentication.typing_pattern Authentication.device_info
                    Authentication.location default from_option id].
    unfold Verification.verify_face, Verification.analyze_typing.
    destruct (user_data !! "stored_face"), (user_data !! "stored_typing_pattern");
      cbn [Verification.entry app fst snd andb] in *;
      rewrite Hlt; cbn [andb];
      (destruct (user_data !! "balance") as [[[?|?|?|?]|?|?]|];
         first [reflexivity|discriminate Hb]).
Qed.

Lemma login_ignores_password_witness :
  let text := fun v => match v with
                       | UserDatabase.Plain (UserDatabase.Str sample) => sample
                       | _ => "?"
                       end in
  let db :=
    (UserDatabase.add_user UserDatabase.empty 1001
       (<["username" := UserDatabase.Str "angel_abubakar"]>
          (<["face_data" := UserDatabase.Str "base64_encoded_face_data_for_angel"]>
             {["balance" := UserDatabase.Num 5000]}))).2 in
  let e := {| now := {| Authentication.hour := 3;
                        Authentication.isoformat := "2025-01-01T03:00:00" |};
              face_confidence := 0.7;
              typing_confidence := 0.65;
              recorded_at := "2025-01-01T03:00:01";
              saved_at := "2025-01-01T03:00:02";
              entered_code := "" |} in
  (exists risk_level db1,
     login text db "angel_abubakar" "not the password" e
     = Returned true db1 /\
     UserDatabase.lr_risk_level
       <$> last (UserDatabase.history_of db1 1001) = Some (Some risk_level) /\
     (risk_level <= 0.35)%Q) /\
  login text db "ahmad_ali" "Password@456" e = Returned false db.
Proof.
  intros text db e.
  pose proof (login_ignores_password text db "angel_abubakar"
                "not the password" e) as (_ & _ & Hin).
  pose proof (login_ignores_password text db "ahmad_ali" "Password@456" e)
    as (Hout & _).
  split; [|apply Hout; vm_compute; reflexivity].
  assert (Hd : exists user_data,
             UserDatabase.get_user_detail db 1001 = Some user_data /\
             is_Some (user_data !! "stored_face") /\
             is_Some (Transfers.balance user_data)).
  { eexists. split; [reflexivity|].
    split; apply (bool_decide_unpack _); vm_compute; exact I. }
  destruct Hd as (user_data & Hd & Hface & Hbal).
  destruct (Hin 1001%Z user_data) as (risk_level & Hle & Hlogin).
  - split; split; vm_compute; discriminate.
  - vm_compute. reflexivity.
  - exact Hd.
  - left. exact Hface.
  - exact Hbal.
  - exists risk_level. eexists. split; [exact Hlogin|]. split; [|exact Hle].
    unfold UserDatabase.add_login_record, UserDatabase.history_of.
    rewrite decide_True by (apply (bool_decide_unpack _); vm_compute; exact I).
    cbn [snd UserDatabase.historical_logins UserDatabase.lr_timestamp].
    rewrite lookup_insert_eq. cbn [default from_option id].
    rewrite last_snoc. reflexivity.
Defined.

End LoginFacts.

(** ** Placeholder encryption *)

Module EncryptionFacts.
Import Encryption.

Lemma prefix_cons_ne (a b : ascii) (p s : string) :
  a <> b -> String.prefix (String a p) (String b s) = false.
Proof. intros Hab. simpl. destruct (ascii_dec a b); [contradiction|reflexivity]. Qed.

Lemma prefix_cons_eq (a : ascii) (p s : string) :
  String.prefix (String a p) (String a s) = String.prefix p s.
Proof. simpl. destruct (ascii_dec a a); [reflexivity|contradiction]. Qed.

Lemma prefix_app (p r : string) : String.prefix p (p +:+ r) = true.
Proof.
  induction p as [|c p IH]; [destruct r; reflexivity|].
  change (String.prefix (String c p) (String c (p +:+ r)) = true).
  rewrite prefix_cons_eq. exact IH.
Qed.

Lemma plain_cons c s :
  plain (String c s) = true <-> c <> "_"%char /\ plain s = true.
Proof.
  cbn. rewrite andb_true_iff, negb_true_iff. split.
  - intros [Hc Hs]. split; [|exact Hs]. intros ->. discriminate.
  - intros [Hc Hs]. split; [|exact Hs]. apply Ascii.eqb_neq, Hc.
Qed.

(** A prefix of a text without underscore has none. *)
Lemma prefix_plain p s :
  String.prefix p s = true -> plain s = true -> plain p = true.
Proof.
  revert s. induction p as [|a p IH]; intros s Hp Hs; [reflexivity|].
  destruct s as [|b s]; [discriminate|].
  cbn in Hp. destruct (ascii_dec a b) as [->|]; [|discriminate].
  apply plain_cons in Hs. destruct Hs as [Hb Hs].
  apply plain_cons. split; [exact Hb|]. exact (IH s Hp Hs).
Qed.

Lemma contains_unfold (needle hay : string) :
  UserDatabase.contains needle hay
  = String.prefix needle hay
    || match hay with
       | EmptyString => false
       | String _ rest => UserDatabase.contains needle rest
       end.
Proof. destruct hay; reflexivity. Qed.

Lemma before_unfold (sep s : string) :
  before sep s
  = if String.prefix sep s then EmptyString
    else match s with
         | EmptyString => EmptyString
         | String c rest => String c (before sep rest)
         end.
Proof. destruct s; reflexivity. Qed.

Lemma contains_prefix (p s : string) :
  String.prefix p s = true -> UserDatabase.contains p s = true.
Proof. intros H. rewrite contains_unfold, H. reflexivity. Qed.

Lemma contains_app_r (sep a t : string) :
  UserDatabase.contains sep t = true -> UserDatabase.contains sep (a +:+ t) = true.
Proof.
  intros Ht. induction a as [|c a IH]; [exact Ht|].
  change (String c a +:+ t) with (String c (a +:+ t)).
  rewrite contains_unfold, IH. apply orb_true_r.
Qed.

Lemma prefix_app_cons_inv (a c : ascii) (p d t : string) :
  String.prefix (String a p) (String c d +:+ t) = true ->
  a = c /\ String.prefix p (d +:+ t) = true.
Proof.
  change (String c d +:+ t) with (String c (d +:+ t)). simpl.
  destruct (ascii_dec a c); [intros H; split; assumption|discriminate].
Qed.

(** The separator does not start at the underscore that ends the
    opening marker. *)
Lemma no_separator_at_marker data r :
  plain data = true ->
  String.prefix "WITH_KEY_" (data +:+ "_WITH_KEY_" +:+ r) = false.
Proof.
  intros Hd.
  destruct (String.prefix "WITH_KEY_" (data +:+ "_WITH_KEY_" +:+ r)) eqn:Hp;
    [|reflexivity].
  exfalso.
  do 5 (destruct data as [|? data];
        [vm_compute in Hp; discriminate Hp
        |apply prefix_app_cons_inv in Hp as [<- Hp]]).
  cbn in Hd. discriminate Hd.
Qed.

Lemma before_separator data r :
  plain data = true ->
  before "_WITH_KEY_" (data +:+ "_WITH_KEY_" +:+ r) = data.
Proof.
  induction data as [|c data IH]; intros Hd.
  - pose proof (prefix_app "_WITH_KEY_" r) as Hp.
    change ("" +:+ "_WITH_KEY_" +:+ r) with ("_WITH_KEY_" +:+ r).
    rewrite before_unfold, Hp. reflexivity.
  - apply plain_cons in Hd. destruct Hd as [Hc Hd].
    change (before "_WITH_KEY_" (String c (data +:+ "_WITH_KEY_" +:+ r))
            = String c data).
    rewrite before_unfold.
    rewrite prefix_cons_ne by (intros E; apply Hc; symmetry; exact E).
    rewrite (IH Hd). reflexivity.
Qed.

Lemma remove_plain s :
  plain s = true -> remove_from "ENCRYPTED_" 0 s = s.
Proof.
  induction s as [|c s IH]; intros Hs; [reflexivity|].
  cbn [remove_from].
  destruct (String.prefix "ENCRYPTED_" (String c s)) eqn:Hp.
  - apply (prefix_plain _ _ Hp) in Hs. discriminate.
  - apply plain_cons in Hs. rewrite (IH (proj2 Hs)). reflexivity.
Qed.

Lemma remove_from_skip (old a s : string) :
  remove_from old (String.length a) (a +:+ s) = remove_from old 0 s.
Proof. induction a as [|c a IH]; [reflexivity|exact IH]. Qed.

(** A leading occurrence is left out. *)
Lemma remove_leading (c : ascii) (old s : string) :
  remove_from (String c old) 0 (String c old +:+ s)
  = remove_from (String c old) 0 s.
Proof.
  pose proof (prefix_app (String c old) s) as Hp.
  change (String c old +:+ s) with (String c (old +:+ s)) in *.
  change (remove_from (String c old) 0 (String c (old +:+ s)))
    with (if String.prefix (String c old) (String c (old +:+ s))
          then remove_from (String c old) (String.length (String c old) - 1)
                 (old +:+ s)
          else String c (remove_from (String c old) 0 (old +:+ s))).
  rewrite Hp.
  change (String.length (String c old) - 1) with (String.length old - 0).
  rewrite Nat.sub_0_r. apply remove_from_skip.
Qed.

Lemma append_assoc (a b c : string) : (a +:+ b) +:+ c = a +:+ b +:+ c.
Proof.
  induction a as [|x a IH]; [reflexivity|].
  change (String x ((a +:+ b) +:+ c) = String x (a +:+ b +:+ c)).
  rewrite IH. reflexivity.
Qed.

(** A marked text whose payload has no underscore decrypts to the
    payload, whatever follows the separator and whatever the key. *)
Lemma decrypt_marked data rest key :
  plain data = true ->
  decrypt_sensitive_data ("ENCRYPTED_" +:+ data +:+ "_WITH_KEY_" +:+ rest) key
  = data.
Proof.
  intros Hd. unfold decrypt_sensitive_data.
  rewrite prefix_app.
  rewrite (contains_app_r "_WITH_KEY_" "ENCRYPTED_"
             (data +:+ "_WITH_KEY_" +:+ rest))
    by (apply contains_app_r, contains_prefix, prefix_app).
  cbn [andb].
  assert (Hb : before "_WITH_KEY_" ("ENCRYPTED_" +:+ data +:+ "_WITH_KEY_" +:+ rest)
               = "ENCRYPTED_" +:+ data).
  { change ("ENCRYPTED_" +:+ data +:+ "_WITH_KEY_" +:+ rest)
      with (String "E" (String "N" (String "C" (String "R" (String "Y"
             (String "P" (String "T" (String "E" (String "D" (String "_"
               (data +:+ "_WITH_KEY_" +:+ rest))))))))))).
    do 9 (rewrite before_unfold, prefix_cons_ne by discriminate; f_equal).
    rewrite before_unfold, prefix_cons_eq, (no_separator_at_marker _ _ Hd).
    rewrite (before_separator _ _ Hd). reflexivity. }
  rewrite Hb. unfold remove.
  rewrite (remove_leading "E" "NCRYPTED_" data). apply remove_plain, Hd.
Qed.

(** X27: a text without underscore survives encryption followed by
    decryption, and decryption gives it back under any key, not only
    the one used to encrypt. *)
Theorem decrypt_encrypt_round_trip data key key' :
  plain data = true ->
  decrypt_sensitive_data (encrypt_sensitive_data data key) key' = data.
Proof. intros Hd. apply decrypt_marked, Hd. Qed.

Lemma decrypt_encrypt_round_trip_witness :
  decrypt_sensitive_data
    (encrypt_sensitive_data "4111-1111-1111-1111"
       [Byte.xab; Byte.x01; Byte.xff; Byte.x10; Byte.x22])
    [Byte.x00]
  = "4111-1111-1111-1111".
Proof.
  exact (decrypt_encrypt_round_trip "4111-1111-1111-1111"
           [Byte.xab; Byte.x01; Byte.xff; Byte.x10; Byte.x22] [Byte.x00]
           eq_refl).
Defined.

(** X28: a text that holds the separator [_WITH_KEY_] after a part
    without underscore does not survive: decryption gives back only
    the part before the separator. *)
Theorem decrypt_cuts_at_separator data lost key key' :
  plain data = true ->
  decrypt_sensitive_data
    (encrypt_sensitive_data (data +:+ "_WITH_KEY_" +:+ lost) key) key'
  = data.
Proof.
  intros Hd. unfold encrypt_sensitive_data.
  rewrite <- (decrypt_marked data
                (lost +:+ "_WITH_KEY_" +:+ first_chars 8 (hex key)) key' Hd)
    at 2.
  f_equal. f_equal. rewrite append_assoc. reflexivity.
Qed.

Lemma decrypt_cuts_at_separator_witness :
  decrypt_sensitive_data
    (encrypt_sensitive_data "pin_WITH_KEY_1234" [Byte.xab; Byte.x01]) []
  = "pin".
Proof.
  exact (decrypt_cuts_at_separator "pin" "1234" [Byte.xab; Byte.x01] []
           eq_refl).
Defined.

End EncryptionFacts.
